(** * ObaNet: authentication and session lifecycle

    A shallow embedding of the authentication core of the ObaNet backend:
    the Redis helpers ([config/redis.js]), the User model's token methods
    ([models/User.js]), the middleware of [middleware/auth.js], the
    controllers of [controllers/authController.js] and the public part of
    the router [routes/auth.js].

    Conventions.
    - The clock is [Date.now()]: an integer number of milliseconds, passed
      to every operation as [now].  jsonwebtoken works on whole seconds
      ([now / 1000]); Redis TTLs are given in seconds.
    - Asynchronous code is run to completion: an [await]ed call is a
      function call, and the state of MongoDB and Redis is passed
      explicitly ([world]).
    - MongoDB is taken to answer every query; the Redis client may be
      unavailable ([isReady = false]), which is what the helpers test. *)

From Stdlib Require Import ZArith Lia List Bool.
From stdpp Require Import base decidable option strings.
Import ListNotations.

Open Scope string_scope.
Open Scope Z_scope.

(** ** Configuration ([config/config.js]) *)

(** The [jwt] block.  The two lifetimes are read from the environment
    ('7d', '30d' by default); they are kept here as the number of seconds
    jsonwebtoken derives from them. *)
Record config := {
  jwt_secret : string;
  jwt_expiresIn : Z;
  jwt_refreshSecret : string;
  jwt_refreshExpiresIn : Z
}.

Definition default_config : config := {|
  jwt_secret := "fallback-secret-key-change-in-production";
  jwt_expiresIn := 7 * 24 * 60 * 60;
  jwt_refreshSecret := "fallback-refresh-secret";
  jwt_refreshExpiresIn := 30 * 24 * 60 * 60
|}.

(** [config.cache.ttl], in seconds. *)
Definition cache_ttl_short : Z := 60 * 5.
Definition cache_ttl_medium : Z := 60 * 60.
Definition cache_ttl_user : Z := 60 * 30.

(** ** The token signer (jsonwebtoken, HS256)

    jsonwebtoken is an npm dependency, so it is modelled symbolically and
    after section 4.1 of the specification: a token is either a well-formed
    JWT, which records the secret its signature was made with and its
    claims, or any other string.  [verify] fails with an error named
    JsonWebTokenError when the structure or the signature is wrong and with
    TokenExpiredError when the signature is right and the clock has reached
    the embedded expiry. *)
Module jwt.

Record payload := {
  p_userId : string;
  p_email : option string;
  p_username : option string;
  p_role : option string;
  p_type : option string
}.

Record claims := {
  c_payload : payload;
  c_iat : Z;
  c_exp : Z
}.

Inductive token :=
| Signed (secret : string) (c : claims)
| Opaque (s : string).

Inductive result :=
| Decoded (c : claims)
| Thrown (name : string).

Definition sign (p : payload) (secret : string) (expiresIn : Z) (now : Z) : token :=
  let iat := now / 1000 in
  Signed secret {| c_payload := p; c_iat := iat; c_exp := iat + expiresIn |}.

Definition verify (t : token) (secret : string) (now : Z) : result :=
  match t with
  | Opaque _ => Thrown "JsonWebTokenError"
  | Signed k c =>
      if decide (k = secret)
      then if c_exp c <=? now / 1000
           then Thrown "TokenExpiredError"
           else Decoded c
      else Thrown "JsonWebTokenError"
  end.

#[global] Instance payload_eq_dec : EqDecision payload.
Proof. solve_decision. Defined.
#[global] Instance claims_eq_dec : EqDecision claims.
Proof. solve_decision. Defined.
#[global] Instance token_eq_dec : EqDecision token.
Proof. solve_decision. Defined.

End jwt.

Abbreviation token := jwt.token.

(** JavaScript truthiness of a token held in a variable: only the empty
    string is falsy. *)
Definition token_truthy (t : token) : bool :=
  match t with
  | jwt.Opaque s => negb (bool_decide (s = ""))
  | jwt.Signed _ _ => true
  end.

(** ** One-way functions (bcryptjs, crypto)

    Both are modelled symbolically: a digest remembers what it was made
    from and can only be compared.  Strings are the UTF-8 bytes of the
    JavaScript strings. *)
Record bcrypt_hash := { bh_salt : string; bh_plain : string }.

(** What bcrypt reads of a password: the Blowfish key schedule takes 72
    bytes (18 words) from the bytes of the password followed by a zero
    byte, starting over at the first byte when they run out.  A long
    password counts for its first 72 bytes only. *)
Definition bcrypt_key (plain : string) : string :=
  String.substring 0 72 (String.concat "" (repeat (plain ++ String Ascii.zero EmptyString) 72)).

(** [bcrypt.compare]: the hash of the candidate under the salt of [h]
    is the text of [h]; two hashes under one salt agree when the keys
    do. *)
Definition bcrypt_compare (candidate : string) (h : bcrypt_hash) : bool :=
  bool_decide (bcrypt_key candidate = bcrypt_key (bh_plain h)).

(** [String.prototype.length], in UTF-16 code units, of the string
    whose UTF-8 bytes are [s]: one for each byte that starts a
    character, and one more when the character takes four bytes. *)
Fixpoint js_length (s : string) : Z :=
  match s with
  | EmptyString => 0
  | String a rest =>
      let b := Z.of_nat (Ascii.nat_of_ascii a) in
      (if (128 <=? b) && (b <? 192) then 0 else 1)
      + (if 240 <=? b then 1 else 0)
      + js_length rest
  end.

Inductive sha256_digest := Sha256 (input : string).

#[global] Instance bcrypt_hash_eq_dec : EqDecision bcrypt_hash.
Proof. solve_decision. Defined.
#[global] Instance sha256_digest_eq_dec : EqDecision sha256_digest.
Proof. solve_decision. Defined.

(** ** The User model ([models/User.js]) *)

Record loginRecord := {
  lr_timestamp : Z;
  lr_ip : string;
  lr_userAgent : option string;
  lr_location : string
}.

Record diasporaProfile := {
  currentCountry : string;
  currentCity : string;
  originCity : string;
  yearsInDiaspora : Z
}.

(** A user document.  A field that a projection leaves out, or that was
    never set, is [None]. *)
Record user := {
  u_id : string;
  firstName : string;
  lastName : string;
  username : string;
  email : string;
  password : option bcrypt_hash;
  u_diasporaProfile : diasporaProfile;
  profile_avatar : option string;
  status : string;
  role : string;
  isEmailVerified : bool;
  emailVerificationToken : option sha256_digest;
  emailVerificationExpires : option Z;
  passwordResetToken : option sha256_digest;
  passwordResetExpires : option Z;
  stats_diasporaScore : Z;
  lastActive : Z;
  loginHistory : list loginRecord
}.

#[global] Instance loginRecord_eq_dec : EqDecision loginRecord.
Proof. solve_decision. Defined.
#[global] Instance diasporaProfile_eq_dec : EqDecision diasporaProfile.
Proof. solve_decision. Defined.
#[global] Instance user_eq_dec : EqDecision user.
Proof. solve_decision. Defined.

Definition set_password (p : option bcrypt_hash) (u : user) : user :=
  {| u_id := u_id u; firstName := firstName u; lastName := lastName u;
     username := username u; email := email u; password := p;
     u_diasporaProfile := u_diasporaProfile u; profile_avatar := profile_avatar u;
     status := status u; role := role u; isEmailVerified := isEmailVerified u;
     emailVerificationToken := emailVerificationToken u;
     emailVerificationExpires := emailVerificationExpires u;
     passwordResetToken := passwordResetToken u;
     passwordResetExpires := passwordResetExpires u;
     stats_diasporaScore := stats_diasporaScore u;
     lastActive := lastActive u; loginHistory := loginHistory u |}.

Definition set_emailVerification (t : option sha256_digest) (e : option Z) (u : user) : user :=
  {| u_id := u_id u; firstName := firstName u; lastName := lastName u;
     username := username u; email := email u; password := password u;
     u_diasporaProfile := u_diasporaProfile u; profile_avatar := profile_avatar u;
     status := status u; role := role u; isEmailVerified := isEmailVerified u;
     emailVerificationToken := t;
     emailVerificationExpires := e;
     passwordResetToken := passwordResetToken u;
     passwordResetExpires := passwordResetExpires u;
     stats_diasporaScore := stats_diasporaScore u;
     lastActive := lastActive u; loginHistory := loginHistory u |}.

Definition set_passwordReset (t : option sha256_digest) (e : option Z) (u : user) : user :=
  {| u_id := u_id u; firstName := firstName u; lastName := lastName u;
     username := username u; email := email u; password := password u;
     u_diasporaProfile := u_diasporaProfile u; profile_avatar := profile_avatar u;
     status := status u; role := role u; isEmailVerified := isEmailVerified u;
     emailVerificationToken := emailVerificationToken u;
     emailVerificationExpires := emailVerificationExpires u;
     passwordResetToken := t;
     passwordResetExpires := e;
     stats_diasporaScore := stats_diasporaScore u;
     lastActive := lastActive u; loginHistory := loginHistory u |}.

Definition set_lastActive (t : Z) (u : user) : user :=
  {| u_id := u_id u; firstName := firstName u; lastName := lastName u;
     username := username u; email := email u; password := password u;
     u_diasporaProfile := u_diasporaProfile u; profile_avatar := profile_avatar u;
     status := status u; role := role u; isEmailVerified := isEmailVerified u;
     emailVerificationToken := emailVerificationToken u;
     emailVerificationExpires := emailVerificationExpires u;
     passwordResetToken := passwordResetToken u;
     passwordResetExpires := passwordResetExpires u;
     stats_diasporaScore := stats_diasporaScore u;
     lastActive := t; loginHistory := loginHistory u |}.

Definition set_loginHistory (h : list loginRecord) (u : user) : user :=
  {| u_id := u_id u; firstName := firstName u; lastName := lastName u;
     username := username u; email := email u; password := password u;
     u_diasporaProfile := u_diasporaProfile u; profile_avatar := profile_avatar u;
     status := status u; role := role u; isEmailVerified := isEmailVerified u;
     emailVerificationToken := emailVerificationToken u;
     emailVerificationExpires := emailVerificationExpires u;
     passwordResetToken := passwordResetToken u;
     passwordResetExpires := passwordResetExpires u;
     stats_diasporaScore := stats_diasporaScore u;
     lastActive := lastActive u; loginHistory := h |}.

(** [userSchema.methods.generateAuthToken] *)
Definition generateAuthToken (cfg : config) (now : Z) (this : user) : token :=
  let payload := {| jwt.p_userId := u_id this;
                    jwt.p_email := Some (email this);
                    jwt.p_username := Some (username this);
                    jwt.p_role := Some (role this);
                    jwt.p_type := None |} in
  jwt.sign payload (jwt_secret cfg) (jwt_expiresIn cfg) now.

(** [userSchema.methods.generateRefreshToken] *)
Definition generateRefreshToken (cfg : config) (now : Z) (this : user) : token :=
  let payload := {| jwt.p_userId := u_id this;
                    jwt.p_email := None;
                    jwt.p_username := None;
                    jwt.p_role := None;
                    jwt.p_type := Some "refresh" |} in
  jwt.sign payload (jwt_refreshSecret cfg) (jwt_refreshExpiresIn cfg) now.

(** [userSchema.methods.comparePassword]; on a document loaded without
    its password bcrypt has nothing to compare with. *)
Definition comparePassword (this : user) (candidatePassword : string) : bool :=
  match password this with
  | Some h => bcrypt_compare candidatePassword h
  | None => false
  end.

(** *** The users collection

    Queries return the first matching document.  The schema declares
    [password] with [select: false], so a query leaves it out unless it
    asks for it. *)
Module User.

Definition collection := list user.

Definition project_default (u : user) : user := set_password None u.

(** [.select('-password -emailVerificationToken -passwordResetToken')] *)
Definition project_identity (u : user) : user :=
  set_passwordReset None (passwordResetExpires u)
    (set_emailVerification None (emailVerificationExpires u)
       (set_password None u)).

Definition raw_findById (id : string) (db : collection) : option user :=
  find (fun u => bool_decide (u_id u = id)) db.

(** The document with the address [e].  Mongoose casts the filter of a
    query through the schema, whose [lowercase] setter leaves an address
    in lower case as it is; [e] is an address in that form, as the
    validators of the register and login routes hand it over and as
    the collection stores it. *)
Definition raw_findByEmail (e : string) (db : collection) : option user :=
  find (fun u => bool_decide (email u = e)) db.

(** [User.findById(id)] *)
Definition findById (id : string) (db : collection) : option user :=
  project_default <$> raw_findById id db.

(** [User.findOne({ email })] *)
Definition findOne_email (e : string) (db : collection) : option user :=
  project_default <$> raw_findByEmail e db.

(** [User.findOne({ $or: [{ email }, { username }] })] *)
Definition findOne_email_or_username (e n : string) (db : collection) : option user :=
  project_default <$>
    find (fun u => bool_decide (email u = e) || bool_decide (username u = n)) db.

(** Writing the modified paths of a loaded document back ([doc.save()],
    [findByIdAndUpdate]). *)
Definition update (id : string) (f : user -> user) (db : collection) : collection :=
  map (fun u => if bool_decide (u_id u = id) then f u else u) db.

End User.

(** ** Redis ([config/redis.js])

    The keys are the template strings of the source; each constructor
    stands for one prefix and carries what is interpolated after it.
    (The code reads a blacklist key only for a token that has just been
    verified, and a JWT contains no colon, so the prefixes `blacklist:`
    and `blacklist:refresh:` never meet.)  A value is what [JSON.parse]
    gives back for what was stored; the server itself holds the text,
    which is what a GET returns. *)
Module redis.

Inductive key :=
| blacklist (t : token)              (* `blacklist:${token}` *)
| blacklist_refresh (t : token)      (* `blacklist:refresh:${token}` *)
| refresh_token (userId : string)    (* `refresh_token:${userId}` *)
| diaspora (userId : string)         (* `diaspora:${userId}` *)
| rate_limit_user (userId : string). (* `rate_limit:user:${userId}` *)

#[global] Instance key_eq_dec : EqDecision key.
Proof. solve_decision. Defined.

Inductive value :=
| VString (s : string)
| VToken (t : token)
| VUser (u : user)
| VInt (n : Z).

(** The text that the server holds: [JSON.stringify(v)], which for a
    number is the decimal text that INCR counts on. *)
Inductive text := JSON_stringify (v : value).

Definition JSON_parse (t : text) : value :=
  match t with JSON_stringify v => v end.

(** An entry, by the value whose text it holds, and the instant (ms) at
    which the server drops it, if any. *)
Record entry := { e_value : value; e_expireAt : option Z }.

(** The module-level [redisClient]: [isReady] is false when the handle is
    null or not connected. *)
Record client := { isReady : bool; keys : key -> option entry }.

Definition expired (now : Z) (e : entry) : bool :=
  match e_expireAt e with
  | Some t => t <=? now
  | None => false
  end.

(** What the server still holds under [k] at [now]. *)
Definition live (now : Z) (c : client) (k : key) : option entry :=
  match keys c k with
  | Some e => if expired now e then None else Some e
  | None => None
  end.

Definition write (k : key) (e : option entry) (c : client) : client :=
  {| isReady := isReady c;
     keys := fun k' => if decide (k' = k) then e else keys c k' |}.

Definition empty (ready : bool) : client :=
  {| isReady := ready; keys := fun _ => None |}.

(** The commands the helpers issue, with the semantics of the Redis
    server (an external store: a key/value map with per-key expiry).
    [None] is an error reply, which the client library raises as an
    exception. *)
Definition GET (now : Z) (c : client) (k : key) : option text :=
  (fun e => JSON_stringify (e_value e)) <$> live now c k.

Definition SETEX (now : Z) (c : client) (k : key) (seconds : Z) (t : text)
  : option client :=
  if 0 <? seconds
  then Some (write k (Some {| e_value := JSON_parse t;
                              e_expireAt := Some (now + seconds * 1000) |}) c)
  else None.

Definition DEL (c : client) (k : key) : client := write k None c.

Definition EXISTS (now : Z) (c : client) (k : key) : Z :=
  match live now c k with Some _ => 1 | None => 0 end.

(** INCR creates the counter at 1, without expiry, when the key is not
    there, keeps the expiry of a counter that is, and refuses a value
    that is not an integer. *)
Definition INCR (now : Z) (c : client) (k : key) : option (client * Z) :=
  match live now c k with
  | Some {| e_value := VInt n; e_expireAt := x |} =>
      Some (write k (Some {| e_value := VInt (n + 1); e_expireAt := x |}) c, n + 1)
  | Some _ => None
  | None => Some (write k (Some {| e_value := VInt 1; e_expireAt := None |}) c, 1)
  end.

(** EXPIRE with a TTL that is not positive deletes the key. *)
Definition EXPIRE (now : Z) (c : client) (k : key) (seconds : Z) : client :=
  match live now c k with
  | Some e =>
      if 0 <? seconds
      then write k (Some {| e_value := e_value e; e_expireAt := Some (now + seconds * 1000) |}) c
      else write k None c
  | None => c
  end.

End redis.

Module redisUtils.
Import redis.

(** [redisUtils.get]: the stored text as it is, or null. *)
Definition get (now : Z) (c : client) (k : key) : option text :=
  if isReady c then GET now c k else None.

(** [redisUtils.set] *)
Definition set (now : Z) (c : client) (k : key) (v : value) (ttl : Z) : client * bool :=
  if isReady c
  then match SETEX now c k ttl (JSON_stringify v) with
       | Some c' => (c', true)
       | None => (c, false)
       end
  else (c, false).

(** [redisUtils.del] *)
Definition del (c : client) (k : key) : client * bool :=
  if isReady c then (DEL c k, true) else (c, false).

(** [redisUtils.exists] *)
Definition exists_ (now : Z) (c : client) (k : key) : bool :=
  if isReady c then bool_decide (EXISTS now c k = 1) else false.

(** [redisUtils.incr] *)
Definition incr (now : Z) (c : client) (k : key) (ttl : Z) : client * Z :=
  if isReady c
  then match INCR now c k with
       | Some (c1, result) =>
           if decide (result = 1)
           then (EXPIRE now c1 k ttl, result)
           else (c1, result)
       | None => (c, 1)
       end
  else (c, 1).

(** [redisUtils.cacheDiasporaData] *)
Definition cacheDiasporaData (now : Z) (c : client) (userId : string) (diasporaInfo : user)
  : client * bool :=
  set now c (diaspora userId) (VUser diasporaInfo) cache_ttl_user.

(** [redisUtils.getDiasporaData]: [data ? JSON.parse(data) : null],
    where [data], a JSON text, is never the empty string. *)
Definition getDiasporaData (now : Z) (c : client) (userId : string) : option value :=
  JSON_parse <$> get now c (diaspora userId).

End redisUtils.

(** JavaScript truthiness of a value read back from the cache. *)
Definition truthy (v : redis.value) : bool :=
  match v with
  | redis.VString s => negb (bool_decide (s = ""))
  | redis.VToken t => token_truthy t
  | redis.VUser _ => true
  | redis.VInt n => negb (n =? 0)
  end.

(** ** The world: the users collection and the Redis client *)
Record world := { db : User.collection; cache : redis.client }.

Definition with_cache (c : redis.client) (w : world) : world :=
  {| db := db w; cache := c |}.

Definition with_db (d : User.collection) (w : world) : world :=
  {| db := d; cache := cache w |}.

(** ** Requests and responses *)

(** The Authorization header: 'Bearer ' followed by a token, or any other
    non-empty string.  A missing or empty header is [None]. *)
Inductive auth_header :=
| Bearer (t : token)
| NotBearer (s : string).

(** [req.user]: never assigned, assigned null, or an identity. *)
Inductive user_slot :=
| Unset
| Null
| Identity (u : user).

Record request := {
  authorization : option auth_header;
  body_refreshToken : option token;
  req_ip : string;
  req_userAgent : option string;
  req_country : option string;
  req_user : user_slot;
  req_refreshToken : option token
}.

Definition set_req_user (s : user_slot) (r : request) : request :=
  {| authorization := authorization r; body_refreshToken := body_refreshToken r;
     req_ip := req_ip r; req_userAgent := req_userAgent r; req_country := req_country r;
     req_user := s; req_refreshToken := req_refreshToken r |}.

Definition set_req_refreshToken (t : option token) (r : request) : request :=
  {| authorization := authorization r; body_refreshToken := body_refreshToken r;
     req_ip := req_ip r; req_userAgent := req_userAgent r; req_country := req_country r;
     req_user := req_user r; req_refreshToken := t |}.

(** The user object of the authentication envelope. *)
Record public_user := {
  pu_id : string;
  pu_firstName : string;
  pu_lastName : string;
  pu_username : string;
  pu_email : string;
  pu_role : string;
  pu_isEmailVerified : bool;
  pu_diasporaProfile : diasporaProfile;
  pu_avatar : option string;
  pu_diasporaScore : Z
}.

Record token_envelope := {
  accessToken : token;
  refreshToken_ : token;
  expiresIn : Z
}.

Inductive payload_data :=
| NoData
| Tokens (t : token_envelope)
| UserAndTokens (u : public_user) (t : token_envelope).

(** The text of a message; the rate limiter interpolates numbers:
    `Too many requests. Limit: ${maxRequests} per ${windowMs / 60000} minutes`. *)
Inductive message :=
| Text (s : string)
| TooManyRequests (maxRequests windowMs : Z).

Record response := {
  r_status : Z;
  r_success : bool;
  r_error : option string;
  r_message : option message;
  r_code : option string;
  r_retryAfter : option Z;
  r_data : payload_data
}.

(** [new AppError(message, statusCode, code)] *)
Record AppError := {
  ae_message : string;
  ae_statusCode : Z;
  ae_code : string
}.

(** What can be thrown: an operational [AppError], or an exception of the
    runtime or of a driver, kept by name. *)
Inductive exn :=
| Operational (e : AppError)
| Runtime (name : string).

(** How a middleware or a controller ends: it calls [next] (with the
    headers it has set on the response, and possibly an error), it sends
    a response, or it throws, which [catchAsync] hands to the error
    handler. *)
Inductive outcome :=
| Next (err : option exn) (req : request) (headers : list (string * Z))
| Respond (res : response)
| Throw (e : exn).

Definition throw_AppError (msg : string) (st : Z) (code : string) : outcome :=
  Throw (Operational {| ae_message := msg; ae_statusCode := st; ae_code := code |}).

Definition fail (st : Z) (err : string) (msg : option string) (code : string) : response :=
  {| r_status := st; r_success := false; r_error := Some err;
     r_message := Text <$> msg; r_code := Some code;
     r_retryAfter := None; r_data := NoData |}.

Definition ok (st : Z) (msg : string) (d : payload_data) : response :=
  {| r_status := st; r_success := true; r_error := None;
     r_message := Some (Text msg); r_code := None;
     r_retryAfter := None; r_data := d |}.

(** ** The middleware ([middleware/auth.js]) *)

Definition res_no_token : response :=
  fail 401 "Access denied" (Some "No valid token provided") "NO_TOKEN".
Definition res_token_expired : response :=
  fail 401 "Token expired" (Some "Please refresh your token") "TOKEN_EXPIRED".
Definition res_invalid_token : response :=
  fail 401 "Invalid token" (Some "Token is malformed or invalid") "INVALID_TOKEN".
Definition res_token_revoked : response :=
  fail 401 "Token revoked" (Some "This token has been revoked") "TOKEN_REVOKED".
Definition res_user_not_found : response :=
  fail 401 "User not found" (Some "Token is valid but user no longer exists") "USER_NOT_FOUND".
Definition res_account_suspended (st : string) : response :=
  fail 403 "Account suspended" (Some ("Your account is " ++ st)) "ACCOUNT_SUSPENDED".
Definition res_auth_service_error : response :=
  fail 500 "Internal server error"
       (Some "Authentication service temporarily unavailable") "AUTH_SERVICE_ERROR".

(** The end of [authenticate], from the status check on, for the user
    document [u] that was resolved. *)
Definition attach_if_active (now : Z) (w : world) (req : request) (u : user) : world * outcome :=
  if decide (status u = "active")
  then
    let req' := set_req_user (Identity u) req in
    let w' := with_db (User.update (u_id u) (set_lastActive now) (db w)) w in
    (w', Next None req' [])
  else (w, Respond (res_account_suspended (status u))).

(** [authenticate] *)
Definition authenticate (cfg : config) (now : Z) (w : world) (req : request)
  : world * outcome :=
  match authorization req with
  | Some (Bearer token) =>
      match jwt.verify token (jwt_secret cfg) now with
      | jwt.Thrown name =>
          if decide (name = "TokenExpiredError") then (w, Respond res_token_expired)
          else if decide (name = "JsonWebTokenError") then (w, Respond res_invalid_token)
          else (w, Respond res_auth_service_error)
      | jwt.Decoded decoded =>
          let userId := jwt.p_userId (jwt.c_payload decoded) in
          if redisUtils.exists_ now (cache w) (redis.blacklist token)
          then (w, Respond res_token_revoked)
          else
            let cachedUser := redisUtils.getDiasporaData now (cache w) userId in
            if from_option truthy false cachedUser
            then match cachedUser with
                 | Some (redis.VUser u) => attach_if_active now w req u
                 | _ => (w, Respond (res_account_suspended "undefined"))
                 end
            else
              match User.project_identity <$> User.raw_findById userId (db w) with
              | None => (w, Respond res_user_not_found)
              | Some u =>
                  let w1 := with_cache
                              (fst (redisUtils.cacheDiasporaData now (cache w) (u_id u) u)) w in
                  attach_if_active now w1 req u
              end
      end
  | _ => (w, Respond res_no_token)
  end.

(** [optionalAuth].  The callback handed to [authenticate] runs only when
    [authenticate] calls it, which it does without an argument. *)
Definition optionalAuth (cfg : config) (now : Z) (w : world) (req : request)
  : world * outcome :=
  match authorization req with
  | Some (Bearer _) =>
      match authenticate cfg now w req with
      | (w', Next err req' hs) =>
          match err with
          | Some _ => (w', Next None (set_req_user Null req') hs)
          | None => (w', Next None req' hs)
          end
      | other => other
      end
  | _ => (w, Next None (set_req_user Null req) [])
  end.

(** [userRateLimit(windowMs, maxRequests)] *)
Definition userRateLimit (windowMs maxRequests : Z) (now : Z) (w : world) (req : request)
  : world * outcome :=
  match req_user req with
  | Identity u =>
      let key := redis.rate_limit_user (u_id u) in
      let '(c, requests) := redisUtils.incr now (cache w) key (windowMs / 1000) in
      if maxRequests <? requests
      then (with_cache c w,
            Respond {| r_status := 429; r_success := false;
                       r_error := Some "Rate limit exceeded";
                       r_message := Some (TooManyRequests maxRequests windowMs);
                       r_code := Some "USER_RATE_LIMIT_EXCEEDED";
                       r_retryAfter := Some (windowMs / 1000);
                       r_data := NoData |})
      else (with_cache c w,
            Next None req [("X-RateLimit-Limit", maxRequests);
                           ("X-RateLimit-Remaining", Z.max 0 (maxRequests - requests));
                           ("X-RateLimit-Reset", now + windowMs)])
  | _ => (w, Next None req [])
  end.

(** [validateRefreshToken] *)
Definition validateRefreshToken (cfg : config) (now : Z) (w : world) (req : request)
  : world * outcome :=
  match body_refreshToken req with
  | Some refreshToken =>
      if token_truthy refreshToken
      then
        match jwt.verify refreshToken (jwt_refreshSecret cfg) now with
        | jwt.Thrown _ =>
            (w, Respond (fail 401 "Invalid refresh token" None "INVALID_REFRESH_TOKEN"))
        | jwt.Decoded decoded =>
            if redisUtils.exists_ now (cache w) (redis.blacklist_refresh refreshToken)
            then (w, Respond (fail 401 "Refresh token revoked" None "REFRESH_TOKEN_REVOKED"))
            else
              match User.findById (jwt.p_userId (jwt.c_payload decoded)) (db w) with
              | Some u =>
                  if decide (status u = "active")
                  then (w, Next None (set_req_refreshToken (Some refreshToken)
                                        (set_req_user (Identity u) req)) [])
                  else (w, Respond (fail 401 "Invalid refresh token" None "INVALID_REFRESH_TOKEN"))
              | None =>
                  (w, Respond (fail 401 "Invalid refresh token" None "INVALID_REFRESH_TOKEN"))
              end
        end
      else (w, Respond (fail 400 "Refresh token required" None "REFRESH_TOKEN_REQUIRED"))
  | None => (w, Respond (fail 400 "Refresh token required" None "REFRESH_TOKEN_REQUIRED"))
  end.

(** [blacklistToken(token, type = 'access')] *)
Definition blacklistToken (now : Z) (c : redis.client) (token : token) (type : string)
  : redis.client * bool :=
  let key := if decide (type = "refresh")
             then redis.blacklist_refresh token
             else redis.blacklist token in
  let ttl := if decide (type = "refresh")
             then 30 * 24 * 60 * 60
             else 7 * 24 * 60 * 60 in
  (fst (redisUtils.set now c key (redis.VString "blacklisted") ttl), true).

(** [h || d] for a header read with [req.get]: a header that is missing
    or empty gives [d]. *)
Definition or_else (d : string) (h : option string) : string :=
  match h with
  | Some s => if bool_decide (s = "") then d else s
  | None => d
  end.

(** ** The controllers ([controllers/authController.js]) *)

Definition thirty_days : Z := 30 * 24 * 60 * 60.

Definition to_public (u : user) : public_user :=
  {| pu_id := u_id u; pu_firstName := firstName u; pu_lastName := lastName u;
     pu_username := username u; pu_email := email u; pu_role := role u;
     pu_isEmailVerified := isEmailVerified u;
     pu_diasporaProfile := u_diasporaProfile u;
     pu_avatar := profile_avatar u;
     pu_diasporaScore := stats_diasporaScore u |}.

(** [createSendTokens(user, statusCode, res)]: the refresh token goes to
    the user's slot, then the password is removed from the in-memory
    document and the envelope is sent. *)
Definition createSendTokens (cfg : config) (now : Z) (w : world) (u : user) (statusCode : Z)
  : world * outcome :=
  let accessToken := generateAuthToken cfg now u in
  let refreshToken := generateRefreshToken cfg now u in
  let c := fst (redisUtils.set now (cache w) (redis.refresh_token (u_id u))
                  (redis.VToken refreshToken) thirty_days) in
  let u' := set_password None u in
  (with_cache c w,
   Respond (ok statusCode "Authentication successful"
              (UserAndTokens (to_public u')
                 {| accessToken := accessToken; refreshToken_ := refreshToken;
                    expiresIn := jwt_expiresIn cfg |}))).

(** The body of a registration, as [validateUserRegistration] lets it
    through. *)
Record registration := {
  rb_firstName : string;
  rb_lastName : string;
  rb_username : string;
  rb_email : string;
  rb_password : string;
  rb_currentCountry : string;
  rb_currentCity : string;
  rb_originCity : string;
  rb_yearsInDiaspora : option Z
}.

(** What a run draws at random: the ObjectId of a new document, the bcrypt
    salt and the bytes of a one-time token. *)
Record entropy := {
  en_objectId : string;
  en_salt : string;
  en_randomHex : string
}.

(** [User.create]: schema defaults, the pre-save hook that hashes the
    password, and the unique indexes. *)
Definition User_create (now : Z) (en : entropy) (b : registration) (d : User.collection)
  : option (User.collection * user) :=
  let u := {| u_id := en_objectId en;
              firstName := rb_firstName b; lastName := rb_lastName b;
              username := rb_username b; email := rb_email b;
              password := Some {| bh_salt := en_salt en; bh_plain := rb_password b |};
              u_diasporaProfile :=
                {| currentCountry := rb_currentCountry b;
                   currentCity := rb_currentCity b;
                   originCity := rb_originCity b;
                   yearsInDiaspora := default 0 (rb_yearsInDiaspora b) |};
              profile_avatar := None;
              status := "active"; role := "user"; isEmailVerified := false;
              emailVerificationToken := None; emailVerificationExpires := None;
              passwordResetToken := None; passwordResetExpires := None;
              stats_diasporaScore := 100;
              lastActive := now; loginHistory := [] |} in
  if existsb (fun x => bool_decide (u_id x = u_id u) || bool_decide (email x = email u)
                       || bool_decide (username x = username u)) d
  then None
  else Some ((d ++ [u])%list, u).

(** [register] *)
Definition register (cfg : config) (now : Z) (en : entropy) (w : world) (b : registration)
  : world * outcome :=
  let existingUser := User.findOne_email_or_username (rb_email b) (rb_username b) (db w) in
  match (match existingUser with
         | Some x =>
             if decide (email x = rb_email b)
             then Some (throw_AppError "Bu e-posta adresi zaten kullanımda" 400 "EMAIL_EXISTS")
             else if decide (username x = rb_username b)
             then Some (throw_AppError "Bu kullanıcı adı zaten kullanımda" 400 "USERNAME_EXISTS")
             else None
         | None => None
         end) with
  | Some thrown => (w, thrown)
  | None =>
      match User_create now en b (db w) with
      | None => (w, Throw (Runtime "MongoServerError"))
      | Some (d1, created) =>
          let verificationToken := en_randomHex en in
          let u := set_emailVerification (Some (Sha256 verificationToken))
                     (Some (now + 24 * 60 * 60 * 1000)) created in
          let d2 := User.update (u_id u)
                      (set_emailVerification (emailVerificationToken u)
                         (emailVerificationExpires u)) d1 in
          let c := fst (redisUtils.cacheDiasporaData now (cache w) (u_id u) u) in
          createSendTokens cfg now {| db := d2; cache := c |} u 201
      end
  end.

(** [login] *)
Definition login (cfg : config) (now : Z) (w : world) (req : request)
    (email_ password_ : string) : world * outcome :=
  match User.raw_findByEmail email_ (db w) with
  | Some u0 =>
      if comparePassword u0 password_
      then
        if decide (status u0 = "active")
        then
          let record := {| lr_timestamp := now; lr_ip := req_ip req;
                           lr_userAgent := req_userAgent req;
                           lr_location := or_else "Unknown" (req_country req) |} in
          let history := record :: loginHistory u0 in
          let history := if (10 <? Z.of_nat (length history))%Z
                         then firstn 10 history else history in
          let u := set_lastActive now (set_loginHistory history u0) in
          let d := User.update (u_id u)
                     (fun x => set_lastActive now (set_loginHistory history x)) (db w) in
          let c := fst (redisUtils.cacheDiasporaData now (cache w) (u_id u) u) in
          createSendTokens cfg now {| db := d; cache := c |} u 200
        else (w, throw_AppError ("Hesabınız " ++ status u0 ++ " durumunda") 403
                   "ACCOUNT_SUSPENDED")
      else (w, throw_AppError "Geçersiz e-posta veya şifre" 401 "INVALID_CREDENTIALS")
  | None => (w, throw_AppError "Geçersiz e-posta veya şifre" 401 "INVALID_CREDENTIALS")
  end.

(** [refreshToken], which runs after [validateRefreshToken] has set
    [req.user] and [req.refreshToken]. *)
Definition refreshToken (cfg : config) (now : Z) (w : world) (req : request)
  : world * outcome :=
  match req_user req, req_refreshToken req with
  | Identity u, Some oldRefreshToken =>
      let accessToken := generateAuthToken cfg now u in
      let refreshToken := generateRefreshToken cfg now u in
      let c1 := fst (blacklistToken now (cache w) oldRefreshToken "refresh") in
      let c2 := fst (redisUtils.set now c1 (redis.refresh_token (u_id u))
                       (redis.VToken refreshToken) thirty_days) in
      (with_cache c2 w,
       Respond (ok 200 "Tokens refreshed successfully"
                  (Tokens {| accessToken := accessToken; refreshToken_ := refreshToken;
                             expiresIn := jwt_expiresIn cfg |})))
  | _, _ => (w, Throw (Runtime "TypeError"))
  end.

(** [req.header('Authorization').substring(7)] *)
Definition header_token (h : auth_header) : token :=
  match h with
  | Bearer t => t
  | NotBearer s => jwt.Opaque (String.substring 7 (String.length s - 7) s)
  end.

(** [logout], mounted behind [authenticate]. *)
Definition logout (now : Z) (w : world) (req : request) : world * outcome :=
  match authorization req with
  | Some h =>
      let token := header_token h in
      let c1 := fst (blacklistToken now (cache w) token "access") in
      match req_user req with
      | Identity u =>
          let c2 := fst (redisUtils.del c1 (redis.refresh_token (u_id u))) in
          let c3 := fst (redisUtils.del c2 (redis.diaspora (u_id u))) in
          (with_cache c3 w,
           Respond {| r_status := 200; r_success := true; r_error := None;
                      r_message := Some (Text "Başarıyla çıkış yapıldı");
                      r_code := None; r_retryAfter := None; r_data := NoData |})
      | _ => (with_cache c1 w, Throw (Runtime "TypeError"))
      end
  | None => (w, Throw (Runtime "TypeError"))
  end.

Definition forgotPassword_unknown_message : string :=
  "Eğer bu e-posta adresi sistemde kayıtlıysa, şifre sıfırlama bağlantısı gönderildi".

Definition forgotPassword_known_message : string :=
  "Şifre sıfırlama bağlantısı e-posta adresinize gönderildi".

(** [forgotPassword] *)
Definition forgotPassword (now : Z) (en : entropy) (w : world) (email_ : string)
  : world * outcome :=
  match User.findOne_email email_ (db w) with
  | None => (w, Respond (ok 200 forgotPassword_unknown_message NoData))
  | Some u =>
      let resetToken := en_randomHex en in
      let d := User.update (u_id u)
                 (set_passwordReset (Some (Sha256 resetToken)) (Some (now + 30 * 60 * 1000)))
                 (db w) in
      (with_db d w, Respond (ok 200 forgotPassword_known_message NoData))
  end.

(** ** The public routes of [routes/auth.js]

    Each of them starts with its own [userRateLimit]; no middleware that
    assigns [req.user] runs before it. *)
Inductive public_route :=
| route_register
| route_login
| route_refresh_token
| route_forgot_password
| route_reset_password
| route_resend_verification.

Definition public_route_limit (r : public_route) : Z * Z :=
  match r with
  | route_register => (15 * 60 * 1000, 5)
  | route_login => (15 * 60 * 1000, 10)
  | route_refresh_token => (60 * 1000, 5)
  | route_forgot_password => (60 * 60 * 1000, 3)
  | route_reset_password => (60 * 60 * 1000, 5)
  | route_resend_verification => (60 * 60 * 1000, 3)
  end.

Definition public_route_limiter (r : public_route) : Z -> world -> request -> world * outcome :=
  userRateLimit (fst (public_route_limit r)) (snd (public_route_limit r)).

(** A request as Express hands it to the router: nothing has assigned
    [req.user] or [req.refreshToken] yet. *)
Definition incoming (h : option auth_header) (rt : option token) : request :=
  {| authorization := h; body_refreshToken := rt;
     req_ip := "127.0.0.1"; req_userAgent := None; req_country := None;
     req_user := Unset; req_refreshToken := None |}.


(** ** Runs of the rate limiter

    The requests of one user that reach one limiter at the instants
    [times], in order; the outcome of each is kept. *)
Fixpoint rate_limited_run (windowMs maxRequests : Z) (w : world) (req : request)
    (times : list Z) : world * list outcome :=
  match times with
  | [] => (w, [])
  | t :: rest =>
      let '(w1, o) := userRateLimit windowMs maxRequests t w req in
      let '(w2, os) := rate_limited_run windowMs maxRequests w1 req rest in
      (w2, o :: os)
  end.

(** What the limiter answers to the request that brings the counter to
    [requests] at instant [t]. *)
Definition rate_limit_verdict (windowMs maxRequests : Z) (req : request)
    (requests t : Z) : outcome :=
  if maxRequests <? requests
  then Respond {| r_status := 429; r_success := false;
                  r_error := Some "Rate limit exceeded";
                  r_message := Some (TooManyRequests maxRequests windowMs);
                  r_code := Some "USER_RATE_LIMIT_EXCEEDED";
                  r_retryAfter := Some (windowMs / 1000);
                  r_data := NoData |}
  else Next None req [("X-RateLimit-Limit", maxRequests);
                      ("X-RateLimit-Remaining", Z.max 0 (maxRequests - requests));
                      ("X-RateLimit-Reset", t + windowMs)].

Definition is_next (o : outcome) : bool :=
  match o with Next None _ _ => true | _ => false end.

Definition response_code (o : outcome) : option string :=
  match o with Respond r => r_code r | _ => None end.

Definition response_status (o : outcome) : option Z :=
  match o with Respond r => Some (r_status r) | _ => None end.

(** The identity a middleware leaves on the request it passes on. *)
Definition attached (o : outcome) : option user :=
  match o with
  | Next _ r _ => match req_user r with Identity u => Some u | _ => None end
  | _ => None
  end.

(** ** Causes of a verification failure *)

(** The token carries a signature made with the access secret and the
    clock has reached its expiry. *)
Definition expired_for (cfg : config) (now : Z) (t : token) : Prop :=
  exists c, t = jwt.Signed (jwt_secret cfg) c /\ jwt.c_exp c <= now / 1000.

(** The token is not a JWT, or its signature was made with another
    secret. *)
Definition malformed_for (cfg : config) (t : token) : Prop :=
  match t with
  | jwt.Opaque _ => True
  | jwt.Signed k _ => k <> jwt_secret cfg
  end.

(** ** Sample data *)

Definition set_status (s : string) (u : user) : user :=
  {| u_id := u_id u; firstName := firstName u; lastName := lastName u;
     username := username u; email := email u; password := password u;
     u_diasporaProfile := u_diasporaProfile u; profile_avatar := profile_avatar u;
     status := s; role := role u; isEmailVerified := isEmailVerified u;
     emailVerificationToken := emailVerificationToken u;
     emailVerificationExpires := emailVerificationExpires u;
     passwordResetToken := passwordResetToken u;
     passwordResetExpires := passwordResetExpires u;
     stats_diasporaScore := stats_diasporaScore u;
     lastActive := lastActive u; loginHistory := loginHistory u |}.

Definition alice : user :=
  {| u_id := "64b7f0a1c2d3e4f5a6b7c8d9";
     firstName := "Alice"; lastName := "Yilmaz";
     username := "alice"; email := "a@x.com";
     password := Some {| bh_salt := "salt"; bh_plain := "Password123" |};
     u_diasporaProfile := {| currentCountry := "Germany"; currentCity := "Berlin";
                             originCity := "Izmir"; yearsInDiaspora := 4 |};
     profile_avatar := None;
     status := "active"; role := "user"; isEmailVerified := true;
     emailVerificationToken := None; emailVerificationExpires := None;
     passwordResetToken := None; passwordResetExpires := None;
     stats_diasporaScore := 100; lastActive := 0; loginHistory := [] |}.

Definition alice_token : token := generateAuthToken default_config 0 alice.

Definition alice_request : request := incoming (Some (Bearer alice_token)) None.

(** A world with Alice registered and nothing in Redis. *)
Definition fresh_world : world :=
  {| db := [alice]; cache := redis.empty true |}.

(** ** Lifetimes *)

(** The seconds a token has left at [now], from its embedded expiry. *)
Definition remaining_lifetime (now : Z) (t : token) : option Z :=
  match t with
  | jwt.Signed _ c => Some (jwt.c_exp c - now / 1000)
  | jwt.Opaque _ => None
  end.

(** The TTL, in seconds, that the entry under [k] has at [now]. *)
Definition ttl_at (now : Z) (c : redis.client) (k : redis.key) : option Z :=
  match redis.keys c k with
  | Some e => (fun x => (x - now) / 1000) <$> redis.e_expireAt e
  | None => None
  end.

Definition seven_days : Z := 7 * 24 * 60 * 60.

(** A deployment that sets JWT_EXPIRES_IN to 30 days. *)
Definition long_access_config : config :=
  {| jwt_secret := jwt_secret default_config;
     jwt_expiresIn := 30 * 24 * 60 * 60;
     jwt_refreshSecret := jwt_refreshSecret default_config;
     jwt_refreshExpiresIn := jwt_refreshExpiresIn default_config |}.

(** Alice has been suspended in the collection while her cached document
    still says active. *)
Definition stale_world : world :=
  {| db := [set_status "suspended" alice];
     cache := fst (redisUtils.cacheDiasporaData 0 (redis.empty true) (u_id alice) alice) |}.

(** Alice has been suspended and nothing is cached. *)
Definition suspended_world : world :=
  {| db := [set_status "suspended" alice]; cache := redis.empty true |}.

(** ** The refresh route

    POST /refresh-token: the route's limiter, [validateRefreshToken],
    then the controller; a middleware that does not call [next] ends the
    request. *)
Definition refresh_route (cfg : config) (now : Z) (w : world) (req : request)
  : world * outcome :=
  match public_route_limiter route_refresh_token now w req with
  | (w1, Next None req1 _) =>
      match validateRefreshToken cfg now w1 req1 with
      | (w2, Next None req2 _) => refreshToken cfg now w2 req2
      | other => other
      end
  | other => other
  end.

(** Alice is registered and Redis is not available. *)
Definition offline_world : world :=
  {| db := [alice]; cache := redis.empty false |}.

Definition alice_refresh_token : token := generateRefreshToken default_config 0 alice.

(** ** Expected verdicts of a run

    The answers to requests arriving at [ts] when the counter stood at
    [n] before the first of them and stays alive throughout. *)
Fixpoint verdicts (windowMs maxRequests : Z) (req : request) (n : Z) (ts : list Z)
  : list outcome :=
  match ts with
  | [] => []
  | t :: rest =>
      rate_limit_verdict windowMs maxRequests req (n + 1) t
      :: verdicts windowMs maxRequests req (n + 1) rest
  end.

Definition is_rate_limited (o : outcome) : bool :=
  match o with
  | Respond r => (r_status r =? 429) && bool_decide (r_code r = Some "USER_RATE_LIMIT_EXCEEDED")
  | _ => false
  end.

(** ** Cached documents *)

(** The entry under `diaspora:<id>` is the document [u], written at
    [now] with the user TTL. *)
Definition caches (now : Z) (w : world) (u : user) : Prop :=
  redis.keys (cache w) (redis.diaspora (u_id u))
  = Some {| redis.e_value := redis.VUser u;
            redis.e_expireAt := Some (now + 30 * 60 * 1000) |}.

(** Alice logs in at instant 5000 from a world with nothing cached. *)
Definition login_outcome : world * outcome :=
  login default_config 5000 fresh_world (incoming None None) "a@x.com" "Password123".

Definition login_response : response :=
  match snd login_outcome with
  | Respond r => r
  | _ => res_auth_service_error
  end.

Definition login_access_token : token :=
  match r_data login_response with
  | UserAndTokens _ env => accessToken env
  | _ => jwt.Opaque ""
  end.

(** ** More of the middleware ([middleware/auth.js]) *)

(** [authorize(...roles)] *)
Definition authorize (roles : list string) (w : world) (req : request) : world * outcome :=
  match req_user req with
  | Identity u =>
      if bool_decide (role u ∈ roles)
      then (w, Next None req [])
      else (w, Respond (fail 403 "Insufficient permissions"
                          (Some ("Requires one of: " ++ String.concat ", " roles))
                          "INSUFFICIENT_PERMISSIONS"))
  | _ => (w, Respond (fail 401 "Authentication required"
                        (Some "Please log in to access this resource") "AUTH_REQUIRED"))
  end.

(** [verifyDiaspora]; an empty string is as good as a missing field. *)
Definition verifyDiaspora (w : world) (req : request) : world * outcome :=
  match req_user req with
  | Identity u =>
      if bool_decide (currentCountry (u_diasporaProfile u) = "")
         || bool_decide (originCity (u_diasporaProfile u) = "")
      then (w, Respond (fail 403 "Diaspora profile incomplete"
                          (Some "Please complete your diaspora profile to access this feature")
                          "DIASPORA_PROFILE_INCOMPLETE"))
      else (w, Next None req [])
  | _ => (w, Respond (fail 401 "Authentication required" None "AUTH_REQUIRED"))
  end.

(** [requireEmailVerification] *)
Definition requireEmailVerification (w : world) (req : request) : world * outcome :=
  match req_user req with
  | Identity u =>
      if isEmailVerified u
      then (w, Next None req [])
      else (w, Respond (fail 403 "Email verification required"
                          (Some "Please verify your email address to access this feature")
                          "EMAIL_NOT_VERIFIED"))
  | _ => (w, Respond (fail 401 "Authentication required" None "AUTH_REQUIRED"))
  end.

(** ** More of the controllers ([controllers/authController.js]) *)

Definition set_isEmailVerified (b : bool) (u : user) : user :=
  {| u_id := u_id u; firstName := firstName u; lastName := lastName u;
     username := username u; email := email u; password := password u;
     u_diasporaProfile := u_diasporaProfile u; profile_avatar := profile_avatar u;
     status := status u; role := role u; isEmailVerified := b;
     emailVerificationToken := emailVerificationToken u;
     emailVerificationExpires := emailVerificationExpires u;
     passwordResetToken := passwordResetToken u;
     passwordResetExpires := passwordResetExpires u;
     stats_diasporaScore := stats_diasporaScore u;
     lastActive := lastActive u; loginHistory := loginHistory u |}.

Definition set_diasporaScore (n : Z) (u : user) : user :=
  {| u_id := u_id u; firstName := firstName u; lastName := lastName u;
     username := username u; email := email u; password := password u;
     u_diasporaProfile := u_diasporaProfile u; profile_avatar := profile_avatar u;
     status := status u; role := role u; isEmailVerified := isEmailVerified u;
     emailVerificationToken := emailVerificationToken u;
     emailVerificationExpires := emailVerificationExpires u;
     passwordResetToken := passwordResetToken u;
     passwordResetExpires := passwordResetExpires u;
     stats_diasporaScore := n;
     lastActive := lastActive u; loginHistory := loginHistory u |}.

Definition success_message (msg : string) : response :=
  {| r_status := 200; r_success := true; r_error := None;
     r_message := Some (Text msg); r_code := None;
     r_retryAfter := None; r_data := NoData |}.

(** [logoutAll] *)
Definition logoutAll (now : Z) (w : world) (req : request) : world * outcome :=
  match authorization req with
  | Some h =>
      let token := header_token h in
      let c1 := fst (blacklistToken now (cache w) token "access") in
      match req_user req with
      | Identity u =>
          let c2 := fst (redisUtils.del c1 (redis.refresh_token (u_id u))) in
          let c3 := fst (redisUtils.del c2 (redis.diaspora (u_id u))) in
          (with_cache c3 w, Respond (success_message "Tüm cihazlardan çıkış yapıldı"))
      | _ => (with_cache c1 w, Throw (Runtime "TypeError"))
      end
  | None => (w, Throw (Runtime "TypeError"))
  end.

(** [User.findOne({ passwordResetToken, passwordResetExpires: { $gt: now } })] *)
Definition findOne_resetToken (now : Z) (h : sha256_digest) (d : User.collection)
  : option user :=
  User.project_default <$>
    find (fun u => bool_decide (passwordResetToken u = Some h)
                   && from_option (fun e => now <? e) false (passwordResetExpires u)) d.

(** [User.findOne({ emailVerificationToken, emailVerificationExpires: { $gt: now } })] *)
Definition findOne_verificationToken (now : Z) (h : sha256_digest) (d : User.collection)
  : option user :=
  User.project_default <$>
    find (fun u => bool_decide (emailVerificationToken u = Some h)
                   && from_option (fun e => now <? e) false (emailVerificationExpires u)) d.

(** What [user.save()] checks of a new password before the pre-save
    hook hashes it: [minlength: 6] of the schema.  (The documents of
    the collection were written through the schema, so nothing else of
    a loaded document can fail.) *)
Definition password_is_valid (p : string) : bool := 6 <=? js_length p.

(** [resetPassword]: [rawToken] is [req.params.token], [password_] the
    new password of the body, which no validator of the route has
    seen; [save()] validates it and throws without writing, or the
    pre-save hook hashes it with a fresh salt. *)
Definition resetPassword (cfg : config) (now : Z) (en : entropy) (w : world)
    (rawToken password_ : string) : world * outcome :=
  match findOne_resetToken now (Sha256 rawToken) (db w) with
  | None => (w, throw_AppError "Geçersiz veya süresi dolmuş token" 400 "INVALID_RESET_TOKEN")
  | Some u0 =>
      if password_is_valid password_
      then
        let hash := {| bh_salt := en_salt en; bh_plain := password_ |} in
        let edit := fun x => set_passwordReset None None (set_password (Some hash) x) in
        let u := edit u0 in
        let d := User.update (u_id u) edit (db w) in
        let c := fst (redisUtils.del (cache w) (redis.diaspora (u_id u))) in
        createSendTokens cfg now {| db := d; cache := c |} u 200
      else (w, Throw (Runtime "ValidationError"))
  end.

(** [verifyEmail] *)
Definition verifyEmail (now : Z) (w : world) (rawToken : string) : world * outcome :=
  match findOne_verificationToken now (Sha256 rawToken) (db w) with
  | None => (w, throw_AppError "Geçersiz veya süresi dolmuş doğrulama token'ı" 400
                  "INVALID_VERIFICATION_TOKEN")
  | Some u =>
      let edit := fun x => set_diasporaScore (stats_diasporaScore x + 50)
                             (set_emailVerification None None (set_isEmailVerified true x)) in
      let d := User.update (u_id u) edit (db w) in
      let c := fst (redisUtils.del (cache w) (redis.diaspora (u_id u))) in
      ({| db := d; cache := c |},
       Respond (success_message
                  "E-posta adresi başarıyla doğrulandı! +50 diaspora puanı kazandınız 🎉"))
  end.

(** [resendVerification] *)
Definition resendVerification (now : Z) (en : entropy) (w : world) (email_ : string)
  : world * outcome :=
  match User.findOne_email email_ (db w) with
  | None =>
      (w, Respond (success_message
                     "Eğer bu e-posta adresi sistemde kayıtlıysa, doğrulama e-postası gönderildi"))
  | Some u =>
      if isEmailVerified u
      then (w, throw_AppError "E-posta adresi zaten doğrulanmış" 400 "EMAIL_ALREADY_VERIFIED")
      else
        let verificationToken := en_randomHex en in
        let d := User.update (u_id u)
                   (set_emailVerification (Some (Sha256 verificationToken))
                      (Some (now + 24 * 60 * 60 * 1000))) (db w) in
        (with_db d w, Respond (success_message "Doğrulama e-postası tekrar gönderildi"))
  end.

(** [changePassword], mounted behind [authenticate]; [save()] validates
    the new password, which no validator of the route has seen. *)
Definition changePassword (now : Z) (en : entropy) (w : world) (req : request)
    (currentPassword newPassword : string) : world * outcome :=
  match req_user req with
  | Identity me =>
      match User.raw_findById (u_id me) (db w) with
      | Some u =>
          if comparePassword u currentPassword
          then
            if password_is_valid newPassword
            then
              let hash := {| bh_salt := en_salt en; bh_plain := newPassword |} in
              let d := User.update (u_id u) (set_password (Some hash)) (db w) in
              let c := fst (redisUtils.del (cache w) (redis.diaspora (u_id u))) in
              ({| db := d; cache := c |},
               Respond (success_message "Şifre başarıyla güncellendi"))
            else (w, Throw (Runtime "ValidationError"))
          else (w, throw_AppError "Mevcut şifre hatalı" 400 "INVALID_CURRENT_PASSWORD")
      | None => (w, Throw (Runtime "TypeError"))
      end
  | _ => (w, Throw (Runtime "TypeError"))
  end.

(** [deactivateAccount]; the reason and its date are assigned to paths
    the schema does not declare, which are not stored. *)
Definition deactivateAccount (w : world) (req : request) : world * outcome :=
  match req_user req with
  | Identity me =>
      match User.findById (u_id me) (db w) with
      | Some u =>
          let d := User.update (u_id u) (set_status "deactivated") (db w) in
          let c1 := fst (redisUtils.del (cache w) (redis.diaspora (u_id u))) in
          let c2 := fst (redisUtils.del c1 (redis.refresh_token (u_id u))) in
          ({| db := d; cache := c2 |},
           Respond (success_message
                      "Hesabınız deaktive edildi. Tekrar aktif hale getirmek için giriş yapabilirsiniz."))
      | None => (w, Throw (Runtime "TypeError"))
      end
  | _ => (w, Throw (Runtime "TypeError"))
  end.

(** [reactivateAccount] *)
Definition reactivateAccount (w : world) (req : request) : world * outcome :=
  match req_user req with
  | Identity me =>
      match User.findById (u_id me) (db w) with
      | Some u =>
          if decide (status u = "deactivated")
          then
            let d := User.update (u_id u) (set_status "active") (db w) in
            let c := fst (redisUtils.del (cache w) (redis.diaspora (u_id u))) in
            ({| db := d; cache := c |},
             Respond (success_message
                        "Hesabınız tekrar aktif hale getirildi! Diaspora'ya hoş geldiniz 🏕️"))
          else (w, throw_AppError "Hesap zaten aktif" 400 "ACCOUNT_ALREADY_ACTIVE")
      | None => (w, Throw (Runtime "TypeError"))
      end
  | _ => (w, Throw (Runtime "TypeError"))
  end.

(** [adminDeleteUser]: [id] is [req.params.id]. *)
Definition adminDeleteUser (w : world) (id : string) : world * outcome :=
  match User.findById id (db w) with
  | None => (w, throw_AppError "Kullanıcı bulunamadı" 404 "USER_NOT_FOUND")
  | Some u =>
      let d := List.filter (fun x => negb (bool_decide (u_id x = u_id u))) (db w) in
      let c1 := fst (redisUtils.del (cache w) (redis.diaspora (u_id u))) in
      let c2 := fst (redisUtils.del c1 (redis.refresh_token (u_id u))) in
      ({| db := d; cache := c2 |}, Respond (success_message "Kullanıcı başarıyla silindi"))
  end.

(** ** The protected routes of [routes/auth.js]

    Everything below [router.use(authenticate)] runs [authenticate]
    first and goes on only when it calls [next]. *)
Definition behind_authenticate (cfg : config) (now : Z) (w : world) (req : request)
    (handler : world -> request -> world * outcome) : world * outcome :=
  match authenticate cfg now w req with
  | (w1, Next None req1 _) => handler w1 req1
  | other => other
  end.

(** POST /logout, POST /logout-all, POST /deactivate-account (behind its
    limiter), POST /reactivate-account (behind its limiter) and
    DELETE /admin/users/:id, whose [validateObjectId] has let [id]
    through. *)
Definition route_logout (cfg : config) (now : Z) (w : world) (req : request)
  : world * outcome :=
  behind_authenticate cfg now w req (logout now).

Definition route_logout_all (cfg : config) (now : Z) (w : world) (req : request)
  : world * outcome :=
  behind_authenticate cfg now w req (logoutAll now).

Definition limited (windowMs maxRequests now : Z)
    (handler : world -> request -> world * outcome) (w : world) (req : request)
  : world * outcome :=
  match userRateLimit windowMs maxRequests now w req with
  | (w1, Next None req1 _) => handler w1 req1
  | other => other
  end.

Definition route_reactivate_account (cfg : config) (now : Z) (w : world) (req : request)
  : world * outcome :=
  behind_authenticate cfg now w req
    (limited (24 * 60 * 60 * 1000) 3 now reactivateAccount).

Definition route_admin_delete_user (cfg : config) (now : Z) (w : world) (req : request)
    (id : string) : world * outcome :=
  behind_authenticate cfg now w req (fun w1 _ => adminDeleteUser w1 id).

(** Every document of the collection has its own [_id]. *)
Definition unique_ids (d : User.collection) : Prop := NoDup (map u_id d).

(** The record [login] puts in front of the history. *)
Definition login_record (now : Z) (req : request) : loginRecord :=
  {| lr_timestamp := now; lr_ip := req_ip req;
     lr_userAgent := req_userAgent req;
     lr_location := or_else "Unknown" (req_country req) |}.

(** Bob's registration and what the run draws for it. *)
Definition bob_registration : registration :=
  {| rb_firstName := "Bob"; rb_lastName := "Demir"; rb_username := "bob";
     rb_email := "b@x.com"; rb_password := "Secret123";
     rb_currentCountry := "France"; rb_currentCity := "Lyon";
     rb_originCity := "Ankara"; rb_yearsInDiaspora := None |}.

Definition bob_entropy : entropy :=
  {| en_objectId := "64b7f0a1c2d3e4f5a6b7c8da"; en_salt := "pepper";
     en_randomHex := "5ca1ab1e" |}.

(** A registration that reuses Alice's address. *)
Definition taken_registration : registration :=
  {| rb_firstName := "Alice"; rb_lastName := "Other"; rb_username := "alice2";
     rb_email := "a@x.com"; rb_password := "Secret123";
     rb_currentCountry := "France"; rb_currentCity := "Lyon";
     rb_originCity := "Ankara"; rb_yearsInDiaspora := Some 3 |}.

Definition bob_registered : world := fst (register default_config 0 bob_entropy fresh_world
                                            bob_registration).

(** The response a middleware or a controller has sent, if any. *)
Definition sent (o : outcome) : option response :=
  match o with Respond r => Some r | _ => None end.


(** Bob as stored by his registration, and an access token of his. *)
Definition bob : user :=
  default alice (User.raw_findById (en_objectId bob_entropy) (db bob_registered)).

Definition bob_token : token := generateAuthToken default_config 0 bob.

(** [adminUpdateUserStatus]: [id] is [req.params.id], [status_] the
    status of the body.  [findByIdAndUpdate] with [runValidators] checks
    the new value against the enum of the schema before it writes; the
    response carries the document after the update ([new: true]). *)
Inductive status_update :=
| StatusUpdated (msg : string) (u : user)
| StatusThrown (e : exn).

Definition status_enum : list string := ["active"; "suspended"; "deactivated"].

Definition adminUpdateUserStatus (w : world) (id status_ : string) : world * status_update :=
  if bool_decide (status_ ∈ status_enum)
  then
    match User.findById id (db w) with
    | None =>
        (w, StatusThrown (Operational {| ae_message := "Kullanıcı bulunamadı";
                                         ae_statusCode := 404; ae_code := "USER_NOT_FOUND" |}))
    | Some u0 =>
        let u := set_status status_ u0 in
        let d := User.update id (set_status status_) (db w) in
        let c := fst (redisUtils.del (cache w) (redis.diaspora (u_id u))) in
        ({| db := d; cache := c |}, StatusUpdated "Kullanıcı durumu güncellendi" u)
    end
  else (w, StatusThrown (Runtime "ValidationError")).

(** ** Communities ([models/Community.js]) and the membership check

    Of a community document, the paths that the instance methods and
    the middleware read or write.  Ids are ObjectIds compared through
    [toString()], hence strings here. *)
Module Community.

Record member := {
  m_user : string;
  m_joinedAt : Z;
  m_role : string;
  m_status : string
}.

Record moderator := {
  mod_user : string;
  mod_assignedAt : Z;
  mod_permissions : list string
}.

Record document := {
  c_id : string;
  creator : string;
  moderators : list moderator;
  members : list member;
  stats_memberCount : Z;
  stats_postCount : Z;
  stats_eventCount : Z;
  stats_activeMembers : Z;
  stats_engagementScore : Z;
  activity_lastMemberJoin : option Z;
  updatedAt : Z
}.

Definition collection := list document.

(** The enum of [members.role]; [save()] validates a pushed member
    against it. *)
Definition role_enum : list string := ["member"; "active_member"; "contributor"; "leader"].

(** What the methods throw: [new Error('User is already a member')],
    or the [ValidationError] of [save()]. *)
Inductive failure :=
| AlreadyMember
| ValidationError.

(** The document after [this.members = ms], the count brought in line,
    and the pre-save hook. *)
Definition with_members (now : Z) (ms : list member) (joined : option Z) (this : document)
  : document :=
  {| c_id := c_id this; creator := creator this; moderators := moderators this;
     members := ms;
     stats_memberCount := Z.of_nat (length ms);
     stats_postCount := stats_postCount this;
     stats_eventCount := stats_eventCount this;
     stats_activeMembers := stats_activeMembers this;
     stats_engagementScore := stats_engagementScore this;
     activity_lastMemberJoin := joined;
     updatedAt := now |}.

(** [communitySchema.methods.addMember(userId, role = 'member')]; the
    pushed member gets the defaults of the schema: joined now, status
    'active'. *)
Definition addMember (now : Z) (userId role_ : string) (this : document)
  : failure + document :=
  match find (fun m => bool_decide (m_user m = userId)) (members this) with
  | Some _ => inl AlreadyMember
  | None =>
      if bool_decide (role_ ∈ role_enum)
      then inr (with_members now
                  (members this ++ [{| m_user := userId; m_joinedAt := now;
                                       m_role := role_; m_status := "active" |}])%list
                  (Some now) this)
      else inl ValidationError
  end.

(** [communitySchema.methods.removeMember(userId)] *)
Definition removeMember (now : Z) (userId : string) (this : document) : document :=
  with_members now
    (List.filter (fun m => negb (bool_decide (m_user m = userId))) (members this))
    (activity_lastMemberJoin this) this.

(** [communitySchema.methods.isMember(userId)] *)
Definition isMember (userId : string) (this : document) : bool :=
  existsb (fun m => bool_decide (m_user m = userId) && bool_decide (m_status m = "active"))
    (members this).

(** [communitySchema.methods.isModerator(userId)] *)
Definition isModerator (userId : string) (this : document) : bool :=
  existsb (fun md => bool_decide (mod_user md = userId)) (moderators this)
  || bool_decide (creator this = userId).

(** [Community.findById(id)] for an id that casts to an ObjectId. *)
Definition findById (id : string) (cs : collection) : option document :=
  find (fun c => bool_decide (c_id c = id)) cs.

(** The collection once [save()] has written the document back. *)
Definition save (c : document) (cs : collection) : collection :=
  map (fun x => if bool_decide (c_id x = c_id c) then c else x) cs.

End Community.

(** The request as [verifyCommunityMembership] sees it: the route
    parameter, the body field, and the two properties it assigns. *)
Record community_request := {
  cr_request : request;
  params_communityId : option string;
  body_community : option string;
  req_community : option Community.document;
  req_isCommunityModerator : option bool
}.

Inductive community_outcome :=
| CommunityNext (req : community_request)
| CommunityRespond (res : response).

(** [req.params.communityId || req.body.community] *)
Definition requested_community (req : community_request) : option string :=
  match params_communityId req with
  | Some s => if bool_decide (s = "") then body_community req else Some s
  | None => body_community req
  end.

(** [verifyCommunityMembership].  [isObjectId] tells the strings that
    Mongoose casts to an ObjectId; for the others [findById] throws a
    CastError, which the [catch] answers. *)
Definition verifyCommunityMembership (isObjectId : string -> bool)
    (cs : Community.collection) (req : community_request) : community_outcome :=
  match req_user (cr_request req) with
  | Identity u =>
      match requested_community req with
      | Some communityId =>
          if bool_decide (communityId = "")
          then CommunityRespond (fail 400 "Community ID required" None "COMMUNITY_ID_REQUIRED")
          else if isObjectId communityId
          then
            match Community.findById communityId cs with
            | None => CommunityRespond (fail 404 "Community not found" None "COMMUNITY_NOT_FOUND")
            | Some community =>
                if Community.isMember (u_id u) community
                then CommunityNext
                       {| cr_request := cr_request req;
                          params_communityId := params_communityId req;
                          body_community := body_community req;
                          req_community := Some community;
                          req_isCommunityModerator :=
                            Some (Community.isModerator (u_id u) community) |}
                else CommunityRespond
                       (fail 403 "Community membership required"
                          (Some "You must be a member of this community to perform this action")
                          "NOT_COMMUNITY_MEMBER")
            end
          else CommunityRespond (fail 500 "Internal server error" None "COMMUNITY_CHECK_ERROR")
      | None => CommunityRespond (fail 400 "Community ID required" None "COMMUNITY_ID_REQUIRED")
      end
  | _ => CommunityRespond (fail 401 "Authentication required" None "AUTH_REQUIRED")
  end.

(** A community that Bob created, with one banned member. *)
Definition lyon : Community.document :=
  {| Community.c_id := "64b7f0a1c2d3e4f5a6b7c8ff";
     Community.creator := en_objectId bob_entropy;
     Community.moderators := [];
     Community.members := [{| Community.m_user := "64b7f0a1c2d3e4f5a6b7c8dc"; Community.m_joinedAt := 0;
                              Community.m_role := "member";
                              Community.m_status := "banned" |}];
     Community.stats_memberCount := 1;
     Community.stats_postCount := 0;
     Community.stats_eventCount := 0;
     Community.stats_activeMembers := 0;
     Community.stats_engagementScore := 0;
     Community.activity_lastMemberJoin := Some 0;
     Community.updatedAt := 0 |}.

(** * Properties *)

(** ** The limiter and requests without identity *)

Lemma userRateLimit_no_identity windowMs maxRequests now w req :
  req_user req = Unset \/ req_user req = Null ->
  userRateLimit windowMs maxRequests now w req = (w, Next None req []).
Proof.
  unfold userRateLimit. intros [H | H]; rewrite H; reflexivity.
Qed.

(** C9. A request that reaches [userRateLimit] with no identity
    ([req.user] never assigned, or null) is passed on unchanged: the
    world, hence every counter, is left as it was and no 429 is sent.
    The limiter of each public auth route receives its requests in that
    condition, so none of these limiters rejects anything. *)
Theorem rate_limiter_ignores_unauthenticated
    (windowMs maxRequests now : Z) (w : world) (req : request) (r : public_route) :
  req_user req = Unset \/ req_user req = Null ->
  userRateLimit windowMs maxRequests now w req = (w, Next None req [])
  /\ response_code (snd (userRateLimit windowMs maxRequests now w req))
       <> Some "USER_RATE_LIMIT_EXCEEDED"
  /\ (forall h rt,
        public_route_limiter r now w (incoming h rt) = (w, Next None (incoming h rt) [])).
Proof.
  intros H. split; [| split].
  - now apply userRateLimit_no_identity.
  - rewrite userRateLimit_no_identity by assumption. discriminate.
  - intros h rt. unfold public_route_limiter.
    apply userRateLimit_no_identity. now left.
Qed.

Lemma rate_limiter_ignores_unauthenticated_witness :
  userRateLimit (60 * 60 * 1000) 3 0 fresh_world (incoming None None)
    = (fresh_world, Next None (incoming None None) [])
  /\ response_code (snd (userRateLimit (60 * 60 * 1000) 3 0 fresh_world (incoming None None)))
       <> Some "USER_RATE_LIMIT_EXCEEDED"
  /\ (forall h rt,
        public_route_limiter route_forgot_password 0 fresh_world (incoming h rt)
          = (fresh_world, Next None (incoming h rt) [])).
Proof.
  apply (rate_limiter_ignores_unauthenticated
           (60 * 60 * 1000) 3 0 fresh_world (incoming None None) route_forgot_password).
  left. reflexivity.
Defined.

(** ** Verification failures in [authenticate] *)

Lemma verify_failure_kinds cfg now t name :
  jwt.verify t (jwt_secret cfg) now = jwt.Thrown name ->
  (name = "TokenExpiredError" /\ expired_for cfg now t)
  \/ (name = "JsonWebTokenError" /\ malformed_for cfg t).
Proof.
  unfold jwt.verify. destruct t as [k c | s].
  - destruct (decide (k = jwt_secret cfg)) as [-> | Hk].
    + destruct (jwt.c_exp c <=? now / 1000) eqn:E; [| discriminate].
      intros [= <-]. left. split; [reflexivity |].
      exists c. split; [reflexivity | now apply Z.leb_le].
    + intros [= <-]. right. split; [reflexivity | exact Hk].
  - intros [= <-]. right. split; [reflexivity | exact I].
Qed.

Lemma verify_expired cfg now t :
  expired_for cfg now t -> jwt.verify t (jwt_secret cfg) now = jwt.Thrown "TokenExpiredError".
Proof.
  intros (c & -> & H). unfold jwt.verify.
  destruct (decide (jwt_secret cfg = jwt_secret cfg)); [| congruence].
  apply Z.leb_le in H. now rewrite H.
Qed.

Lemma verify_malformed cfg now t :
  malformed_for cfg t -> jwt.verify t (jwt_secret cfg) now = jwt.Thrown "JsonWebTokenError".
Proof.
  destruct t as [k c | s]; simpl; intros H; [| reflexivity].
  destruct (decide (k = jwt_secret cfg)); [contradiction | reflexivity].
Qed.

(** C7. When verification of the bearer token fails, [authenticate]
    answers 401 with one of two codes: TOKEN_EXPIRED exactly when the
    signature is right and the clock has reached the embedded expiry,
    INVALID_TOKEN exactly when the structure or the signature is wrong.
    The two codes differ and the two causes exclude each other. *)
Theorem authenticate_distinguishes_verification_failures
    (cfg : config) (now : Z) (w : world) (req : request) (t : token) :
  authorization req = Some (Bearer t) ->
  (expired_for cfg now t -> authenticate cfg now w req = (w, Respond res_token_expired))
  /\ (malformed_for cfg t -> authenticate cfg now w req = (w, Respond res_invalid_token))
  /\ (forall name, jwt.verify t (jwt_secret cfg) now = jwt.Thrown name ->
        (expired_for cfg now t /\ ~ malformed_for cfg t
         /\ response_code (snd (authenticate cfg now w req)) = Some "TOKEN_EXPIRED")
        \/ (malformed_for cfg t /\ ~ expired_for cfg now t
            /\ response_code (snd (authenticate cfg now w req)) = Some "INVALID_TOKEN"))
  /\ r_code res_token_expired <> r_code res_invalid_token
  /\ r_status res_token_expired = 401 /\ r_status res_invalid_token = 401.
Proof.
  intros Hh.
  assert (Hexp : expired_for cfg now t ->
                 authenticate cfg now w req = (w, Respond res_token_expired)).
  { intros H. unfold authenticate. rewrite Hh, (verify_expired _ _ _ H). reflexivity. }
  assert (Hmal : malformed_for cfg t ->
                 authenticate cfg now w req = (w, Respond res_invalid_token)).
  { intros H. unfold authenticate. rewrite Hh, (verify_malformed _ _ _ H). reflexivity. }
  assert (Hexcl : expired_for cfg now t -> malformed_for cfg t -> False).
  { intros (c & -> & _) H. simpl in H. congruence. }
  repeat split; try assumption; try discriminate.
  intros name Hv.
  destruct (verify_failure_kinds _ _ _ _ Hv) as [[_ H] | [_ H]].
  - left. repeat split; [assumption | intros H'; eauto |].
    rewrite (Hexp H). reflexivity.
  - right. repeat split; [assumption | intros H'; eauto |].
    rewrite (Hmal H). reflexivity.
Qed.

Lemma authenticate_distinguishes_verification_failures_witness :
  let cfg := default_config in
  let t := jwt.Opaque "garbage" in
  let req := incoming (Some (Bearer t)) None in
  (expired_for cfg 1000 t -> authenticate cfg 1000 fresh_world req
                             = (fresh_world, Respond res_token_expired))
  /\ (malformed_for cfg t -> authenticate cfg 1000 fresh_world req
                             = (fresh_world, Respond res_invalid_token))
  /\ (forall name, jwt.verify t (jwt_secret cfg) 1000 = jwt.Thrown name ->
        (expired_for cfg 1000 t /\ ~ malformed_for cfg t
         /\ response_code (snd (authenticate cfg 1000 fresh_world req)) = Some "TOKEN_EXPIRED")
        \/ (malformed_for cfg t /\ ~ expired_for cfg 1000 t
            /\ response_code (snd (authenticate cfg 1000 fresh_world req)) = Some "INVALID_TOKEN"))
  /\ r_code res_token_expired <> r_code res_invalid_token
  /\ r_status res_token_expired = 401 /\ r_status res_invalid_token = 401.
Proof.
  apply (authenticate_distinguishes_verification_failures
           default_config 1000 fresh_world
           (incoming (Some (Bearer (jwt.Opaque "garbage"))) None) (jwt.Opaque "garbage")).
  reflexivity.
Defined.

(** An expired token of Alice's and a forged one, each told apart. *)
Example expired_token_is_reported_expired :
  response_code (snd (authenticate default_config (7 * 24 * 60 * 60 * 1000)
                        fresh_world alice_request)) = Some "TOKEN_EXPIRED".
Proof. reflexivity. Qed.

Example forged_token_is_reported_invalid :
  response_code
    (snd (authenticate default_config 1000 fresh_world
            (incoming (Some (Bearer (generateAuthToken
                                       {| jwt_secret := "guess"; jwt_expiresIn := 60;
                                          jwt_refreshSecret := "r"; jwt_refreshExpiresIn := 60 |}
                                       0 alice))) None)))
  = Some "INVALID_TOKEN".
Proof. reflexivity. Qed.

(** ** [authenticate] past verification *)

Lemma authenticate_verified cfg now w req t c :
  authorization req = Some (Bearer t) ->
  jwt.verify t (jwt_secret cfg) now = jwt.Decoded c ->
  authenticate cfg now w req
  = let userId := jwt.p_userId (jwt.c_payload c) in
    if redisUtils.exists_ now (cache w) (redis.blacklist t)
    then (w, Respond res_token_revoked)
    else
      let cachedUser := redisUtils.getDiasporaData now (cache w) userId in
      if from_option truthy false cachedUser
      then match cachedUser with
           | Some (redis.VUser u) => attach_if_active now w req u
           | _ => (w, Respond (res_account_suspended "undefined"))
           end
      else
        match User.project_identity <$> User.raw_findById userId (db w) with
        | None => (w, Respond res_user_not_found)
        | Some u =>
            let w1 := with_cache
                        (fst (redisUtils.cacheDiasporaData now (cache w) (u_id u) u)) w in
            attach_if_active now w1 req u
        end.
Proof.
  intros Hh Hv. unfold authenticate. rewrite Hh, Hv. reflexivity.
Qed.

(** Settles the status test of [attach_if_active] from the context. *)
Ltac status_test :=
  unfold attach_if_active;
  match goal with
  | |- context [decide (status ?u = "active")] =>
      destruct (decide (status u = "active"));
      [try contradiction | try contradiction]
  end.

(** ** The optional variant *)

Lemma optionalAuth_with_bearer cfg now w req t :
  authorization req = Some (Bearer t) ->
  optionalAuth cfg now w req = authenticate cfg now w req.
Proof.
  intros H. unfold optionalAuth. rewrite H.
  destruct (authenticate cfg now w req) as [w' o] eqn:E.
  destruct o as [err r hs | res | e]; try reflexivity.
  destruct err; [| reflexivity].
  exfalso. revert E. unfold authenticate. rewrite H.
  destruct (jwt.verify t (jwt_secret cfg) now).
  - destruct (redisUtils.exists_ _ _ _); [discriminate |].
    destruct (from_option truthy false _).
    + destruct (redisUtils.getDiasporaData _ _ _) as [[]|]; try discriminate.
      unfold attach_if_active. destruct (decide _); discriminate.
    + destruct (User.project_identity <$> _); [| discriminate].
      unfold attach_if_active. destruct (decide _); discriminate.
  - repeat destruct (decide _); discriminate.
Qed.

(** C4. [optionalAuth] is meant to let every request through, as a guest
    when authentication fails.  With a bearer token that is not a JWT it
    sends the 401 INVALID_TOKEN of [authenticate] instead; the same holds
    for a revoked token, a token of a deleted user and a token of a
    suspended user (401, 401, 403). *)
Theorem optionalAuth_rejects_invalid_token :
  let guest := incoming (Some (Bearer (jwt.Opaque "not-a-jwt"))) None in
  optionalAuth default_config 1000 fresh_world guest
    = (fresh_world, Respond res_invalid_token)
  /\ is_next (snd (optionalAuth default_config 1000 fresh_world guest)) = false
  /\ response_status
       (snd (optionalAuth default_config (7 * 24 * 60 * 60 * 1000) fresh_world alice_request))
     = Some 401
  /\ response_code
       (snd (optionalAuth default_config 1000
               {| db := []; cache := redis.empty true |} alice_request))
     = Some "USER_NOT_FOUND"
  /\ response_code
       (snd (optionalAuth default_config 1000
               {| db := [set_status "suspended" alice]; cache := redis.empty true |}
               alice_request))
     = Some "ACCOUNT_SUSPENDED"
  /\ response_code
       (snd (optionalAuth default_config 1000
               (fst (logout 500 fresh_world
                       (set_req_user (Identity alice) alice_request)))
               alice_request))
     = Some "TOKEN_REVOKED".
Proof. repeat split. Qed.

(** ** Password reset requests *)

Lemma forgotPassword_reveals_registration now en w known unknown :
  User.findOne_email known (db w) <> None ->
  User.findOne_email unknown (db w) = None ->
  snd (forgotPassword now en w known) = Respond (ok 200 forgotPassword_known_message NoData)
  /\ snd (forgotPassword now en w unknown)
     = Respond (ok 200 forgotPassword_unknown_message NoData).
Proof.
  intros Hk Hu. unfold forgotPassword. rewrite Hu.
  destruct (User.findOne_email known (db w)); [split; reflexivity | contradiction].
Qed.

(** C3. [forgotPassword] is meant to answer the same whether or not the
    e-mail address is registered.  Both answers are successes, but their
    messages differ: for Alice's address the message says the link was
    sent, for an unknown address it says the link was sent if the address
    is registered. *)
Theorem forgotPassword_messages_differ :
  let en := {| en_objectId := ""; en_salt := ""; en_randomHex := "9f3c" |} in
  let known := snd (forgotPassword 0 en fresh_world "a@x.com") in
  let unknown := snd (forgotPassword 0 en fresh_world "nobody@x.com") in
  known = Respond (ok 200 forgotPassword_known_message NoData)
  /\ unknown = Respond (ok 200 forgotPassword_unknown_message NoData)
  /\ known <> unknown.
Proof.
  repeat split. intros H. discriminate H.
Qed.

(** ** Revocation *)

Lemma write_same k e c : redis.keys (redis.write k e c) k = e.
Proof. simpl. destruct (decide (k = k)); congruence. Qed.

Lemma write_other k k' e c : k' <> k -> redis.keys (redis.write k e c) k' = redis.keys c k'.
Proof. intros H. simpl. destruct (decide (k' = k)); congruence. Qed.

Lemma write_ready k e c : redis.isReady (redis.write k e c) = redis.isReady c.
Proof. reflexivity. Qed.

Lemma blacklistToken_entry now c t type :
  redis.isReady c = true ->
  let k := if decide (type = "refresh") then redis.blacklist_refresh t else redis.blacklist t in
  let ttl := if decide (type = "refresh") then thirty_days else seven_days in
  redis.keys (fst (blacklistToken now c t type)) k
    = Some {| redis.e_value := redis.VString "blacklisted";
              redis.e_expireAt := Some (now + ttl * 1000) |}
  /\ redis.isReady (fst (blacklistToken now c t type)) = true.
Proof.
  intros Hr. unfold blacklistToken, redisUtils.set, redis.SETEX. rewrite Hr.
  destruct (decide (type = "refresh")); simpl;
    (split; [destruct (decide _); [reflexivity | congruence] | exact Hr]).
Qed.

Lemma logout_entry now w req t u :
  authorization req = Some (Bearer t) ->
  req_user req = Identity u ->
  redis.isReady (cache w) = true ->
  redis.keys (cache (fst (logout now w req))) (redis.blacklist t)
    = Some {| redis.e_value := redis.VString "blacklisted";
              redis.e_expireAt := Some (now + seven_days * 1000) |}
  /\ redis.isReady (cache (fst (logout now w req))) = true.
Proof.
  intros Hh Hu Hr. unfold logout. rewrite Hh, Hu. cbn [header_token].
  destruct (blacklistToken_entry now (cache w) t "access" Hr) as [He Hr1].
  cbv zeta in He. 
  destruct (decide ("access" = "refresh")) as [E|_]; [discriminate E|].
  set (c1 := fst (blacklistToken now (cache w) t "access")) in *.
  unfold redisUtils.del. cbn [fst snd with_cache cache]. rewrite Hr1.
  cbn [fst]. unfold redis.DEL. rewrite write_ready, Hr1. cbn [fst].
  rewrite write_ready. split; [| exact Hr1].
  rewrite !write_other by discriminate. exact He.
Qed.

Lemma refreshToken_entry cfg now w req u old :
  req_user req = Identity u ->
  req_refreshToken req = Some old ->
  redis.isReady (cache w) = true ->
  redis.keys (cache (fst (refreshToken cfg now w req))) (redis.blacklist_refresh old)
    = Some {| redis.e_value := redis.VString "blacklisted";
              redis.e_expireAt := Some (now + thirty_days * 1000) |}.
Proof.
  intros Hu Ho Hr. unfold refreshToken. rewrite Hu, Ho.
  destruct (blacklistToken_entry now (cache w) old "refresh" Hr) as [He Hr1].
  cbv zeta in He.
  destruct (decide ("refresh" = "refresh")) as [_|E]; [| congruence].
  set (c1 := fst (blacklistToken now (cache w) old "refresh")) in *.
  unfold redisUtils.set, redis.SETEX. cbn [fst snd with_cache cache]. rewrite Hr1.
  change (0 <? thirty_days) with true. cbn [fst].
  rewrite write_other by discriminate. exact He.
Qed.

Lemma ttl_of_fresh_entry now c k v ttl :
  redis.keys c k = Some {| redis.e_value := v; redis.e_expireAt := Some (now + ttl * 1000) |} ->
  ttl_at now c k = Some ttl.
Proof.
  intros H. unfold ttl_at. rewrite H. simpl. f_equal.
  replace (now + ttl * 1000 - now) with (ttl * 1000) by lia.
  apply Z.div_mul. lia.
Qed.

(** C5 as stated fails: Alice's token, issued at instant 0 for seven
    days, is revoked 100 seconds later; it has 604700 seconds left and
    its registry entry gets 604800. *)
Lemma blacklist_ttl_is_not_remaining_lifetime :
  ~ (forall now w req t u,
       authorization req = Some (Bearer t) ->
       req_user req = Identity u ->
       redis.isReady (cache w) = true ->
       ttl_at now (cache (fst (logout now w req))) (redis.blacklist t)
         = remaining_lifetime now t).
Proof.
  intros H.
  specialize (H 100000 fresh_world (set_req_user (Identity alice) alice_request)
                alice_token alice eq_refl eq_refl eq_refl).
  vm_compute in H. discriminate H.
Qed.

(** C5, amended. With Redis available, the entry that [logout] writes
    under the raw access token has a TTL of seven days and the entry
    that the refresh operation writes under the old refresh token has a
    TTL of thirty days, whatever lifetime the token has left. *)
Theorem blacklist_ttl_is_fixed
    (cfg : config) (now : Z) (w : world) (req : request) (u : user) :
  req_user req = Identity u ->
  redis.isReady (cache w) = true ->
  (forall t, authorization req = Some (Bearer t) ->
     redis.keys (cache (fst (logout now w req))) (redis.blacklist t)
       = Some {| redis.e_value := redis.VString "blacklisted";
                 redis.e_expireAt := Some (now + 7 * 24 * 60 * 60 * 1000) |}
     /\ ttl_at now (cache (fst (logout now w req))) (redis.blacklist t)
        = Some (7 * 24 * 60 * 60))
  /\ (forall old, req_refreshToken req = Some old ->
        redis.keys (cache (fst (refreshToken cfg now w req))) (redis.blacklist_refresh old)
          = Some {| redis.e_value := redis.VString "blacklisted";
                    redis.e_expireAt := Some (now + 30 * 24 * 60 * 60 * 1000) |}
        /\ ttl_at now (cache (fst (refreshToken cfg now w req))) (redis.blacklist_refresh old)
           = Some (30 * 24 * 60 * 60)).
Proof.
  intros Hu Hr. split.
  - intros t Hh. destruct (logout_entry now w req t u Hh Hu Hr) as [He _].
    split; [exact He |]. exact (ttl_of_fresh_entry _ _ _ _ _ He).
  - intros old Ho. pose proof (refreshToken_entry cfg now w req u old Hu Ho Hr) as He.
    split; [exact He |]. exact (ttl_of_fresh_entry _ _ _ _ _ He).
Qed.

Lemma blacklist_ttl_is_fixed_witness :
  let req := set_req_refreshToken (Some (generateRefreshToken default_config 0 alice))
               (set_req_user (Identity alice) alice_request) in
  (forall t, authorization req = Some (Bearer t) ->
     redis.keys (cache (fst (logout 100000 fresh_world req))) (redis.blacklist t)
       = Some {| redis.e_value := redis.VString "blacklisted";
                 redis.e_expireAt := Some (100000 + 7 * 24 * 60 * 60 * 1000) |}
     /\ ttl_at 100000 (cache (fst (logout 100000 fresh_world req))) (redis.blacklist t)
        = Some (7 * 24 * 60 * 60))
  /\ (forall old, req_refreshToken req = Some old ->
        redis.keys (cache (fst (refreshToken default_config 100000 fresh_world req)))
                   (redis.blacklist_refresh old)
          = Some {| redis.e_value := redis.VString "blacklisted";
                    redis.e_expireAt := Some (100000 + 30 * 24 * 60 * 60 * 1000) |}
        /\ ttl_at 100000 (cache (fst (refreshToken default_config 100000 fresh_world req)))
                  (redis.blacklist_refresh old)
           = Some (30 * 24 * 60 * 60)).
Proof.
  apply (blacklist_ttl_is_fixed default_config 100000 fresh_world
           (set_req_refreshToken (Some (generateRefreshToken default_config 0 alice))
              (set_req_user (Identity alice) alice_request)) alice);
    reflexivity.
Defined.

Lemma seconds_lt_millis now e : now / 1000 < e -> now < e * 1000.
Proof.
  intros H.
  pose proof (Z.div_mod now 1000 ltac:(lia)) as Hd.
  pose proof (Z.mod_pos_bound now 1000 ltac:(lia)) as Hm.
  lia.
Qed.

Lemma verify_decoded t secret now c :
  jwt.verify t secret now = jwt.Decoded c ->
  t = jwt.Signed secret c /\ now / 1000 < jwt.c_exp c.
Proof.
  unfold jwt.verify. destruct t as [k c' | s]; [| discriminate].
  destruct (decide (k = secret)) as [-> | _]; [| discriminate].
  destruct (jwt.c_exp c' <=? now / 1000) eqn:E; [discriminate |].
  intros [= <-]. split; [reflexivity |]. apply Z.leb_gt in E. exact E.
Qed.

Lemma exists_live_entry now c k e :
  redis.isReady c = true ->
  redis.keys c k = Some e ->
  redis.expired now e = false ->
  redisUtils.exists_ now c k = true.
Proof.
  intros Hr Hk He. unfold redisUtils.exists_, redis.EXISTS, redis.live.
  rewrite Hr, Hk, He. reflexivity.
Qed.

(** C2 as stated fails: with access tokens configured to live thirty
    days, a token revoked at instant 0 is accepted again eight days
    later, when its registry entry has expired and the token has not. *)
Lemma revocation_can_end_before_expiry :
  ~ (forall cfg t_l now w req t u c,
       authorization req = Some (Bearer t) ->
       req_user req = Identity u ->
       redis.isReady (cache w) = true ->
       t_l <= now ->
       jwt.verify t (jwt_secret cfg) now = jwt.Decoded c ->
       response_code (snd (authenticate cfg now (fst (logout t_l w req))
                             (incoming (Some (Bearer t)) None)))
         = Some "TOKEN_REVOKED").
Proof.
  intros H.
  pose (t := generateAuthToken long_access_config 0 alice).
  specialize (H long_access_config 0 (8 * 24 * 60 * 60 * 1000) fresh_world
                (set_req_user (Identity alice) (incoming (Some (Bearer t)) None))
                t alice _ eq_refl eq_refl eq_refl ltac:(lia) eq_refl).
  vm_compute in H. discriminate H.
Qed.

(** C2, amended. Once [logout] has put the token in the registry, and
    for as long as that entry is the one stored and Redis is available,
    [authenticate] answers 401 TOKEN_REVOKED to that token whenever it
    still verifies, during the seven days that follow the logout; this
    covers all the time up to the token's expiry when that expiry is at
    most seven days after the logout, as it is with the default access
    lifetime. *)
Theorem revoked_token_is_refused
    (cfg : config) (t_l now : Z) (w w2 : world) (req req2 : request)
    (t : token) (u : user) (c : jwt.claims) :
  authorization req = Some (Bearer t) ->
  req_user req = Identity u ->
  redis.isReady (cache w) = true ->
  redis.isReady (cache w2) = true ->
  redis.keys (cache w2) (redis.blacklist t)
    = redis.keys (cache (fst (logout t_l w req))) (redis.blacklist t) ->
  authorization req2 = Some (Bearer t) ->
  jwt.verify t (jwt_secret cfg) now = jwt.Decoded c ->
  now < t_l + 7 * 24 * 60 * 60 * 1000
  \/ jwt.c_exp c * 1000 <= t_l + 7 * 24 * 60 * 60 * 1000 ->
  authenticate cfg now w2 req2 = (w2, Respond res_token_revoked).
Proof.
  intros Hh Hu Hr Hr2 Hk Hh2 Hv Ht.
  destruct (logout_entry t_l w req t u Hh Hu Hr) as [He _].
  rewrite He in Hk.
  destruct (verify_decoded _ _ _ _ Hv) as [_ Hexp].
  assert (Hlive : now < t_l + seven_days * 1000).
  { apply seconds_lt_millis in Hexp. unfold seven_days. destruct Ht as [Ht | Ht]; lia. }
  rewrite (authenticate_verified _ _ _ _ _ _ Hh2 Hv). cbv zeta.
  rewrite (exists_live_entry now (cache w2) (redis.blacklist t) _ Hr2 Hk); [reflexivity |].
  unfold redis.expired. simpl. apply Z.leb_gt. exact Hlive.
Qed.

Lemma revoked_token_is_refused_witness :
  authenticate default_config 3000
    (fst (logout 2000 fresh_world (set_req_user (Identity alice) alice_request)))
    alice_request
  = (fst (logout 2000 fresh_world (set_req_user (Identity alice) alice_request)),
     Respond res_token_revoked).
Proof.
  apply (revoked_token_is_refused default_config 2000 3000 fresh_world
           (fst (logout 2000 fresh_world (set_req_user (Identity alice) alice_request)))
           (set_req_user (Identity alice) alice_request) alice_request
           alice_token alice
           {| jwt.c_payload := {| jwt.p_userId := u_id alice;
                                  jwt.p_email := Some (email alice);
                                  jwt.p_username := Some (username alice);
                                  jwt.p_role := Some (role alice);
                                  jwt.p_type := None |};
              jwt.c_iat := 0; jwt.c_exp := 7 * 24 * 60 * 60 |});
    try reflexivity.
  left. lia.
Defined.

(** With the default lifetime the second alternative holds for every
    token the server issued before the logout. *)
Lemma default_token_expires_within_blacklist_ttl t0 t_l u c :
  t0 <= t_l ->
  generateAuthToken default_config t0 u = jwt.Signed (jwt_secret default_config) c ->
  jwt.c_exp c * 1000 <= t_l + 7 * 24 * 60 * 60 * 1000.
Proof.
  intros Ht. unfold generateAuthToken, jwt.sign. intros [= <-]. simpl.
  change (jwt_expiresIn default_config) with (7 * 24 * 60 * 60).
  pose proof (Z.div_mod t0 1000 ltac:(lia)) as Hd.
  pose proof (Z.mod_pos_bound t0 1000 ltac:(lia)) as Hm.
  lia.
Qed.

(** ** Account status *)

(** C1 as stated fails: Alice is suspended in the collection, her cached
    document still says active, and [authenticate] attaches that cached
    document to the request. *)
Lemma stale_cache_admits_suspended_user :
  ~ (forall cfg now w req t c u,
       authorization req = Some (Bearer t) ->
       jwt.verify t (jwt_secret cfg) now = jwt.Decoded c ->
       redisUtils.exists_ now (cache w) (redis.blacklist t) = false ->
       User.raw_findById (jwt.p_userId (jwt.c_payload c)) (db w) = Some u ->
       status u <> "active" ->
       response_code (snd (authenticate cfg now w req)) = Some "ACCOUNT_SUSPENDED"
       /\ attached (snd (authenticate cfg now w req)) = None).
Proof.
  intros H.
  destruct (H default_config 1000 stale_world alice_request alice_token _
              (set_status "suspended" alice) eq_refl eq_refl eq_refl eq_refl)
    as [Hcode _].
  - discriminate.
  - vm_compute in Hcode. discriminate Hcode.
Qed.

(** C1, amended. For a request whose bearer token verifies and is not
    revoked, [authenticate] checks the status of the document it
    resolves: the one the Session Cache holds for the token's user when
    there is one, the one of the Credential Store otherwise.  When that
    status is not 'active' the answer is 403 ACCOUNT_SUSPENDED and no
    identity is attached; in particular a non-active status in the
    Credential Store blocks the request whenever the cache holds nothing
    for that user. *)
Theorem authenticate_blocks_non_active
    (cfg : config) (now : Z) (w : world) (req : request) (t : token)
    (c : jwt.claims) (u : user) :
  authorization req = Some (Bearer t) ->
  jwt.verify t (jwt_secret cfg) now = jwt.Decoded c ->
  redisUtils.exists_ now (cache w) (redis.blacklist t) = false ->
  redisUtils.getDiasporaData now (cache w) (jwt.p_userId (jwt.c_payload c))
    = Some (redis.VUser u)
  \/ (redisUtils.getDiasporaData now (cache w) (jwt.p_userId (jwt.c_payload c)) = None
      /\ User.raw_findById (jwt.p_userId (jwt.c_payload c)) (db w) = Some u) ->
  status u <> "active" ->
  exists w',
    authenticate cfg now w req = (w', Respond (res_account_suspended (status u)))
    /\ db w' = db w
    /\ response_code (snd (authenticate cfg now w req)) = Some "ACCOUNT_SUSPENDED"
    /\ response_status (snd (authenticate cfg now w req)) = Some 403
    /\ attached (snd (authenticate cfg now w req)) = None.
Proof.
  intros Hh Hv Hb Hres Hst.
  assert (E : exists w', authenticate cfg now w req
                         = (w', Respond (res_account_suspended (status u)))
                         /\ db w' = db w).
  { rewrite (authenticate_verified _ _ _ _ _ _ Hh Hv), Hb. cbv zeta.
    destruct Hres as [Hc | [Hc Hd]]; rewrite Hc; simpl from_option.
    - status_test. exists w. split; reflexivity.
    - rewrite Hd. simpl fmap.
      change (status u <> "active") with (status (User.project_identity u) <> "active") in Hst.
      status_test. eexists. split; reflexivity. }
  destruct E as (w' & E & Hdb). exists w'. rewrite E. repeat split. exact Hdb.
Qed.

Lemma authenticate_blocks_non_active_witness :
  exists w',
    authenticate default_config 1000 suspended_world alice_request
      = (w', Respond (res_account_suspended (status (set_status "suspended" alice))))
    /\ db w' = db suspended_world
    /\ response_code (snd (authenticate default_config 1000 suspended_world alice_request))
       = Some "ACCOUNT_SUSPENDED"
    /\ response_status (snd (authenticate default_config 1000 suspended_world alice_request))
       = Some 403
    /\ attached (snd (authenticate default_config 1000 suspended_world alice_request)) = None.
Proof.
  apply (authenticate_blocks_non_active default_config 1000 suspended_world alice_request
           alice_token
           {| jwt.c_payload := {| jwt.p_userId := u_id alice;
                                  jwt.p_email := Some (email alice);
                                  jwt.p_username := Some (username alice);
                                  jwt.p_role := Some (role alice);
                                  jwt.p_type := None |};
              jwt.c_iat := 0; jwt.c_exp := 7 * 24 * 60 * 60 |}
           (set_status "suspended" alice)).
  - reflexivity.
  - reflexivity.
  - reflexivity.
  - right. split; reflexivity.
  - discriminate.
Defined.

(** ** Token refresh *)

Lemma validateRefreshToken_next cfg now w req w' err req' hs :
  validateRefreshToken cfg now w req = (w', Next err req' hs) ->
  exists old d u,
    body_refreshToken req = Some old
    /\ jwt.verify old (jwt_refreshSecret cfg) now = jwt.Decoded d
    /\ User.findById (jwt.p_userId (jwt.c_payload d)) (db w) = Some u
    /\ status u = "active"
    /\ w' = w /\ err = None /\ hs = []
    /\ req' = set_req_refreshToken (Some old) (set_req_user (Identity u) req).
Proof.
  unfold validateRefreshToken.
  destruct (body_refreshToken req) as [old |]; [| discriminate].
  destruct (token_truthy old); [| discriminate].
  destruct (jwt.verify old (jwt_refreshSecret cfg) now) as [d | name] eqn:Hv; [| discriminate].
  destruct (redisUtils.exists_ _ _ _); [discriminate |].
  destruct (User.findById _ _) as [u |] eqn:Hu; [| discriminate].
  destruct (decide (status u = "active")) as [Hs | Hs]; [| discriminate].
  intros [= <- <- <- <-]. exists old, d, u. repeat split; assumption.
Qed.

Lemma validateRefreshToken_wrong_secret cfg now w req k c :
  body_refreshToken req = Some (jwt.Signed k c) ->
  k <> jwt_refreshSecret cfg ->
  validateRefreshToken cfg now w req
    = (w, Respond (fail 401 "Invalid refresh token" None "INVALID_REFRESH_TOKEN")).
Proof.
  intros Hb Hk. unfold validateRefreshToken. rewrite Hb. simpl.
  destruct (decide (k = jwt_refreshSecret cfg)); [contradiction | reflexivity].
Qed.

Lemma set_ready now c k v ttl :
  redis.isReady (fst (redisUtils.set now c k v ttl)) = redis.isReady c.
Proof.
  unfold redisUtils.set, redis.SETEX.
  destruct (redis.isReady c) eqn:Hr; [| exact Hr].
  destruct (0 <? ttl); simpl; exact Hr.
Qed.

Lemma refresh_route_incoming cfg now w h rt :
  refresh_route cfg now w (incoming h rt)
  = match validateRefreshToken cfg now w (incoming h rt) with
    | (w2, Next None req2 _) => refreshToken cfg now w2 req2
    | other => other
    end.
Proof. reflexivity. Qed.

(** C6 as stated fails on its second half: with Redis unavailable the
    refresh succeeds and returns a new pair while nothing is recorded
    for the old refresh token. *)
Lemma refresh_without_redis_revokes_nothing :
  ~ (forall cfg now w h old w' res,
       refresh_route cfg now w (incoming h (Some old)) = (w', Respond res) ->
       r_success res = true ->
       redis.keys (cache w') (redis.blacklist_refresh old) <> None).
Proof.
  intros H.
  apply (H default_config 1000 offline_world None alice_refresh_token
           _ _ eq_refl eq_refl).
  reflexivity.
Qed.

(** C6, amended. The refresh route verifies the presented token against
    the refresh secret: a token signed with any other secret, such as an
    access token, is answered 401 INVALID_REFRESH_TOKEN and changes
    nothing.  When the route succeeds, the response carries an access
    token and a refresh token newly signed for the token's user, and,
    when Redis is available, the old refresh token is in the registry
    from then on. *)
Theorem refresh_checks_secret_and_rotates
    (cfg : config) (now : Z) (w w' : world) (h : option auth_header)
    (k : string) (c : jwt.claims) (old : token) (res : response) :
  k <> jwt_refreshSecret cfg ->
  refresh_route cfg now w (incoming h (Some old)) = (w', Respond res) ->
  r_success res = true ->
  refresh_route cfg now w (incoming h (Some (jwt.Signed k c)))
    = (w, Respond (fail 401 "Invalid refresh token" None "INVALID_REFRESH_TOKEN"))
  /\ exists d u,
       jwt.verify old (jwt_refreshSecret cfg) now = jwt.Decoded d
       /\ User.findById (jwt.p_userId (jwt.c_payload d)) (db w) = Some u
       /\ res = ok 200 "Tokens refreshed successfully"
                  (Tokens {| accessToken := generateAuthToken cfg now u;
                             refreshToken_ := generateRefreshToken cfg now u;
                             expiresIn := jwt_expiresIn cfg |})
       /\ db w' = db w
       /\ (redis.isReady (cache w) = true ->
           redis.keys (cache w') (redis.blacklist_refresh old)
             = Some {| redis.e_value := redis.VString "blacklisted";
                       redis.e_expireAt := Some (now + 30 * 24 * 60 * 60 * 1000) |}
           /\ redisUtils.exists_ now (cache w') (redis.blacklist_refresh old) = true).
Proof.
  intros Hk Hrun Hok. split.
  - rewrite refresh_route_incoming.
    rewrite (validateRefreshToken_wrong_secret cfg now w
               (incoming h (Some (jwt.Signed k c))) k c eq_refl Hk). reflexivity.
  - rewrite refresh_route_incoming in Hrun.
    destruct (validateRefreshToken cfg now w (incoming h (Some old))) as [w2 o] eqn:Hval.
    destruct o as [err req2 hs | res2 | e].
    + destruct (validateRefreshToken_next _ _ _ _ _ _ _ _ Hval)
        as (old' & d & u & Hb & Hv & Hu & Hs & -> & -> & -> & ->).
      simpl in Hb. injection Hb as <-.
      exists d, u. split; [exact Hv |]. split; [exact Hu |].
      unfold refreshToken in Hrun. simpl in Hrun.
      injection Hrun as <- <-.
      split; [reflexivity |]. split; [reflexivity |].
      intros Hr.
      pose proof (refreshToken_entry cfg now w
                    (set_req_refreshToken (Some old)
                       (set_req_user (Identity u) (incoming h (Some old))))
                    u old eq_refl eq_refl Hr) as He.
      unfold refreshToken in He. simpl in He.
      split; [exact He |].
      apply exists_live_entry with (e := {| redis.e_value := redis.VString "blacklisted";
                                            redis.e_expireAt := Some (now + thirty_days * 1000) |}).
      * simpl. rewrite !set_ready. exact Hr.
      * exact He.
      * unfold redis.expired. simpl. apply Z.leb_gt. unfold thirty_days. lia.
    + injection Hrun as <- <-. 
      exfalso. revert Hval Hok. unfold validateRefreshToken. simpl.
      destruct (token_truthy old); [| intros [= <- <-]; discriminate].
      destruct (jwt.verify _ _ _); [| intros [= <- <-]; discriminate].
      destruct (redisUtils.exists_ _ _ _); [intros [= <- <-]; discriminate |].
      destruct (User.findById _ _); [| intros [= <- <-]; discriminate].
      destruct (decide _); intros [= <- <-]; discriminate.
    + discriminate.
Qed.

Lemma refresh_checks_secret_and_rotates_witness :
  let cfg := default_config in
  let w := fresh_world in
  let w' := fst (refresh_route cfg 1000 w (incoming None (Some alice_refresh_token))) in
  refresh_route cfg 1000 w (incoming None (Some alice_token))
    = (w, Respond (fail 401 "Invalid refresh token" None "INVALID_REFRESH_TOKEN"))
  /\ exists d u,
       jwt.verify alice_refresh_token (jwt_refreshSecret cfg) 1000 = jwt.Decoded d
       /\ User.findById (jwt.p_userId (jwt.c_payload d)) (db w) = Some u
       /\ ok 200 "Tokens refreshed successfully"
            (Tokens {| accessToken := generateAuthToken cfg 1000 alice;
                       refreshToken_ := generateRefreshToken cfg 1000 alice;
                       expiresIn := jwt_expiresIn cfg |})
          = ok 200 "Tokens refreshed successfully"
               (Tokens {| accessToken := generateAuthToken cfg 1000 u;
                          refreshToken_ := generateRefreshToken cfg 1000 u;
                          expiresIn := jwt_expiresIn cfg |})
       /\ db w' = db w
       /\ (redis.isReady (cache w) = true ->
           redis.keys (cache w') (redis.blacklist_refresh alice_refresh_token)
             = Some {| redis.e_value := redis.VString "blacklisted";
                       redis.e_expireAt := Some (1000 + 30 * 24 * 60 * 60 * 1000) |}
           /\ redisUtils.exists_ 1000 (cache w') (redis.blacklist_refresh alice_refresh_token)
              = true).
Proof.
  apply (refresh_checks_secret_and_rotates default_config 1000 fresh_world
           (fst (refresh_route default_config 1000 fresh_world
                   (incoming None (Some alice_refresh_token))))
           None (jwt_secret default_config)
           {| jwt.c_payload := {| jwt.p_userId := u_id alice;
                                  jwt.p_email := Some (email alice);
                                  jwt.p_username := Some (username alice);
                                  jwt.p_role := Some (role alice);
                                  jwt.p_type := None |};
              jwt.c_iat := 0; jwt.c_exp := 7 * 24 * 60 * 60 |}
           alice_refresh_token
           (ok 200 "Tokens refreshed successfully"
              (Tokens {| accessToken := generateAuthToken default_config 1000 alice;
                         refreshToken_ := generateRefreshToken default_config 1000 alice;
                         expiresIn := jwt_expiresIn default_config |}))).
  - discriminate.
  - reflexivity.
  - reflexivity.
Defined.

(** With two different secrets, as in the default configuration, an
    access token presented to the refresh route is refused. *)
Lemma access_token_is_not_a_refresh_token cfg t0 now w u h :
  jwt_secret cfg <> jwt_refreshSecret cfg ->
  refresh_route cfg now w (incoming h (Some (generateAuthToken cfg t0 u)))
    = (w, Respond (fail 401 "Invalid refresh token" None "INVALID_REFRESH_TOKEN")).
Proof.
  intros H. rewrite refresh_route_incoming.
  unfold generateAuthToken, jwt.sign.
  erewrite validateRefreshToken_wrong_secret; [reflexivity | reflexivity | exact H].
Qed.

(** ** The rate limiter within one window *)

Lemma incr_new_counter now c k ttl :
  redis.isReady c = true ->
  redis.live now c k = None ->
  0 < ttl ->
  exists c',
    redisUtils.incr now c k ttl = (c', 1)
    /\ redis.isReady c' = true
    /\ redis.keys c' k = Some {| redis.e_value := redis.VInt 1;
                                 redis.e_expireAt := Some (now + ttl * 1000) |}.
Proof.
  intros Hr Hl Ht. unfold redisUtils.incr, redis.INCR. rewrite Hr, Hl.
  destruct (decide (1 = 1)) as [_ | E]; [| contradiction].
  unfold redis.EXPIRE, redis.live. rewrite write_same. simpl redis.expired.
  apply Z.ltb_lt in Ht. rewrite Ht.
  eexists. split; [reflexivity |]. split; [exact Hr | apply write_same].
Qed.

Lemma incr_live_counter now c k ttl n E :
  redis.isReady c = true ->
  redis.keys c k = Some {| redis.e_value := redis.VInt n; redis.e_expireAt := Some E |} ->
  now < E ->
  1 <= n ->
  exists c',
    redisUtils.incr now c k ttl = (c', n + 1)
    /\ redis.isReady c' = true
    /\ redis.keys c' k = Some {| redis.e_value := redis.VInt (n + 1);
                                 redis.e_expireAt := Some E |}.
Proof.
  intros Hr Hk Ht Hn. unfold redisUtils.incr, redis.INCR, redis.live.
  rewrite Hr, Hk. unfold redis.expired. cbn [redis.e_expireAt].
  apply Z.leb_gt in Ht. rewrite Ht.
  destruct (decide (n + 1 = 1)) as [E1 | _]; [lia |].
  eexists. split; [reflexivity |]. split; [exact Hr | apply write_same].
Qed.

Lemma verdicts_nth windowMs maxRequests req :
  forall ts n i o,
    nth_error (verdicts windowMs maxRequests req n ts) i = Some o ->
    exists t, nth_error ts i = Some t
              /\ o = rate_limit_verdict windowMs maxRequests req (n + 1 + Z.of_nat i) t.
Proof.
  induction ts as [| t ts IH]; intros n i o H.
  - destruct i; discriminate.
  - destruct i as [| i]; simpl in H.
    + injection H as <-. exists t. split; [reflexivity |]. f_equal. lia.
    + destruct (IH _ _ _ H) as (t' & Ht & ->). exists t'. split; [exact Ht |].
      f_equal. lia.
Qed.

Lemma verdicts_length windowMs maxRequests req ts :
  forall n, length (verdicts windowMs maxRequests req n ts) = length ts.
Proof. induction ts; intros n; simpl; [reflexivity | now rewrite IHts]. Qed.

Lemma window_seconds_positive windowMs : 1000 <= windowMs -> 0 < windowMs / 1000.
Proof.
  intros H. pose proof (Z.div_le_lower_bound windowMs 1000 1 ltac:(lia) ltac:(lia)). lia.
Qed.

Lemma Forall_firstn_keeps {A} (P : A -> Prop) j l : Forall P l -> Forall P (firstn j l).
Proof.
  intros H. revert j. induction H as [| x l Hx Hl IH]; intros [| j]; simpl;
    constructor; auto.
Qed.

Section OneLimiter.

Variables (windowMs maxRequests : Z) (req : request) (u : user).
Hypothesis Hu : req_user req = Identity u.

Lemma userRateLimit_counts now w c requests :
  redisUtils.incr now (cache w) (redis.rate_limit_user (u_id u)) (windowMs / 1000)
    = (c, requests) ->
  userRateLimit windowMs maxRequests now w req
    = (with_cache c w, rate_limit_verdict windowMs maxRequests req requests now).
Proof.
  intros Hi. unfold userRateLimit, rate_limit_verdict. rewrite Hu, Hi.
  destruct (maxRequests <? requests); reflexivity.
Qed.

Lemma run_within_window E :
  forall ts w n,
    redis.isReady (cache w) = true ->
    redis.keys (cache w) (redis.rate_limit_user (u_id u))
      = Some {| redis.e_value := redis.VInt n; redis.e_expireAt := Some E |} ->
    1 <= n ->
    Forall (fun t => t < E) ts ->
    snd (rate_limited_run windowMs maxRequests w req ts)
      = verdicts windowMs maxRequests req n ts
    /\ redis.isReady (cache (fst (rate_limited_run windowMs maxRequests w req ts))) = true
    /\ redis.keys (cache (fst (rate_limited_run windowMs maxRequests w req ts)))
                  (redis.rate_limit_user (u_id u))
       = Some {| redis.e_value := redis.VInt (n + Z.of_nat (length ts));
                 redis.e_expireAt := Some E |}.
Proof.
  induction ts as [| t ts IH]; intros w n Hr Hk Hn Hts.
  - cbn [rate_limited_run verdicts fst snd length]. change (Z.of_nat 0) with 0.
    rewrite Z.add_0_r. repeat split; assumption.
  - inversion Hts as [| ? ? Ht Hrest]; subst.
    destruct (incr_live_counter t (cache w) _ (windowMs / 1000) n E Hr Hk Ht Hn)
      as (c' & Hi & Hr' & Hk').
    cbn [rate_limited_run].
    rewrite (userRateLimit_counts _ _ _ _ Hi).
    destruct (IH (with_cache c' w) (n + 1) Hr' Hk' ltac:(lia) Hrest) as (Ho & Hr2 & Hk2).
    destruct (rate_limited_run windowMs maxRequests (with_cache c' w) req ts) as [w2 os].
    simpl in *. rewrite Ho, Hk2. repeat split; [exact Hr2 |].
    do 3 f_equal. lia.
Qed.

Lemma run_of_new_window w t0 ts :
  redis.isReady (cache w) = true ->
  1000 <= windowMs ->
  redis.live t0 (cache w) (redis.rate_limit_user (u_id u)) = None ->
  Forall (fun t => t0 <= t < t0 + windowMs / 1000 * 1000) ts ->
  snd (rate_limited_run windowMs maxRequests w req (t0 :: ts))
    = verdicts windowMs maxRequests req 0 (t0 :: ts)
  /\ redis.isReady (cache (fst (rate_limited_run windowMs maxRequests w req (t0 :: ts)))) = true
  /\ redis.keys (cache (fst (rate_limited_run windowMs maxRequests w req (t0 :: ts))))
                (redis.rate_limit_user (u_id u))
     = Some {| redis.e_value := redis.VInt (1 + Z.of_nat (length ts));
               redis.e_expireAt := Some (t0 + windowMs / 1000 * 1000) |}.
Proof.
  intros Hr Hw Hl Hts.
  destruct (incr_new_counter t0 (cache w) _ (windowMs / 1000) Hr Hl
              (window_seconds_positive _ Hw)) as (c' & Hi & Hr' & Hk').
  cbn [rate_limited_run verdicts].
  rewrite (userRateLimit_counts _ _ _ _ Hi).
  assert (Hts' : Forall (fun t => t < t0 + windowMs / 1000 * 1000) ts).
  { eapply Forall_impl; [exact Hts |]. simpl. intros a Ha. lia. }
  destruct (run_within_window _ ts (with_cache c' w) 1
              Hr' Hk' ltac:(lia) Hts') as (Ho & Hr2 & Hk2).
  destruct (rate_limited_run windowMs maxRequests (with_cache c' w) req ts) as [w2 os].
  simpl in *. rewrite Ho. repeat split; assumption.
Qed.

End OneLimiter.

(** C8 as stated fails: the counter is kept per user, not per route.
    Alice sends one request through the limiter of /change-password
    (five an hour); a second later her first request of the day through
    the limiter of /deactivate-account (one a day) finds the counter at
    2 and is refused. *)
Lemma first_request_through_a_route_is_refused :
  ~ (forall windowA KA windowB KB w req u tA tB,
       req_user req = Identity u ->
       redis.isReady (cache w) = true ->
       redis.live tA (cache w) (redis.rate_limit_user (u_id u)) = None ->
       1000 <= windowA -> 1 <= KA ->
       1000 <= windowB -> 1 <= KB ->
       (windowA, KA) <> (windowB, KB) ->
       tA <= tB ->
       is_next (snd (userRateLimit windowB KB tB
                       (fst (userRateLimit windowA KA tA w req)) req)) = true).
Proof.
  intros H.
  specialize (H (60 * 60 * 1000) 5 (24 * 60 * 60 * 1000) 1 fresh_world
                (set_req_user (Identity alice) alice_request) alice 0 1000
                eq_refl eq_refl eq_refl).
  assert (Hn : is_next (snd (userRateLimit (24 * 60 * 60 * 1000) 1 1000
                               (fst (userRateLimit (60 * 60 * 1000) 5 0 fresh_world
                                       (set_req_user (Identity alice) alice_request)))
                               (set_req_user (Identity alice) alice_request))) = false)
    by (vm_compute; reflexivity).
  rewrite H in Hn; [discriminate | lia | lia | lia | lia | | lia].
  intros E. apply (f_equal snd) in E. cbn [snd] in E. lia.
Qed.

(** C8, amended. One user sends requests through one limiter of window
    [windowMs] (N = windowMs / 1000 seconds, at least one) and limit
    [K] (at least one), with Redis available, and through no other
    limiter meanwhile; the first arrives at [t0],
    when no counter of the user is alive, the others within N seconds of
    [t0].  Then the requests of rank up to K are passed on and every
    later one, the (K+1)th to begin with, is answered 429
    USER_RATE_LIMIT_EXCEEDED; after any number of them the counter still
    expires at [t0] + N seconds, the expiry set by the first request,
    whose increment returned 1; and a request that arrives once the
    window has elapsed is passed on. *)
Theorem rate_limit_window
    (windowMs K : Z) (w : world) (req : request) (u : user)
    (t0 : Z) (ts : list Z) (t_after : Z) :
  req_user req = Identity u ->
  redis.isReady (cache w) = true ->
  1000 <= windowMs ->
  1 <= K ->
  redis.live t0 (cache w) (redis.rate_limit_user (u_id u)) = None ->
  Forall (fun t => t0 <= t < t0 + windowMs / 1000 * 1000) ts ->
  t0 + windowMs / 1000 * 1000 <= t_after ->
  length (snd (rate_limited_run windowMs K w req (t0 :: ts))) = S (length ts)
  /\ (forall i o,
        nth_error (snd (rate_limited_run windowMs K w req (t0 :: ts))) i = Some o ->
        if Z.of_nat i <? K then is_next o = true else is_rate_limited o = true)
  /\ (forall j,
        redis.keys (cache (fst (rate_limited_run windowMs K w req (t0 :: firstn j ts))))
                   (redis.rate_limit_user (u_id u))
        = Some {| redis.e_value := redis.VInt (1 + Z.of_nat (length (firstn j ts)));
                  redis.e_expireAt := Some (t0 + windowMs / 1000 * 1000) |})
  /\ snd (redisUtils.incr t0 (cache w) (redis.rate_limit_user (u_id u)) (windowMs / 1000)) = 1
  /\ is_next (snd (userRateLimit windowMs K t_after
                     (fst (rate_limited_run windowMs K w req (t0 :: ts))) req)) = true.
Proof.
  intros Hu Hr Hw HK Hl Hts Hafter.
  destruct (run_of_new_window windowMs K req u Hu w t0 ts Hr Hw Hl Hts) as (Ho & Hr2 & Hk2).
  split; [| split; [| split; [| split]]].
  - rewrite Ho, verdicts_length. reflexivity.
  - intros i o Hn. rewrite Ho in Hn.
    destruct (verdicts_nth _ _ _ _ _ _ _ Hn) as (t & _ & ->).
    unfold rate_limit_verdict.
    destruct (Z.of_nat i <? K) eqn:Ei.
    + apply Z.ltb_lt in Ei.
      destruct (K <? 0 + 1 + Z.of_nat i) eqn:E; [apply Z.ltb_lt in E; lia | reflexivity].
    + apply Z.ltb_ge in Ei.
      destruct (K <? 0 + 1 + Z.of_nat i) eqn:E; [reflexivity | apply Z.ltb_ge in E; lia].
  - intros j.
    assert (Hj : Forall (fun t => t0 <= t < t0 + windowMs / 1000 * 1000) (firstn j ts)).
    { apply Forall_firstn_keeps. exact Hts. }
    destruct (run_of_new_window windowMs K req u Hu w t0 (firstn j ts) Hr Hw Hl Hj)
      as (_ & _ & Hkj).
    exact Hkj.
  - destruct (incr_new_counter t0 (cache w) _ (windowMs / 1000) Hr Hl
                (window_seconds_positive _ Hw)) as (c' & Hi & _).
    rewrite Hi. reflexivity.
  - set (w2 := fst (rate_limited_run windowMs K w req (t0 :: ts))) in *.
    assert (Hl2 : redis.live t_after (cache w2) (redis.rate_limit_user (u_id u)) = None).
    { unfold redis.live. rewrite Hk2. unfold redis.expired. cbn [redis.e_expireAt].
      apply Z.leb_le in Hafter. rewrite Hafter. reflexivity. }
    destruct (incr_new_counter t_after (cache w2) _ (windowMs / 1000) Hr2 Hl2
                (window_seconds_positive _ Hw)) as (c' & Hi & _).
    rewrite (userRateLimit_counts _ _ _ _ Hu _ _ _ _ Hi).
    unfold rate_limit_verdict. cbn [snd].
    destruct (K <? 1) eqn:E; [apply Z.ltb_lt in E; lia | reflexivity].
Qed.

Lemma rate_limit_window_witness :
  let req := set_req_user (Identity alice) alice_request in
  let run := rate_limited_run 60000 2 fresh_world req (0 :: [1000; 2000]) in
  length (snd run) = S (length [1000; 2000])
  /\ (forall i o,
        nth_error (snd run) i = Some o ->
        if Z.of_nat i <? 2 then is_next o = true else is_rate_limited o = true)
  /\ (forall j,
        redis.keys (cache (fst (rate_limited_run 60000 2 fresh_world req
                                  (0 :: firstn j [1000; 2000]))))
                   (redis.rate_limit_user (u_id alice))
        = Some {| redis.e_value := redis.VInt (1 + Z.of_nat (length (firstn j [1000; 2000])));
                  redis.e_expireAt := Some (0 + 60000 / 1000 * 1000) |})
  /\ snd (redisUtils.incr 0 (cache fresh_world) (redis.rate_limit_user (u_id alice))
            (60000 / 1000)) = 1
  /\ is_next (snd (userRateLimit 60000 2 60000 (fst run) req)) = true.
Proof.
  apply (rate_limit_window 60000 2 fresh_world
           (set_req_user (Identity alice) alice_request) alice 0 [1000; 2000] 60000).
  - reflexivity.
  - reflexivity.
  - lia.
  - lia.
  - reflexivity.
  - repeat constructor; vm_compute; congruence.
  - vm_compute. congruence.
Defined.

(** The same run, request by request: two pass, the third is refused,
    and the one sent when the minute is over passes. *)
Example three_requests_limit_two :
  let req := set_req_user (Identity alice) alice_request in
  let run := rate_limited_run 60000 2 fresh_world req [0; 1000; 2000] in
  map is_next (snd run) = [true; true; false]
  /\ map response_status (snd run) = [None; None; Some 429]
  /\ is_next (snd (userRateLimit 60000 2 60000 (fst run) req)) = true.
Proof. repeat split. Qed.

(** The counter is the user's, not the route's: after one request to
    /change-password (five an hour) the first request of the day to
    /deactivate-account (one a day) finds the counter at 2 and is
    refused. *)
Example limiters_share_the_user_counter :
  let req := set_req_user (Identity alice) alice_request in
  let w1 := fst (userRateLimit (60 * 60 * 1000) 5 0 fresh_world req) in
  is_next (snd (userRateLimit (60 * 60 * 1000) 5 0 fresh_world req)) = true
  /\ is_rate_limited (snd (userRateLimit (24 * 60 * 60 * 1000) 1 1000 w1 req)) = true.
Proof. split; reflexivity. Qed.

(** ** What the Session Cache holds after a login or a registration *)

Lemma set_entry now c k v ttl :
  redis.isReady c = true ->
  0 < ttl ->
  redis.keys (fst (redisUtils.set now c k v ttl)) k
    = Some {| redis.e_value := v; redis.e_expireAt := Some (now + ttl * 1000) |}.
Proof.
  intros Hr Ht. unfold redisUtils.set, redis.SETEX. rewrite Hr.
  apply Z.ltb_lt in Ht. rewrite Ht. apply write_same.
Qed.

Lemma set_other now c k k' v ttl :
  k' <> k ->
  redis.keys (fst (redisUtils.set now c k v ttl)) k' = redis.keys c k'.
Proof.
  intros Hk. unfold redisUtils.set, redis.SETEX.
  destruct (redis.isReady c); [| reflexivity].
  destruct (0 <? ttl); [| reflexivity]. now apply write_other.
Qed.




Lemma cached_document_is_served now now' c u :
  redis.isReady c = true ->
  redis.keys c (redis.diaspora (u_id u))
    = Some {| redis.e_value := redis.VUser u;
              redis.e_expireAt := Some (now + 30 * 60 * 1000) |} ->
  now' < now + 30 * 60 * 1000 ->
  redisUtils.getDiasporaData now' c (u_id u) = Some (redis.VUser u).
Proof.
  intros Hr Hk Ht.
  unfold redisUtils.getDiasporaData, redisUtils.get, redis.GET, redis.live.
  rewrite Hr, Hk. unfold redis.expired. cbn [redis.e_expireAt].
  apply Z.leb_gt in Ht. rewrite Ht. reflexivity.
Qed.

Lemma authenticate_cache_hit cfg now w req t c u :
  authorization req = Some (Bearer t) ->
  jwt.verify t (jwt_secret cfg) now = jwt.Decoded c ->
  redisUtils.exists_ now (cache w) (redis.blacklist t) = false ->
  redisUtils.getDiasporaData now (cache w) (jwt.p_userId (jwt.c_payload c))
    = Some (redis.VUser u) ->
  status u = "active" ->
  authenticate cfg now w req
    = (with_db (User.update (u_id u) (set_lastActive now) (db w)) w,
       Next None (set_req_user (Identity u) req) []).
Proof.
  intros Hh Hv Hb Hc Hs.
  rewrite (authenticate_verified _ _ _ _ _ _ Hh Hv), Hb. cbv zeta.
  rewrite Hc. simpl from_option. cbv iota. status_test. reflexivity.
Qed.

Lemma authenticate_cache_miss cfg now w req t c u0 :
  authorization req = Some (Bearer t) ->
  jwt.verify t (jwt_secret cfg) now = jwt.Decoded c ->
  redisUtils.exists_ now (cache w) (redis.blacklist t) = false ->
  redisUtils.getDiasporaData now (cache w) (jwt.p_userId (jwt.c_payload c)) = None ->
  User.raw_findById (jwt.p_userId (jwt.c_payload c)) (db w) = Some u0 ->
  status u0 = "active" ->
  attached (snd (authenticate cfg now w req)) = Some (User.project_identity u0).
Proof.
  intros Hh Hv Hb Hc Hf Hs.
  rewrite (authenticate_verified _ _ _ _ _ _ Hh Hv), Hb. cbv zeta.
  rewrite Hc, Hf. simpl from_option. simpl fmap. cbv iota.
  change (status u0 = "active") with (status (User.project_identity u0) = "active") in Hs.
  status_test. reflexivity.
Qed.

Lemma issued_token_verifies cfg now now' u :
  now' / 1000 < now / 1000 + jwt_expiresIn cfg ->
  exists c,
    jwt.verify (generateAuthToken cfg now u) (jwt_secret cfg) now' = jwt.Decoded c
    /\ jwt.p_userId (jwt.c_payload c) = u_id u.
Proof.
  intros H. unfold generateAuthToken, jwt.sign, jwt.verify.
  destruct (decide (jwt_secret cfg = jwt_secret cfg)); [| congruence].
  cbn [jwt.c_exp]. apply Z.leb_gt in H. rewrite H.
  eexists. split; reflexivity.
Qed.



(** The two resolutions side by side: a minute after the login the
    identity comes from the cache and has the hash; once the entry is
    gone (here after [logout] deleted it, with a token issued a second
    later) the identity comes from the collection and has none. *)
Example identity_after_login_and_after_logout :
  let hit := authenticate default_config 65000 (fst login_outcome)
               (incoming (Some (Bearer login_access_token)) None) in
  let w1 := fst (logout 70000 (fst hit)
                   (set_req_user (Identity alice)
                      (incoming (Some (Bearer login_access_token)) None))) in
  let later := generateAuthToken default_config 71000 alice in
  let miss := authenticate default_config 72000 w1 (incoming (Some (Bearer later)) None) in
  (password <$> attached (snd hit))
    = Some (Some {| bh_salt := "salt"; bh_plain := "Password123" |})
  /\ (password <$> attached (snd miss)) = Some None.
Proof. split; reflexivity. Qed.

(** * Further properties *)

(** ** The Redis helpers *)

(** X1. [redisUtils.set] stores the JSON text of the value, and that
    text - not the value - is what [redisUtils.get] returns, and
    [redisUtils.exists] sees it, at every instant before [ttl] seconds
    have passed; from that instant on the key is gone.  The document
    that [cacheDiasporaData] stores comes back parsed from
    [getDiasporaData] during the thirty minutes of the user TTL. *)
Theorem redis_set_get_round_trip
    (now now' : Z) (c : redis.client) (k : redis.key) (v : redis.value) (ttl : Z) :
  redis.isReady c = true ->
  0 < ttl ->
  snd (redisUtils.set now c k v ttl) = true
  /\ (now' < now + ttl * 1000 ->
      redisUtils.get now' (fst (redisUtils.set now c k v ttl)) k
        = Some (redis.JSON_stringify v)
      /\ redisUtils.exists_ now' (fst (redisUtils.set now c k v ttl)) k = true)
  /\ (now + ttl * 1000 <= now' ->
      redisUtils.get now' (fst (redisUtils.set now c k v ttl)) k = None
      /\ redisUtils.exists_ now' (fst (redisUtils.set now c k v ttl)) k = false)
  /\ (forall id u,
        now' < now + 30 * 60 * 1000 ->
        redisUtils.getDiasporaData now' (fst (redisUtils.cacheDiasporaData now c id u)) id
        = Some (redis.VUser u)).
Proof.
  intros Hr Ht.
  assert (Hget : forall k0 v0 ttl0, 0 < ttl0 -> now' < now + ttl0 * 1000 ->
            redisUtils.get now' (fst (redisUtils.set now c k0 v0 ttl0)) k0
            = Some (redis.JSON_stringify v0)).
  { intros k0 v0 ttl0 Ht0 Hlt.
    pose proof (set_entry now c k0 v0 ttl0 Hr Ht0) as He.
    pose proof (set_ready now c k0 v0 ttl0) as Hr'. rewrite Hr in Hr'.
    unfold redisUtils.get, redis.GET, redis.live.
    rewrite Hr', He. unfold redis.expired. cbn [redis.e_expireAt].
    apply Z.leb_gt in Hlt. rewrite Hlt. reflexivity. }
  pose proof (set_entry now c k v ttl Hr Ht) as He.
  pose proof (set_ready now c k v ttl) as Hr'. rewrite Hr in Hr'.
  split; [| split; [| split]].
  - unfold redisUtils.set, redis.SETEX. rewrite Hr.
    apply Z.ltb_lt in Ht. rewrite Ht. reflexivity.
  - intros Hlt. split; [now apply Hget |].
    unfold redisUtils.exists_, redis.EXISTS, redis.live.
    rewrite Hr', He. unfold redis.expired. cbn [redis.e_expireAt].
    apply Z.leb_gt in Hlt. rewrite Hlt. reflexivity.
  - intros Hge.
    unfold redisUtils.get, redisUtils.exists_, redis.GET, redis.EXISTS, redis.live.
    rewrite Hr', He. unfold redis.expired. cbn [redis.e_expireAt].
    apply Z.leb_le in Hge. rewrite Hge. split; reflexivity.
  - intros id u Hlt. unfold redisUtils.getDiasporaData, redisUtils.cacheDiasporaData.
    rewrite Hget; [reflexivity | reflexivity |].
    change (cache_ttl_user * 1000) with (30 * 60 * 1000). exact Hlt.
Qed.

Lemma redis_set_get_round_trip_witness :
  let c := redis.empty true in
  let k := redis.diaspora "u1" in
  snd (redisUtils.set 0 c k (redis.VInt 7) 60) = true
  /\ (59999 < 0 + 60 * 1000 ->
      redisUtils.get 59999 (fst (redisUtils.set 0 c k (redis.VInt 7) 60)) k
        = Some (redis.JSON_stringify (redis.VInt 7))
      /\ redisUtils.exists_ 59999 (fst (redisUtils.set 0 c k (redis.VInt 7) 60)) k = true)
  /\ (0 + 60 * 1000 <= 59999 ->
      redisUtils.get 59999 (fst (redisUtils.set 0 c k (redis.VInt 7) 60)) k = None
      /\ redisUtils.exists_ 59999 (fst (redisUtils.set 0 c k (redis.VInt 7) 60)) k = false)
  /\ (forall id u,
        59999 < 0 + 30 * 60 * 1000 ->
        redisUtils.getDiasporaData 59999 (fst (redisUtils.cacheDiasporaData 0 c id u)) id
        = Some (redis.VUser u)).
Proof.
  apply (redis_set_get_round_trip 0 59999 (redis.empty true) (redis.diaspora "u1")
           (redis.VInt 7) 60).
  - reflexivity.
  - lia.
Defined.

(** X2. Without a ready client every helper leaves the store as it is
    and answers its fallback: no value, not stored, not deleted, not
    there, and a count of 1. *)
Theorem redis_helpers_fall_back_when_not_ready
    (now : Z) (c : redis.client) (k : redis.key) (v : redis.value) (ttl : Z) :
  redis.isReady c = false ->
  redisUtils.get now c k = None
  /\ redisUtils.set now c k v ttl = (c, false)
  /\ redisUtils.del c k = (c, false)
  /\ redisUtils.exists_ now c k = false
  /\ redisUtils.incr now c k ttl = (c, 1).
Proof.
  intros Hr.
  unfold redisUtils.get, redisUtils.set, redisUtils.del, redisUtils.exists_, redisUtils.incr.
  rewrite Hr. repeat split.
Qed.

Lemma redis_helpers_fall_back_when_not_ready_witness :
  let c := cache offline_world in
  redisUtils.get 0 c (redis.diaspora "u1") = None
  /\ redisUtils.set 0 c (redis.diaspora "u1") (redis.VInt 7) 60 = (c, false)
  /\ redisUtils.del c (redis.diaspora "u1") = (c, false)
  /\ redisUtils.exists_ 0 c (redis.diaspora "u1") = false
  /\ redisUtils.incr 0 c (redis.diaspora "u1") 60 = (c, 1).
Proof.
  apply (redis_helpers_fall_back_when_not_ready 0 (cache offline_world)
           (redis.diaspora "u1") (redis.VInt 7) 60).
  reflexivity.
Defined.

Lemma del_entry c k :
  redis.isReady c = true -> redis.keys (fst (redisUtils.del c k)) k = None.
Proof. intros Hr. unfold redisUtils.del. rewrite Hr. apply write_same. Qed.

Lemma del_other c k k' :
  k' <> k -> redis.keys (fst (redisUtils.del c k)) k' = redis.keys c k'.
Proof.
  intros Hk. unfold redisUtils.del. destruct (redis.isReady c); [| reflexivity].
  now apply write_other.
Qed.

Lemma del_ready c k : redis.isReady (fst (redisUtils.del c k)) = redis.isReady c.
Proof. unfold redisUtils.del. destruct (redis.isReady c) eqn:E; exact E. Qed.

Lemma get_absent now c k : redis.keys c k = None -> redisUtils.get now c k = None.
Proof.
  intros H. unfold redisUtils.get, redis.GET, redis.live. rewrite H.
  destruct (redis.isReady c); reflexivity.
Qed.

(** X3. After [redisUtils.del] on a ready client the key is gone for
    [get] and [exists], whatever it held, and every other key reads as
    before. *)
Theorem redis_del_removes_only_its_key
    (now : Z) (c : redis.client) (k k' : redis.key) :
  redis.isReady c = true ->
  k' <> k ->
  redisUtils.get now (fst (redisUtils.del c k)) k = None
  /\ redisUtils.exists_ now (fst (redisUtils.del c k)) k = false
  /\ redisUtils.get now (fst (redisUtils.del c k)) k' = redisUtils.get now c k'
  /\ redisUtils.exists_ now (fst (redisUtils.del c k)) k' = redisUtils.exists_ now c k'.
Proof.
  intros Hr Hk.
  pose proof (del_entry c k Hr) as He.
  pose proof (del_other c k k' Hk) as Ho.
  pose proof (del_ready c k) as Hr'.
  unfold redisUtils.get, redisUtils.exists_, redis.GET, redis.EXISTS, redis.live.
  rewrite Hr', He, Ho. rewrite Hr. repeat split.
Qed.

Lemma redis_del_removes_only_its_key_witness :
  let c := fst (redisUtils.set 0 (redis.empty true) (redis.diaspora "u1") (redis.VInt 7) 60) in
  redisUtils.get 5 (fst (redisUtils.del c (redis.diaspora "u1"))) (redis.diaspora "u1") = None
  /\ redisUtils.exists_ 5 (fst (redisUtils.del c (redis.diaspora "u1"))) (redis.diaspora "u1")
     = false
  /\ redisUtils.get 5 (fst (redisUtils.del c (redis.diaspora "u1"))) (redis.diaspora "u2")
     = redisUtils.get 5 c (redis.diaspora "u2")
  /\ redisUtils.exists_ 5 (fst (redisUtils.del c (redis.diaspora "u1"))) (redis.diaspora "u2")
     = redisUtils.exists_ 5 c (redis.diaspora "u2").
Proof.
  apply (redis_del_removes_only_its_key 5
           (fst (redisUtils.set 0 (redis.empty true) (redis.diaspora "u1") (redis.VInt 7) 60))
           (redis.diaspora "u1") (redis.diaspora "u2")).
  - reflexivity.
  - discriminate.
Defined.

(** ** What [authenticate] touches *)

Lemma update_lastActive_only id t d :
  map (set_lastActive 0) (User.update id (set_lastActive t) d) = map (set_lastActive 0) d.
Proof.
  unfold User.update. induction d as [| u d IH]; [reflexivity |].
  cbn [map]. rewrite IH. destruct (bool_decide (u_id u = id)); reflexivity.
Qed.

Lemma attach_if_active_footprint now w req u :
  cache (fst (attach_if_active now w req u)) = cache w
  /\ map (set_lastActive 0) (db (fst (attach_if_active now w req u)))
     = map (set_lastActive 0) (db w)
  /\ (is_next (snd (attach_if_active now w req u)) = false ->
      db (fst (attach_if_active now w req u)) = db w).
Proof.
  unfold attach_if_active. destruct (decide (status u = "active")); cbn.
  - split; [reflexivity |]. split; [apply update_lastActive_only | discriminate].
  - repeat split.
Qed.

Lemma cacheDiasporaData_footprint now c id u k :
  (forall id', k <> redis.diaspora id') ->
  redis.keys (fst (redisUtils.cacheDiasporaData now c id u)) k = redis.keys c k.
Proof. intros Hk. unfold redisUtils.cacheDiasporaData. apply set_other, Hk. Qed.

Lemma authenticate_touches (cfg : config) (now : Z) (w : world) (req : request) :
  redis.isReady (cache (fst (authenticate cfg now w req))) = redis.isReady (cache w)
  /\ (forall k, (forall id, k <> redis.diaspora id) ->
        redis.keys (cache (fst (authenticate cfg now w req))) k = redis.keys (cache w) k)
  /\ map (set_lastActive 0) (db (fst (authenticate cfg now w req)))
     = map (set_lastActive 0) (db w)
  /\ (is_next (snd (authenticate cfg now w req)) = false ->
      db (fst (authenticate cfg now w req)) = db w).
Proof.
  unfold authenticate.
  destruct (authorization req) as [[t | s] |]; try (repeat split; fail).
  destruct (jwt.verify t (jwt_secret cfg) now) as [c | name].
  2: { repeat destruct (decide _); repeat split. }
  cbv zeta.
  destruct (redisUtils.exists_ now (cache w) (redis.blacklist t)); [repeat split |].
  destruct (from_option truthy false _).
  - destruct (redisUtils.getDiasporaData _ _ _) as [[s | t' | u | n] |];
      try (repeat split; fail).
    destruct (attach_if_active_footprint now w req u) as (Hc & Hd & Hn).
    rewrite Hc. repeat split; assumption.
  - destruct (User.project_identity <$> _) as [u |]; [| repeat split].
    set (w1 := with_cache _ w).
    destruct (attach_if_active_footprint now w1 req u) as (Hc & Hd & Hn).
    rewrite Hc. split; [| split; [| split]].
    + unfold w1, redisUtils.cacheDiasporaData. cbn [cache with_cache]. apply set_ready.
    + intros k Hk. unfold w1. cbn [cache with_cache].
      now apply cacheDiasporaData_footprint.
    + exact Hd.
    + exact Hn.
Qed.

(** X4. Whatever the request, [authenticate] leaves the availability
    of Redis and every key other than the `diaspora:<id>` cache entries
    as they were (it never writes the blacklist, a refresh slot or a
    rate-limit counter); in the users collection it changes nothing but
    [lastActive]; and a request it does not pass on leaves the
    collection untouched. *)
Theorem authenticate_footprint (cfg : config) (now : Z) (w : world) (req : request) :
  redis.isReady (cache (fst (authenticate cfg now w req))) = redis.isReady (cache w)
  /\ (forall k, (forall id, k <> redis.diaspora id) ->
        redis.keys (cache (fst (authenticate cfg now w req))) k = redis.keys (cache w) k)
  /\ map (set_lastActive 0) (db (fst (authenticate cfg now w req)))
     = map (set_lastActive 0) (db w)
  /\ (is_next (snd (authenticate cfg now w req)) = false ->
      db (fst (authenticate cfg now w req)) = db w).
Proof. exact (authenticate_touches cfg now w req). Qed.

(** X5. On a cache miss with Redis available, [authenticate] stores
    the document it read, without the password and the two one-time
    tokens, under `diaspora:<id>` for thirty minutes.  Until then a
    request with a token of that user that verifies and is not revoked
    is resolved from that entry alone: in any later world that still
    holds it, whatever the collection says by then, the entry decides
    the identity attached. *)
Theorem authenticate_caches_what_it_read
    (cfg : config) (now : Z) (w : world) (req : request) (t : token)
    (c : jwt.claims) (u0 : user) :
  authorization req = Some (Bearer t) ->
  jwt.verify t (jwt_secret cfg) now = jwt.Decoded c ->
  redisUtils.exists_ now (cache w) (redis.blacklist t) = false ->
  redis.isReady (cache w) = true ->
  redisUtils.getDiasporaData now (cache w) (jwt.p_userId (jwt.c_payload c)) = None ->
  User.raw_findById (jwt.p_userId (jwt.c_payload c)) (db w) = Some u0 ->
  status u0 = "active" ->
  let cached := User.project_identity u0 in
  redis.keys (cache (fst (authenticate cfg now w req))) (redis.diaspora (u_id u0))
    = Some {| redis.e_value := redis.VUser cached;
              redis.e_expireAt := Some (now + 30 * 60 * 1000) |}
  /\ password cached = None
  /\ emailVerificationToken cached = None
  /\ passwordResetToken cached = None
  /\ (forall now' w2 req2 t2 c2,
        redis.isReady (cache w2) = true ->
        redis.keys (cache w2) (redis.diaspora (u_id u0))
          = redis.keys (cache (fst (authenticate cfg now w req))) (redis.diaspora (u_id u0)) ->
        now' < now + 30 * 60 * 1000 ->
        authorization req2 = Some (Bearer t2) ->
        jwt.verify t2 (jwt_secret cfg) now' = jwt.Decoded c2 ->
        jwt.p_userId (jwt.c_payload c2) = u_id u0 ->
        redisUtils.exists_ now' (cache w2) (redis.blacklist t2) = false ->
        attached (snd (authenticate cfg now' w2 req2)) = Some cached).
Proof.
  intros Hh Hv Hb Hr Hmiss Hf Hs cached.
  assert (Hk : redis.keys (cache (fst (authenticate cfg now w req))) (redis.diaspora (u_id u0))
               = Some {| redis.e_value := redis.VUser cached;
                         redis.e_expireAt := Some (now + 30 * 60 * 1000) |}).
  { rewrite (authenticate_verified _ _ _ _ _ _ Hh Hv), Hb. cbv zeta.
    rewrite Hmiss, Hf. simpl from_option. simpl fmap. cbv iota.
    destruct (attach_if_active_footprint now
                (with_cache (fst (redisUtils.cacheDiasporaData now (cache w)
                                    (u_id (User.project_identity u0))
                                    (User.project_identity u0))) w)
                req (User.project_identity u0)) as (Hc & _).
    rewrite Hc. cbn [cache with_cache]. unfold redisUtils.cacheDiasporaData.
    change (u_id (User.project_identity u0)) with (u_id u0).
    rewrite set_entry; [reflexivity | exact Hr | reflexivity]. }
  split; [exact Hk |]. repeat split.
  intros now' w2 req2 t2 c2 Hr2 Hsame Hlt Hh2 Hv2 Hid Hb2.
  rewrite Hk in Hsame.
  pose proof (cached_document_is_served now now' (cache w2) cached Hr2 Hsame Hlt) as Hhit.
  change (u_id cached) with (u_id u0) in Hhit. rewrite <- Hid in Hhit.
  rewrite (authenticate_cache_hit cfg now' w2 req2 t2 c2 cached Hh2 Hv2 Hb2 Hhit Hs).
  reflexivity.
Qed.

Lemma authenticate_caches_what_it_read_witness :
  let cfg := default_config in
  let cached := User.project_identity alice in
  redis.keys (cache (fst (authenticate cfg 1000 fresh_world alice_request)))
             (redis.diaspora (u_id alice))
    = Some {| redis.e_value := redis.VUser cached;
              redis.e_expireAt := Some (1000 + 30 * 60 * 1000) |}
  /\ password cached = None
  /\ emailVerificationToken cached = None
  /\ passwordResetToken cached = None
  /\ (forall now' w2 req2 t2 c2,
        redis.isReady (cache w2) = true ->
        redis.keys (cache w2) (redis.diaspora (u_id alice))
          = redis.keys (cache (fst (authenticate cfg 1000 fresh_world alice_request)))
                       (redis.diaspora (u_id alice)) ->
        now' < 1000 + 30 * 60 * 1000 ->
        authorization req2 = Some (Bearer t2) ->
        jwt.verify t2 (jwt_secret cfg) now' = jwt.Decoded c2 ->
        jwt.p_userId (jwt.c_payload c2) = u_id alice ->
        redisUtils.exists_ now' (cache w2) (redis.blacklist t2) = false ->
        attached (snd (authenticate cfg now' w2 req2)) = Some cached).
Proof.
  apply (authenticate_caches_what_it_read default_config 1000 fresh_world alice_request
           alice_token
           {| jwt.c_payload := {| jwt.p_userId := u_id alice;
                                  jwt.p_email := Some (email alice);
                                  jwt.p_username := Some (username alice);
                                  jwt.p_role := Some (role alice);
                                  jwt.p_type := None |};
              jwt.c_iat := 0; jwt.c_exp := 7 * 24 * 60 * 60 |}
           alice); reflexivity.
Defined.

(** ** The users collection *)

Lemma find_update_same id f d :
  (forall u, u_id (f u) = u_id u) ->
  User.raw_findById id (User.update id f d) = f <$> User.raw_findById id d.
Proof.
  intros Hf. unfold User.raw_findById, User.update.
  induction d as [| u d IH]; [reflexivity |]. cbn [map find].
  destruct (bool_decide (u_id u = id)) eqn:E.
  - rewrite Hf, E. reflexivity.
  - rewrite E. exact IH.
Qed.

Lemma find_update_other id id' f d :
  id' <> id ->
  (forall u, u_id (f u) = u_id u) ->
  User.raw_findById id' (User.update id f d) = User.raw_findById id' d.
Proof.
  intros Hne Hf. unfold User.raw_findById, User.update.
  induction d as [| u d IH]; [reflexivity |]. cbn [map find].
  destruct (bool_decide (u_id u = id)) eqn:E.
  - apply bool_decide_eq_true in E. rewrite Hf.
    destruct (bool_decide (u_id u = id')) eqn:E'.
    + apply bool_decide_eq_true in E'. congruence.
    + exact IH.
  - destruct (bool_decide (u_id u = id')); [reflexivity | exact IH].
Qed.

Lemma findByEmail_update e id f d :
  (forall u, email (f u) = email u) ->
  User.raw_findByEmail e (User.update id f d)
  = (fun u => if bool_decide (u_id u = id) then f u else u) <$> User.raw_findByEmail e d.
Proof.
  intros Hf. unfold User.raw_findByEmail, User.update.
  induction d as [| u d IH]; [reflexivity |]. cbn [map find].
  destruct (bool_decide (u_id u = id)) eqn:E.
  - rewrite Hf. destruct (bool_decide (email u = e)); [cbn; now rewrite E | exact IH].
  - destruct (bool_decide (email u = e)); [cbn; now rewrite E | exact IH].
Qed.

Lemma raw_findById_id id d u : User.raw_findById id d = Some u -> u_id u = id /\ In u d.
Proof.
  unfold User.raw_findById. intros H. apply find_some in H as [Hin H].
  apply bool_decide_eq_true in H. now split.
Qed.

Lemma raw_findByEmail_email e d u :
  User.raw_findByEmail e d = Some u -> email u = e /\ In u d.
Proof.
  unfold User.raw_findByEmail. intros H. apply find_some in H as [Hin H].
  apply bool_decide_eq_true in H. now split.
Qed.

Lemma unique_ids_find d u :
  unique_ids d -> In u d -> User.raw_findById (u_id u) d = Some u.
Proof.
  unfold unique_ids, User.raw_findById.
  induction d as [| x d IH]; intros Hnd Hin; [destruct Hin |].
  cbn [map] in Hnd. apply NoDup_cons in Hnd as [Hx Hnd]. cbn [find].
  destruct Hin as [-> | Hin].
  - rewrite bool_decide_eq_true_2 by reflexivity. reflexivity.
  - destruct (bool_decide (u_id x = u_id u)) eqn:E.
    + apply bool_decide_eq_true in E. exfalso. apply Hx. rewrite E.
      apply list_elem_of_In, in_map. exact Hin.
    + now apply IH.
Qed.

(** ** Logging in *)


Lemma login_success cfg now w req e p w' res :
  login cfg now w req e p = (w', Respond res) ->
  exists u0 h,
    User.raw_findByEmail e (db w) = Some u0
    /\ password u0 = Some h /\ bcrypt_key p = bcrypt_key (bh_plain h)
    /\ status u0 = "active"
    /\ let history := firstn 10 (login_record now req :: loginHistory u0) in
       let u := set_lastActive now (set_loginHistory history u0) in
       db w' = User.update (u_id u0)
                 (fun x => set_lastActive now (set_loginHistory history x)) (db w)
       /\ res = ok 200 "Authentication successful"
                  (UserAndTokens (to_public (set_password None u))
                     {| accessToken := generateAuthToken cfg now u;
                        refreshToken_ := generateRefreshToken cfg now u;
                        expiresIn := jwt_expiresIn cfg |})
       /\ (forall k, k <> redis.refresh_token (u_id u0) -> k <> redis.diaspora (u_id u0) ->
             redis.keys (cache w') k = redis.keys (cache w) k)
       /\ redis.isReady (cache w') = redis.isReady (cache w)
       /\ (redis.isReady (cache w) = true -> caches now w' u).
Proof.
  unfold login.
  destruct (User.raw_findByEmail e (db w)) as [u0 |] eqn:Hf; [| discriminate].
  destruct (comparePassword u0 p) eqn:Hc; [| discriminate].
  destruct (decide (status u0 = "active")) as [Hs | Hs]; [| discriminate].
  fold (login_record now req).
  assert (Hh : (if 10 <? Z.of_nat (length (login_record now req :: loginHistory u0))
                then firstn 10 (login_record now req :: loginHistory u0)
                else login_record now req :: loginHistory u0)
               = firstn 10 (login_record now req :: loginHistory u0)).
  { destruct (10 <? _) eqn:E; [reflexivity |].
    apply Z.ltb_ge in E. symmetry. apply firstn_all2. lia. }
  rewrite Hh. clear Hh.
  unfold createSendTokens. intros [= <- <-].
  unfold comparePassword in Hc. destruct (password u0) as [h |] eqn:Hp; [| discriminate].
  unfold bcrypt_compare in Hc. apply bool_decide_eq_true in Hc.
  exists u0, h. split; [reflexivity |]. split; [exact Hp |]. split; [exact Hc |].
  split; [exact Hs |]. cbv zeta. cbn [db cache with_cache].
  split; [reflexivity |]. split; [reflexivity |]. split; [| split].
  - intros k Hk1 Hk2. rewrite set_other; [| exact Hk1].
    unfold redisUtils.cacheDiasporaData. apply set_other. exact Hk2.
  - rewrite set_ready. unfold redisUtils.cacheDiasporaData. apply set_ready.
  - intros Hr. unfold caches. cbn [cache with_cache]. rewrite set_other by discriminate.
    unfold redisUtils.cacheDiasporaData.
    rewrite set_entry; [reflexivity | exact Hr | reflexivity].
Qed.

(** X6. Whoever the e-mail address belongs to, [login] gives the same
    answer to an unknown address and to a wrong password - the error
    401 INVALID_CREDENTIALS with the same message, also for a suspended
    account - and changes nothing. *)
Theorem login_failures_look_alike
    (cfg : config) (now : Z) (w : world) (req : request)
    (unknown known p1 p2 : string) (u : user) :
  User.raw_findByEmail unknown (db w) = None ->
  User.raw_findByEmail known (db w) = Some u ->
  comparePassword u p2 = false ->
  login cfg now w req unknown p1
    = (w, throw_AppError "Geçersiz e-posta veya şifre" 401 "INVALID_CREDENTIALS")
  /\ login cfg now w req known p2 = login cfg now w req unknown p1.
Proof.
  intros Hn Hk Hp. unfold login. rewrite Hn, Hk, Hp. split; reflexivity.
Qed.

Lemma login_failures_look_alike_witness :
  login default_config 0 fresh_world (incoming None None) "nobody@x.com" "Password123"
    = (fresh_world, throw_AppError "Geçersiz e-posta veya şifre" 401 "INVALID_CREDENTIALS")
  /\ login default_config 0 fresh_world (incoming None None) "a@x.com" "guess"
     = login default_config 0 fresh_world (incoming None None) "nobody@x.com" "Password123".
Proof.
  apply (login_failures_look_alike default_config 0 fresh_world (incoming None None)
           "nobody@x.com" "a@x.com" "Password123" "guess" alice); reflexivity.
Defined.

(** X7. A successful [login] puts its record in front of the user's
    login history and keeps the ten most recent entries, sets
    [lastActive] to the instant of the login, and leaves every other
    document as it was.  The record holds the instant, the address and
    the user agent of the request, and as location the CF-IPCountry
    header, or 'Unknown' when the header is missing or empty. *)
Theorem login_history_keeps_ten
    (cfg : config) (now : Z) (w w' : world) (req : request) (e p : string) (res : response) :
  unique_ids (db w) ->
  login cfg now w req e p = (w', Respond res) ->
  exists u0 u',
    User.raw_findByEmail e (db w) = Some u0
    /\ User.raw_findById (u_id u0) (db w') = Some u'
    /\ loginHistory u' = firstn 10 (login_record now req :: loginHistory u0)
    /\ hd_error (loginHistory u') = Some (login_record now req)
    /\ (length (loginHistory u') <= 10)%nat
    /\ lastActive u' = now
    /\ (forall id, id <> u_id u0 ->
          User.raw_findById id (db w') = User.raw_findById id (db w))
    /\ lr_timestamp (login_record now req) = now
    /\ lr_ip (login_record now req) = req_ip req
    /\ lr_userAgent (login_record now req) = req_userAgent req
    /\ (forall s, req_country req = Some s -> s <> "" ->
          lr_location (login_record now req) = s)
    /\ (req_country req = None \/ req_country req = Some "" ->
        lr_location (login_record now req) = "Unknown").
Proof.
  intros Hu Hl.
  destruct (login_success _ _ _ _ _ _ _ _ Hl) as (u0 & h & Hf & _ & _ & _ & Hd & _).
  cbv zeta in Hd.
  destruct (raw_findByEmail_email _ _ _ Hf) as [_ Hin].
  pose proof (unique_ids_find _ _ Hu Hin) as Hid.
  exists u0. eexists. split; [exact Hf |]. split.
  - rewrite Hd, find_update_same by reflexivity. rewrite Hid. reflexivity.
  - cbn. split; [reflexivity |]. split; [reflexivity |]. split.
    + change (length (firstn 10 (login_record now req :: loginHistory u0)) <= 10)%nat.
      rewrite length_firstn. lia.
    + split; [reflexivity |]. split.
      { intros id Hne. rewrite Hd. now apply find_update_other. }
      split; [reflexivity |]. split; [reflexivity |]. split; [reflexivity |].
      unfold or_else. split.
      * intros s0 -> Hs. rewrite bool_decide_eq_false_2 by exact Hs. reflexivity.
      * intros [-> | ->]; reflexivity.
Qed.

Lemma fresh_world_unique_ids : unique_ids (db fresh_world).
Proof. unfold unique_ids. cbn. apply NoDup_singleton. Qed.

Lemma login_history_keeps_ten_witness :
  exists u0 u',
    User.raw_findByEmail "a@x.com" (db fresh_world) = Some u0
    /\ User.raw_findById (u_id u0) (db (fst login_outcome)) = Some u'
    /\ loginHistory u'
       = firstn 10 (login_record 5000 (incoming None None) :: loginHistory u0)
    /\ hd_error (loginHistory u') = Some (login_record 5000 (incoming None None))
    /\ (length (loginHistory u') <= 10)%nat
    /\ lastActive u' = 5000
    /\ (forall id, id <> u_id u0 ->
          User.raw_findById id (db (fst login_outcome))
          = User.raw_findById id (db fresh_world))
    /\ lr_timestamp (login_record 5000 (incoming None None)) = 5000
    /\ lr_ip (login_record 5000 (incoming None None)) = req_ip (incoming None None)
    /\ lr_userAgent (login_record 5000 (incoming None None))
       = req_userAgent (incoming None None)
    /\ (forall s, req_country (incoming None None) = Some s -> s <> "" ->
          lr_location (login_record 5000 (incoming None None)) = s)
    /\ (req_country (incoming None None) = None
        \/ req_country (incoming None None) = Some "" ->
        lr_location (login_record 5000 (incoming None None)) = "Unknown").
Proof.
  apply (login_history_keeps_ten default_config 5000 fresh_world (fst login_outcome)
           (incoming None None) "a@x.com" "Password123" login_response).
  - exact fresh_world_unique_ids.
  - reflexivity.
Defined.

(** A request that carries an empty CF-IPCountry header is recorded as
    coming from 'Unknown'. *)
Example empty_country_header_is_unknown :
  lr_location (login_record 5000
                 {| authorization := None; body_refreshToken := None;
                    req_ip := "127.0.0.1"; req_userAgent := None; req_country := Some "";
                    req_user := Unset; req_refreshToken := None |}) = "Unknown".
Proof. reflexivity. Qed.

Lemma getDiasporaData_of_entry now c id u E :
  redis.keys c (redis.diaspora id)
    = Some {| redis.e_value := redis.VUser u; redis.e_expireAt := Some E |} ->
  redisUtils.getDiasporaData now c id = Some (redis.VUser u)
  \/ redisUtils.getDiasporaData now c id = None.
Proof.
  intros H. unfold redisUtils.getDiasporaData, redisUtils.get, redis.GET, redis.live.
  rewrite H. destruct (redis.isReady c); [| now right].
  destruct (redis.expired now _); [now right | now left].
Qed.

(** X8. The access token that a successful [login] returns is accepted
    by [authenticate] in the world the login leaves, at any instant
    before the token expires, with or without Redis and whether or not
    the cached document has expired, provided the same token value has
    not been revoked; the identity attached is that of the user who
    logged in. *)
Theorem login_token_is_accepted
    (cfg : config) (now now' : Z) (w w' : world) (req req2 : request)
    (e p : string) (res : response) :
  unique_ids (db w) ->
  login cfg now w req e p = (w', Respond res) ->
  exists pu env,
    r_data res = UserAndTokens pu env
    /\ (authorization req2 = Some (Bearer (accessToken env)) ->
        now' / 1000 < now / 1000 + jwt_expiresIn cfg ->
        redisUtils.exists_ now' (cache w') (redis.blacklist (accessToken env)) = false ->
        exists v w'',
          authenticate cfg now' w' req2
            = (w'', Next None (set_req_user (Identity v) req2) [])
          /\ u_id v = pu_id pu /\ email v = e /\ status v = "active").
Proof.
  intros Hu Hl.
  destruct (login_success _ _ _ _ _ _ _ _ Hl)
    as (u0 & h & Hf & Hp & _ & Hs & Hd & -> & _ & Hr' & Hc).
  cbv zeta in Hd, Hc.
  set (u := set_lastActive now
              (set_loginHistory (firstn 10 (login_record now req :: loginHistory u0)) u0)) in *.
  destruct (raw_findByEmail_email _ _ _ Hf) as [He Hin].
  pose proof (unique_ids_find _ _ Hu Hin) as Hid.
  eexists. eexists. split; [reflexivity |]. cbn [accessToken pu_id to_public].
  intros Hh Ht Hb.
  destruct (issued_token_verifies cfg now now' u Ht) as (c & Hv & Hcid).
  assert (Hstore : User.raw_findById (u_id u0) (db w') = Some u).
  { rewrite Hd, find_update_same by reflexivity. rewrite Hid. reflexivity. }
  assert (Hres : redisUtils.getDiasporaData now' (cache w') (u_id u0)
                 = Some (redis.VUser u)
                 \/ redisUtils.getDiasporaData now' (cache w') (u_id u0) = None).
  { destruct (redis.isReady (cache w)) eqn:Hr.
    - exact (getDiasporaData_of_entry now' (cache w') (u_id u0) u _ (Hc eq_refl)).
    - right. unfold redisUtils.getDiasporaData, redisUtils.get. rewrite Hr'. reflexivity. }
  change (u_id u) with (u_id u0) in Hcid.
  destruct Hres as [Hhit | Hmiss].
  - exists u. eexists. rewrite <- Hcid in Hhit.
    rewrite (authenticate_cache_hit cfg now' w' req2 _ c u Hh Hv Hb Hhit Hs).
    repeat split; assumption.
  - exists (User.project_identity u). eexists. rewrite <- Hcid in Hmiss, Hstore.
    rewrite (authenticate_verified _ _ _ _ _ _ Hh Hv), Hb. cbv zeta.
    rewrite Hmiss, Hstore. simpl from_option. simpl fmap. cbv iota.
    unfold attach_if_active.
    change (status (User.project_identity u)) with (status u0).
    destruct (decide (status u0 = "active")); [| contradiction].
    repeat split; assumption.
Qed.

Lemma login_token_is_accepted_witness :
  exists pu env,
    r_data login_response = UserAndTokens pu env
    /\ (authorization (incoming (Some (Bearer login_access_token)) None)
          = Some (Bearer (accessToken env)) ->
        65000 / 1000 < 5000 / 1000 + jwt_expiresIn default_config ->
        redisUtils.exists_ 65000 (cache (fst login_outcome))
          (redis.blacklist (accessToken env)) = false ->
        exists v w'',
          authenticate default_config 65000 (fst login_outcome)
            (incoming (Some (Bearer login_access_token)) None)
            = (w'', Next None
                      (set_req_user (Identity v)
                         (incoming (Some (Bearer login_access_token)) None)) [])
          /\ u_id v = pu_id pu /\ email v = "a@x.com" /\ status v = "active").
Proof.
  apply (login_token_is_accepted default_config 5000 65000 fresh_world (fst login_outcome)
           (incoming None None) (incoming (Some (Bearer login_access_token)) None)
           "a@x.com" "Password123" login_response).
  - exact fresh_world_unique_ids.
  - reflexivity.
Defined.

(** ** Registering *)

Lemma find_is_some {A} (f : A -> bool) l x :
  In x l -> f x = true -> exists y, find f l = Some y /\ f y = true.
Proof.
  intros Hin Hf. destruct (find f l) as [y |] eqn:E.
  - exists y. split; [reflexivity |]. now apply find_some in E.
  - exfalso. pose proof (find_none f l E x Hin) as Hn. congruence.
Qed.

(** X9. A registration whose e-mail address or username belongs to a
    registered user is refused with a 400 and changes nothing: the code
    is EMAIL_EXISTS or USERNAME_EXISTS, the former when no one has the
    username and the latter when no one has the address. *)
Theorem register_refuses_taken_identity
    (cfg : config) (now : Z) (en : entropy) (w : world) (b : registration) (x : user) :
  In x (db w) ->
  email x = rb_email b \/ username x = rb_username b ->
  let email_exists := (w, throw_AppError "Bu e-posta adresi zaten kullanımda" 400 "EMAIL_EXISTS") in
  let username_exists :=
    (w, throw_AppError "Bu kullanıcı adı zaten kullanımda" 400 "USERNAME_EXISTS") in
  (register cfg now en w b = email_exists \/ register cfg now en w b = username_exists)
  /\ ((forall y, In y (db w) -> username y <> rb_username b) ->
      register cfg now en w b = email_exists)
  /\ ((forall y, In y (db w) -> email y <> rb_email b) ->
      register cfg now en w b = username_exists).
Proof.
  intros Hin Hx email_exists username_exists.
  destruct (find_is_some
              (fun u => bool_decide (email u = rb_email b)
                        || bool_decide (username u = rb_username b)) (db w) x Hin)
    as (y & Hf & Hy).
  { destruct Hx as [Hx | Hx]; rewrite (bool_decide_eq_true_2 _ Hx);
      [reflexivity | apply orb_true_r]. }
  pose proof (find_some _ _ Hf) as [Hyin _].
  unfold register, User.findOne_email_or_username. rewrite Hf. cbn [fmap option_fmap option_map].
  change (email (User.project_default y)) with (email y).
  change (username (User.project_default y)) with (username y).
  apply orb_true_iff in Hy.
  destruct (decide (email y = rb_email b)) as [He | He].
  - split; [now left |]. split; [reflexivity |].
    intros Hno. exfalso. exact (Hno y Hyin He).
  - destruct (decide (username y = rb_username b)) as [Hn | Hn].
    + split; [now right |]. split; [| reflexivity].
      intros Hno. exfalso. exact (Hno y Hyin Hn).
    + exfalso. destruct Hy as [Hy | Hy]; apply bool_decide_eq_true in Hy; contradiction.
Qed.

Lemma register_refuses_taken_identity_witness :
  let w := fresh_world in
  let email_exists := (w, throw_AppError "Bu e-posta adresi zaten kullanımda" 400 "EMAIL_EXISTS") in
  let username_exists :=
    (w, throw_AppError "Bu kullanıcı adı zaten kullanımda" 400 "USERNAME_EXISTS") in
  (register default_config 0 bob_entropy w taken_registration = email_exists
   \/ register default_config 0 bob_entropy w taken_registration = username_exists)
  /\ ((forall y, In y (db w) -> username y <> rb_username taken_registration) ->
      register default_config 0 bob_entropy w taken_registration = email_exists)
  /\ ((forall y, In y (db w) -> email y <> rb_email taken_registration) ->
      register default_config 0 bob_entropy w taken_registration = username_exists).
Proof.
  apply (register_refuses_taken_identity default_config 0 bob_entropy fresh_world
           taken_registration alice).
  - left. reflexivity.
  - left. reflexivity.
Defined.

Lemma existsb_false_forall {A} (f : A -> bool) l :
  existsb f l = false -> forall x, In x l -> f x = false.
Proof.
  intros H x Hin. destruct (f x) eqn:E; [| reflexivity].
  assert (existsb f l = true) by (apply existsb_exists; eauto). congruence.
Qed.

Lemma find_app_none {A} (f : A -> bool) l1 l2 :
  (forall x, In x l1 -> f x = false) -> find f (l1 ++ l2)%list = find f l2.
Proof.
  induction l1 as [| a l1 IH]; intros H; [reflexivity |]. cbn.
  rewrite (H a (or_introl eq_refl)). apply IH. intros x Hx. apply H. now right.
Qed.

Lemma update_app id f (d1 d2 : User.collection) :
  User.update id f (d1 ++ d2)%list = (User.update id f d1 ++ User.update id f d2)%list.
Proof. unfold User.update. apply map_app. Qed.

Lemma update_absent id f (d : User.collection) :
  (forall x, In x d -> u_id x <> id) -> User.update id f d = d.
Proof.
  intros H. unfold User.update. induction d as [| u d IH]; [reflexivity |]. cbn.
  rewrite bool_decide_eq_false_2 by (apply H; now left).
  f_equal. apply IH. intros x Hx. apply H. now right.
Qed.

(** What a successful [register] leaves in the collection: the old
    documents and, after them, the new one. *)
Lemma register_success cfg now en w b w' res :
  register cfg now en w b = (w', Respond res) ->
  (forall x, In x (db w) ->
     u_id x <> en_objectId en /\ email x <> rb_email b /\ username x <> rb_username b)
  /\ exists u,
       db w' = (db w ++ [u])%list
       /\ u_id u = en_objectId en /\ email u = rb_email b /\ username u = rb_username b
       /\ password u = Some {| bh_salt := en_salt en; bh_plain := rb_password b |}
       /\ status u = "active" /\ role u = "user" /\ isEmailVerified u = false
       /\ stats_diasporaScore u = 100
       /\ emailVerificationToken u = Some (Sha256 (en_randomHex en))
       /\ emailVerificationExpires u = Some (now + 24 * 60 * 60 * 1000)
       /\ passwordResetToken u = None
       /\ redis.isReady (cache w') = redis.isReady (cache w)
       /\ (forall k, k <> redis.refresh_token (u_id u) -> k <> redis.diaspora (u_id u) ->
             redis.keys (cache w') k = redis.keys (cache w) k).
Proof.
  unfold register.
  assert (Hcreate :
    forall d1 created, User_create now en b (db w) = Some (d1, created) ->
    createSendTokens cfg now
      {| db := User.update
                 (u_id (set_emailVerification (Some (Sha256 (en_randomHex en)))
                          (Some (now + 24 * 60 * 60 * 1000)) created))
                 (set_emailVerification
                    (emailVerificationToken
                       (set_emailVerification (Some (Sha256 (en_randomHex en)))
                          (Some (now + 24 * 60 * 60 * 1000)) created))
                    (emailVerificationExpires
                       (set_emailVerification (Some (Sha256 (en_randomHex en)))
                          (Some (now + 24 * 60 * 60 * 1000)) created))) d1;
         cache := fst (redisUtils.cacheDiasporaData now (cache w)
                         (u_id (set_emailVerification (Some (Sha256 (en_randomHex en)))
                                  (Some (now + 24 * 60 * 60 * 1000)) created))
                         (set_emailVerification (Some (Sha256 (en_randomHex en)))
                            (Some (now + 24 * 60 * 60 * 1000)) created)) |}
      (set_emailVerification (Some (Sha256 (en_randomHex en)))
         (Some (now + 24 * 60 * 60 * 1000)) created) 201 = (w', Respond res) ->
    (forall x, In x (db w) ->
       u_id x <> en_objectId en /\ email x <> rb_email b /\ username x <> rb_username b)
    /\ exists u,
         db w' = (db w ++ [u])%list
         /\ u_id u = en_objectId en /\ email u = rb_email b /\ username u = rb_username b
         /\ password u = Some {| bh_salt := en_salt en; bh_plain := rb_password b |}
         /\ status u = "active" /\ role u = "user" /\ isEmailVerified u = false
         /\ stats_diasporaScore u = 100
         /\ emailVerificationToken u = Some (Sha256 (en_randomHex en))
         /\ emailVerificationExpires u = Some (now + 24 * 60 * 60 * 1000)
         /\ passwordResetToken u = None
         /\ redis.isReady (cache w') = redis.isReady (cache w)
         /\ (forall k, k <> redis.refresh_token (u_id u) -> k <> redis.diaspora (u_id u) ->
               redis.keys (cache w') k = redis.keys (cache w) k)).
  { intros d1 created. unfold User_create.
    destruct (existsb _ (db w)) eqn:Hex; [discriminate |].
    intros [= <- <-]. unfold createSendTokens. intros [= <- <-].
    pose proof (existsb_false_forall _ _ Hex) as Hall. cbn beta in Hall.
    assert (Hfresh : forall x, In x (db w) ->
              u_id x <> en_objectId en /\ email x <> rb_email b
              /\ username x <> rb_username b).
    { intros x Hx. specialize (Hall x Hx). cbn in Hall.
      apply orb_false_iff in Hall as [Hall H3]. apply orb_false_iff in Hall as [H1 H2].
      apply bool_decide_eq_false in H1, H2, H3. repeat split; assumption. }
    split; [exact Hfresh |].
    eexists. split.
    - cbn [db with_cache u_id set_emailVerification]. rewrite update_app.
      rewrite update_absent by (intros x Hx; apply (Hfresh x Hx)).
      cbn. rewrite bool_decide_eq_true_2 by reflexivity. reflexivity.
    - cbn. repeat split.
      + rewrite set_ready. unfold redisUtils.cacheDiasporaData. apply set_ready.
      + intros k Hk1 Hk2. rewrite set_other; [| exact Hk1].
        unfold redisUtils.cacheDiasporaData. apply set_other. exact Hk2. }
  destruct (User.findOne_email_or_username _ _ _) as [x |].
  - destruct (decide (email x = rb_email b)); [discriminate |].
    destruct (decide (username x = rb_username b)); [discriminate |].
    destruct (User_create now en b (db w)) as [[d1 created] |] eqn:Hc; [| discriminate].
    exact (Hcreate d1 created eq_refl).
  - destruct (User_create now en b (db w)) as [[d1 created] |] eqn:Hc; [| discriminate].
    exact (Hcreate d1 created eq_refl).
Qed.

Lemma register_then_find cfg now en w b w' res :
  register cfg now en w b = (w', Respond res) ->
  exists u,
    User.raw_findByEmail (rb_email b) (db w') = Some u
    /\ password u = Some {| bh_salt := en_salt en; bh_plain := rb_password b |}
    /\ status u = "active" /\ email u = rb_email b.
Proof.
  intros H. destruct (register_success _ _ _ _ _ _ _ H)
    as (Hfresh & u & Hd & _ & He & _ & Hp & Hs & _).
  exists u. split; [| repeat split; assumption].
  rewrite Hd. unfold User.raw_findByEmail. rewrite find_app_none.
  - cbn. rewrite bool_decide_eq_true_2 by exact He. reflexivity.
  - intros x Hx. apply bool_decide_eq_false_2. apply (Hfresh x Hx).
Qed.

(** What bcrypt reads of a long password. *)
Lemma append_assoc_string (a b c : string) : ((a ++ b) ++ c = a ++ (b ++ c))%string.
Proof.
  induction a as [| x a IH]; [reflexivity |].
  change (String x ((a ++ b) ++ c) = String x (a ++ (b ++ c)))%string. now rewrite IH.
Qed.

Lemma substring_prefix_app n : forall s t,
  (n <= String.length s)%nat ->
  String.substring 0 n (s ++ t) = String.substring 0 n s.
Proof.
  induction n as [| n IH]; intros s t Hn.
  - destruct s; destruct t; reflexivity.
  - destruct s as [| x s]; [cbn in Hn; lia |].
    change (String x (String.substring 0 n (s ++ t)) = String x (String.substring 0 n s)).
    f_equal. apply IH. cbn in Hn. lia.
Qed.

Lemma substring_whole s : String.substring 0 (String.length s) s = s.
Proof. induction s as [| x s IH]; [reflexivity |]. cbn. now rewrite IH. Qed.

Lemma bcrypt_key_prefix (p q : string) :
  String.length p = 72%nat -> bcrypt_key (p ++ q) = p.
Proof.
  intros Hl. unfold bcrypt_key.
  change 72%nat with (S 71) at 2. cbn [repeat String.concat].
  rewrite !append_assoc_string.
  rewrite substring_prefix_app by lia.
  rewrite <- Hl. apply substring_whole.
Qed.

(** Two passwords of 73 bytes that differ in the last one compare
    equal; two short ones that differ do not. *)
Example bcrypt_reads_72_bytes :
  let long := String.concat "" (repeat "Abcdefg1" 9) in
  bcrypt_compare (long ++ "Y") {| bh_salt := "salt"; bh_plain := long ++ "X" |} = true
  /\ bcrypt_compare "Password124" {| bh_salt := "salt"; bh_plain := "Password123" |} = false.
Proof. split; vm_compute; reflexivity. Qed.

(** X10. After a successful registration, [login] with the registered
    address succeeds (200, with tokens) for the registered password and
    for every password from which bcrypt reads the same 72 bytes - when
    the registered password is longer than 72 bytes, for every password
    that begins with its first 72 - and is refused with
    INVALID_CREDENTIALS for every other; registering the same body
    again is refused with EMAIL_EXISTS. *)
Theorem register_then_login
    (cfg : config) (now now' : Z) (en en2 : entropy) (w w' : world)
    (b : registration) (res : response) (req : request) :
  register cfg now en w b = (w', Respond res) ->
  (forall p, bcrypt_key p = bcrypt_key (rb_password b) ->
     exists w'' pu env,
       login cfg now' w' req (rb_email b) p
         = (w'', Respond (ok 200 "Authentication successful" (UserAndTokens pu env)))
       /\ pu_email pu = rb_email b /\ pu_id pu = en_objectId en)
  /\ (exists w'' pu env,
        login cfg now' w' req (rb_email b) (rb_password b)
          = (w'', Respond (ok 200 "Authentication successful" (UserAndTokens pu env))))
  /\ (forall first rest other,
        String.length first = 72%nat ->
        rb_password b = (first ++ rest)%string ->
        exists w'' pu env,
          login cfg now' w' req (rb_email b) (first ++ other)
            = (w'', Respond (ok 200 "Authentication successful" (UserAndTokens pu env))))
  /\ (forall p, bcrypt_key p <> bcrypt_key (rb_password b) ->
        login cfg now' w' req (rb_email b) p
          = (w', throw_AppError "Geçersiz e-posta veya şifre" 401 "INVALID_CREDENTIALS"))
  /\ register cfg now' en2 w' b
     = (w', throw_AppError "Bu e-posta adresi zaten kullanımda" 400 "EMAIL_EXISTS").
Proof.
  intros H.
  destruct (register_then_find _ _ _ _ _ _ _ H) as (u & Hf & Hp & Hs & He).
  destruct (register_success _ _ _ _ _ _ _ H) as (Hfresh & u1 & Hd & Hid & He1 & Hn1 & _).
  assert (Hu : u = u1).
  { rewrite Hd in Hf. unfold User.raw_findByEmail in Hf. rewrite find_app_none in Hf.
    - cbn in Hf. rewrite bool_decide_eq_true_2 in Hf by exact He1. congruence.
    - intros x Hx. apply bool_decide_eq_false_2. apply (Hfresh x Hx). }
  subst u1.
  assert (Hok : forall p, bcrypt_key p = bcrypt_key (rb_password b) ->
            exists w'' pu env,
              login cfg now' w' req (rb_email b) p
                = (w'', Respond (ok 200 "Authentication successful" (UserAndTokens pu env)))
              /\ pu_email pu = rb_email b /\ pu_id pu = en_objectId en).
  { intros p Hk. unfold login. rewrite Hf. unfold comparePassword, bcrypt_compare. rewrite Hp.
    cbn [bh_plain]. rewrite (bool_decide_eq_true_2 _ Hk).
    destruct (decide (status u = "active")); [| contradiction].
    unfold createSendTokens. eexists. eexists. eexists. split; [reflexivity |].
    cbn. split; assumption. }
  split; [exact Hok |]. split; [| split; [| split]].
  - destruct (Hok (rb_password b) eq_refl) as (w'' & pu & env & Hl & _).
    exists w'', pu, env. exact Hl.
  - intros first rest other Hlen Hpw.
    destruct (Hok (first ++ other)%string) as (w'' & pu & env & Hl & _).
    + rewrite Hpw, !bcrypt_key_prefix by exact Hlen. reflexivity.
    + exists w'', pu, env. exact Hl.
  - intros p Hne. unfold login. rewrite Hf. unfold comparePassword, bcrypt_compare. rewrite Hp.
    cbn [bh_plain]. rewrite (bool_decide_eq_false_2 _ Hne). reflexivity.
  - unfold register, User.findOne_email_or_username. rewrite Hd.
    rewrite find_app_none.
    + cbn. rewrite (bool_decide_eq_true_2 _ He). cbn.
      destruct (decide (email u = rb_email b)); [reflexivity | contradiction].
    + intros x Hx. destruct (Hfresh x Hx) as (_ & H1 & H2).
      rewrite (bool_decide_eq_false_2 _ H1), (bool_decide_eq_false_2 _ H2). reflexivity.
Qed.

Lemma register_then_login_witness :
  (forall p, bcrypt_key p = bcrypt_key (rb_password bob_registration) ->
     exists w'' pu env,
       login default_config 9000 bob_registered (incoming None None)
         (rb_email bob_registration) p
         = (w'', Respond (ok 200 "Authentication successful" (UserAndTokens pu env)))
       /\ pu_email pu = rb_email bob_registration /\ pu_id pu = en_objectId bob_entropy)
  /\ (exists w'' pu env,
        login default_config 9000 bob_registered (incoming None None)
          (rb_email bob_registration) (rb_password bob_registration)
          = (w'', Respond (ok 200 "Authentication successful" (UserAndTokens pu env))))
  /\ (forall first rest other,
        String.length first = 72%nat ->
        rb_password bob_registration = (first ++ rest)%string ->
        exists w'' pu env,
          login default_config 9000 bob_registered (incoming None None)
            (rb_email bob_registration) (first ++ other)
            = (w'', Respond (ok 200 "Authentication successful" (UserAndTokens pu env))))
  /\ (forall p, bcrypt_key p <> bcrypt_key (rb_password bob_registration) ->
        login default_config 9000 bob_registered (incoming None None)
          (rb_email bob_registration) p
          = (bob_registered,
             throw_AppError "Geçersiz e-posta veya şifre" 401 "INVALID_CREDENTIALS"))
  /\ register default_config 9000 bob_entropy bob_registered bob_registration
     = (bob_registered,
        throw_AppError "Bu e-posta adresi zaten kullanımda" 400 "EMAIL_EXISTS").
Proof.
  apply (register_then_login default_config 0 9000 bob_entropy bob_entropy fresh_world
           bob_registered bob_registration
           (match snd (register default_config 0 bob_entropy fresh_world bob_registration) with
            | Respond r => r
            | _ => res_auth_service_error
            end) (incoming None None)).
  reflexivity.
Defined.

(** ** Resetting a password *)

Lemma In_update x id f (d : User.collection) :
  In x (User.update id f d) ->
  exists y, In y d /\ x = (if bool_decide (u_id y = id) then f y else y).
Proof.
  unfold User.update. intros H. apply in_map_iff in H as (y & <- & Hy). now exists y.
Qed.

Lemma find_update_marks (P : user -> bool) id f (d : User.collection) :
  (forall x, In x d -> P x = false) ->
  (forall x, P (f x) = true) ->
  (forall x, u_id (f x) = u_id x) ->
  find P (User.update id f d) = f <$> User.raw_findById id d.
Proof.
  intros Hfresh Hmark Hid. unfold User.update, User.raw_findById.
  induction d as [| u d IH]; [reflexivity |]. cbn [map find].
  destruct (bool_decide (u_id u = id)) eqn:E.
  - rewrite Hmark. reflexivity.
  - rewrite (Hfresh u (or_introl eq_refl)). apply IH.
    intros x Hx. apply Hfresh. now right.
Qed.

Lemma find_all_false {A} (P : A -> bool) l :
  (forall x, In x l -> P x = false) -> find P l = None.
Proof.
  induction l as [| a l IH]; intros H; [reflexivity |]. cbn.
  rewrite (H a (or_introl eq_refl)). apply IH. intros x Hx. apply H. now right.
Qed.

Lemma forgotPassword_known now en w e u0 :
  User.raw_findByEmail e (db w) = Some u0 ->
  forgotPassword now en w e
  = (with_db (User.update (u_id u0)
                (set_passwordReset (Some (Sha256 (en_randomHex en)))
                   (Some (now + 30 * 60 * 1000))) (db w)) w,
     Respond (ok 200 forgotPassword_known_message NoData)).
Proof.
  intros H. unfold forgotPassword, User.findOne_email. rewrite H. reflexivity.
Qed.

Section ResetFlow.

Variables (cfg : config) (t : Z) (en : entropy) (w : world) (e : string) (u0 : user).
Hypothesis Hunique : unique_ids (db w).
Hypothesis Hfound : User.raw_findByEmail e (db w) = Some u0.
Hypothesis Hfresh :
  forall x, In x (db w) -> passwordResetToken x <> Some (Sha256 (en_randomHex en)).

Let mark := set_passwordReset (Some (Sha256 (en_randomHex en))) (Some (t + 30 * 60 * 1000)).
Let w1 := fst (forgotPassword t en w e).

Lemma forgot_world : w1 = with_db (User.update (u_id u0) mark (db w)) w.
Proof. unfold w1. now rewrite (forgotPassword_known t en w e u0 Hfound). Qed.

Lemma forgot_then_find_live t' :
  t' < t + 30 * 60 * 1000 ->
  findOne_resetToken t' (Sha256 (en_randomHex en)) (db w1)
  = Some (User.project_default (mark u0)).
Proof.
  intros Ht. rewrite forgot_world. cbn [db with_db]. unfold findOne_resetToken.
  rewrite find_update_marks.
  - destruct (raw_findByEmail_email _ _ _ Hfound) as [_ Hin].
    rewrite (unique_ids_find _ _ Hunique Hin). reflexivity.
  - intros x Hx. apply andb_false_iff. left. apply bool_decide_eq_false_2. now apply Hfresh.
  - intros x. cbn. rewrite bool_decide_eq_true_2 by reflexivity.
    apply Z.ltb_lt in Ht. rewrite Ht. reflexivity.
  - reflexivity.
Qed.

Lemma forgot_then_find_expired t' :
  t + 30 * 60 * 1000 <= t' ->
  findOne_resetToken t' (Sha256 (en_randomHex en)) (db w1) = None.
Proof.
  intros Ht. rewrite forgot_world. cbn [db with_db]. unfold findOne_resetToken.
  rewrite find_all_false; [reflexivity |].
  intros x Hx. apply In_update in Hx as (y & Hy & ->).
  destruct (bool_decide (u_id y = u_id u0)).
  - cbn. apply andb_false_iff. right. apply Z.ltb_ge. exact Ht.
  - apply andb_false_iff. left. apply bool_decide_eq_false_2. now apply Hfresh.
Qed.

End ResetFlow.

(** X11. A user asks for a password reset at [t] and the token drawn
    for it is no one's yet.  Presented from thirty minutes after [t]
    on, the token is refused with INVALID_RESET_TOKEN and nothing
    changes.  Presented before with a new password of fewer than six
    characters, [save()] throws a ValidationError and nothing changes
    either.  Presented before with a new password of six characters or
    more, it is accepted and answered with a token pair; from then on
    [login] accepts the new password - and every password from which
    bcrypt reads the same 72 bytes - and no other, and the same token
    is refused at any time: it works once. *)
Theorem password_reset_round_trip
    (cfg : config) (t t' : Z) (en en2 : entropy) (w : world) (e : string) (u0 : user)
    (newPassword : string) :
  unique_ids (db w) ->
  User.raw_findByEmail e (db w) = Some u0 ->
  (forall x, In x (db w) -> passwordResetToken x <> Some (Sha256 (en_randomHex en))) ->
  status u0 = "active" ->
  let w1 := fst (forgotPassword t en w e) in
  let reset := resetPassword cfg t' en2 w1 (en_randomHex en) newPassword in
  (t + 30 * 60 * 1000 <= t' ->
   reset = (w1, throw_AppError "Geçersiz veya süresi dolmuş token" 400 "INVALID_RESET_TOKEN"))
  /\ (t' < t + 30 * 60 * 1000 -> js_length newPassword < 6 ->
      reset = (w1, Throw (Runtime "ValidationError")))
  /\ (t' < t + 30 * 60 * 1000 -> 6 <= js_length newPassword ->
      (exists pu env,
         snd reset = Respond (ok 200 "Authentication successful" (UserAndTokens pu env))
         /\ pu_email pu = e)
      /\ (forall t'' req p, bcrypt_key p = bcrypt_key newPassword ->
            exists w3 pu env,
              login cfg t'' (fst reset) req e p
              = (w3, Respond (ok 200 "Authentication successful" (UserAndTokens pu env))))
      /\ (forall t'' req p, bcrypt_key p <> bcrypt_key newPassword ->
            login cfg t'' (fst reset) req e p
            = (fst reset,
               throw_AppError "Geçersiz e-posta veya şifre" 401 "INVALID_CREDENTIALS"))
      /\ (forall t3 en3 p3,
            resetPassword cfg t3 en3 (fst reset) (en_randomHex en) p3
            = (fst reset,
               throw_AppError "Geçersiz veya süresi dolmuş token" 400 "INVALID_RESET_TOKEN"))).
Proof.
  intros Hu Hf Hfresh Hs. cbv zeta.
  pose proof (forgot_then_find_expired t en w e u0 Hf Hfresh) as Hexpired.
  pose proof (forgot_then_find_live t en w e u0 Hu Hf Hfresh) as Hlive.
  rewrite (forgot_world t en w e u0 Hf) in *.
  set (mark := set_passwordReset (Some (Sha256 (en_randomHex en)))
                 (Some (t + 30 * 60 * 1000))) in *.
  set (w1 := with_db (User.update (u_id u0) mark (db w)) w) in *.
  set (reset := resetPassword cfg t' en2 w1 (en_randomHex en) newPassword).
  destruct (raw_findByEmail_email _ _ _ Hf) as [He Hin].
  split; [| split].
  - intros Ht. unfold reset, resetPassword.
    rewrite (Hexpired t' Ht). reflexivity.
  - intros Ht Hshort. specialize (Hlive t' Ht). unfold reset, resetPassword.
    rewrite Hlive. unfold password_is_valid.
    apply Z.leb_gt in Hshort. rewrite Hshort. reflexivity.
  - intros Ht Hlong. specialize (Hlive t' Ht).
    set (edit := fun x => set_passwordReset None None
                            (set_password (Some {| bh_salt := en_salt en2;
                                                   bh_plain := newPassword |}) x)).
    assert (Hreset : reset
              = createSendTokens cfg t'
                  {| db := User.update (u_id u0) edit (db w1);
                     cache := fst (redisUtils.del (cache w1) (redis.diaspora (u_id u0))) |}
                  (edit (User.project_default (mark u0))) 200).
    { unfold reset, resetPassword. rewrite Hlive. unfold password_is_valid.
      apply Z.leb_le in Hlong. rewrite Hlong. reflexivity. }
    assert (Hdb : db (fst reset) = User.update (u_id u0) edit (User.update (u_id u0) mark (db w))).
    { rewrite Hreset. reflexivity. }
    assert (Hlogin : User.raw_findByEmail e (db (fst reset)) = Some (edit (mark u0))).
    { rewrite Hdb. rewrite findByEmail_update by reflexivity.
      rewrite findByEmail_update by reflexivity. rewrite Hf. cbn [fmap option_fmap option_map].
      rewrite (bool_decide_eq_true_2 (u_id u0 = u_id u0) eq_refl).
      change (u_id (mark u0)) with (u_id u0).
      rewrite (bool_decide_eq_true_2 (u_id u0 = u_id u0) eq_refl). reflexivity. }
    split; [| split; [| split]].
    + rewrite Hreset. unfold createSendTokens. cbn [snd].
      eexists. eexists. split; [reflexivity |]. exact He.
    + intros t'' req p Hk. unfold login. rewrite Hlogin.
      unfold comparePassword, bcrypt_compare.
      cbn [password edit set_passwordReset set_password bh_plain].
      rewrite (bool_decide_eq_true_2 _ Hk).
      change (status (edit (mark u0))) with (status u0).
      destruct (decide (status u0 = "active")); [| contradiction].
      unfold createSendTokens. eexists. eexists. eexists. reflexivity.
    + intros t'' req p Hp. unfold login. rewrite Hlogin.
      unfold comparePassword, bcrypt_compare.
      cbn [password edit set_passwordReset set_password bh_plain].
      rewrite (bool_decide_eq_false_2 _ Hp). reflexivity.
    + intros t3 en3 p3. unfold resetPassword, findOne_resetToken.
      rewrite find_all_false; [reflexivity |].
      intros x Hx. rewrite Hdb in Hx.
      apply In_update in Hx as (y & Hy & ->).
      apply In_update in Hy as (z & Hz & ->).
      apply andb_false_iff. left. apply bool_decide_eq_false_2.
      destruct (bool_decide (u_id z = u_id u0)) eqn:E.
      * change (u_id (mark z)) with (u_id z). rewrite E. cbn. discriminate.
      * rewrite E. now apply Hfresh.
Qed.

Lemma password_reset_round_trip_witness :
  let cfg := default_config in
  let w1 := fst (forgotPassword 0 bob_entropy fresh_world "a@x.com") in
  let reset := resetPassword cfg 60000 bob_entropy w1 (en_randomHex bob_entropy) "NewPass1" in
  (0 + 30 * 60 * 1000 <= 60000 ->
   reset = (w1, throw_AppError "Geçersiz veya süresi dolmuş token" 400 "INVALID_RESET_TOKEN"))
  /\ (60000 < 0 + 30 * 60 * 1000 -> js_length "NewPass1" < 6 ->
      reset = (w1, Throw (Runtime "ValidationError")))
  /\ (60000 < 0 + 30 * 60 * 1000 -> 6 <= js_length "NewPass1" ->
      (exists pu env,
         snd reset = Respond (ok 200 "Authentication successful" (UserAndTokens pu env))
         /\ pu_email pu = "a@x.com")
      /\ (forall t'' req p, bcrypt_key p = bcrypt_key "NewPass1" ->
            exists w3 pu env,
              login cfg t'' (fst reset) req "a@x.com" p
              = (w3, Respond (ok 200 "Authentication successful" (UserAndTokens pu env))))
      /\ (forall t'' req p, bcrypt_key p <> bcrypt_key "NewPass1" ->
            login cfg t'' (fst reset) req "a@x.com" p
            = (fst reset,
               throw_AppError "Geçersiz e-posta veya şifre" 401 "INVALID_CREDENTIALS"))
      /\ (forall t3 en3 p3,
            resetPassword cfg t3 en3 (fst reset) (en_randomHex bob_entropy) p3
            = (fst reset,
               throw_AppError "Geçersiz veya süresi dolmuş token" 400 "INVALID_RESET_TOKEN"))).
Proof.
  apply (password_reset_round_trip default_config 0 60000 bob_entropy bob_entropy fresh_world
           "a@x.com" alice "NewPass1").
  - exact fresh_world_unique_ids.
  - reflexivity.
  - intros x [<- | []]. discriminate.
  - reflexivity.
Defined.

(** ** Verifying an e-mail address *)

(** X12. The verification token drawn at registration, when it is no
    one's yet, is refused from twenty-four hours after the registration
    on.  Presented before, it marks the address verified, adds 50 to
    the diaspora score (100 at registration) and clears the stored
    digest, and the same token is refused ever after. *)
Theorem registration_token_verifies_once
    (cfg : config) (now t' : Z) (en : entropy) (w w' : world)
    (b : registration) (res : response) :
  register cfg now en w b = (w', Respond res) ->
  (forall x, In x (db w) -> emailVerificationToken x <> Some (Sha256 (en_randomHex en))) ->
  let refused := throw_AppError "Geçersiz veya süresi dolmuş doğrulama token'ı" 400
                   "INVALID_VERIFICATION_TOKEN" in
  let v := verifyEmail t' w' (en_randomHex en) in
  (now + 24 * 60 * 60 * 1000 <= t' -> v = (w', refused))
  /\ (t' < now + 24 * 60 * 60 * 1000 ->
      snd v = Respond (success_message
                         "E-posta adresi başarıyla doğrulandı! +50 diaspora puanı kazandınız 🎉")
      /\ (exists u',
            User.raw_findByEmail (rb_email b) (db (fst v)) = Some u'
            /\ isEmailVerified u' = true
            /\ stats_diasporaScore u' = 150
            /\ emailVerificationToken u' = None
            /\ emailVerificationExpires u' = None)
      /\ (forall t3, verifyEmail t3 (fst v) (en_randomHex en) = (fst v, refused))).
Proof.
  intros Hreg Hfresh refused v.
  destruct (register_success _ _ _ _ _ _ _ Hreg)
    as (Hnew & u & Hd & Hid & He & _ & _ & _ & _ & Hver & Hscore & Htok & Hexp & _).
  assert (Hold : forall t3 x, In x (db w) ->
            (bool_decide (emailVerificationToken x = Some (Sha256 (en_randomHex en)))
             && from_option (fun e => t3 <? e) false (emailVerificationExpires x)) = false).
  { intros t3 x Hx. apply andb_false_iff. left. apply bool_decide_eq_false_2.
    now apply Hfresh. }
  split.
  - intros Ht. unfold v, verifyEmail, findOne_verificationToken. rewrite Hd.
    rewrite find_app_none by (apply Hold). cbn [find].
    rewrite Htok, Hexp. cbn [from_option].
    apply Z.ltb_ge in Ht. rewrite Ht, andb_false_r. reflexivity.
  - intros Ht.
    set (edit := fun x => set_diasporaScore (stats_diasporaScore x + 50)
                            (set_emailVerification None None (set_isEmailVerified true x))).
    assert (Hv : v = ({| db := (db w ++ [edit u])%list;
                         cache := fst (redisUtils.del (cache w') (redis.diaspora (u_id u))) |},
                      Respond (success_message
                         "E-posta adresi başarıyla doğrulandı! +50 diaspora puanı kazandınız 🎉"))).
    { unfold v, verifyEmail, findOne_verificationToken. rewrite Hd.
      rewrite find_app_none by (apply Hold). cbn [find].
      rewrite Htok, Hexp. cbn [from_option].
      rewrite bool_decide_eq_true_2 by reflexivity.
      apply Z.ltb_lt in Ht. rewrite Ht. cbn [andb fmap option_fmap option_map].
      change (u_id (User.project_default u)) with (u_id u).
      rewrite update_app.
      rewrite update_absent by (intros x Hx; rewrite Hid; apply (Hnew x Hx)).
      cbn. rewrite bool_decide_eq_true_2 by reflexivity. reflexivity. }
    rewrite Hv. cbn [fst snd db]. split; [reflexivity |]. split.
    + exists (edit u). split.
      * unfold User.raw_findByEmail. rewrite find_app_none.
        -- cbn. rewrite bool_decide_eq_true_2 by exact He. reflexivity.
        -- intros x Hx. apply bool_decide_eq_false_2. apply (Hnew x Hx).
      * cbn. rewrite Hscore. repeat split.
    + intros t3. unfold verifyEmail, findOne_verificationToken. cbn [db].
      rewrite find_app_none by (apply Hold). cbn. reflexivity.
Qed.

Lemma registration_token_verifies_once_witness :
  let refused := throw_AppError "Geçersiz veya süresi dolmuş doğrulama token'ı" 400
                   "INVALID_VERIFICATION_TOKEN" in
  let v := verifyEmail 3600000 bob_registered (en_randomHex bob_entropy) in
  (0 + 24 * 60 * 60 * 1000 <= 3600000 -> v = (bob_registered, refused))
  /\ (3600000 < 0 + 24 * 60 * 60 * 1000 ->
      snd v = Respond (success_message
                         "E-posta adresi başarıyla doğrulandı! +50 diaspora puanı kazandınız 🎉")
      /\ (exists u',
            User.raw_findByEmail (rb_email bob_registration) (db (fst v)) = Some u'
            /\ isEmailVerified u' = true
            /\ stats_diasporaScore u' = 150
            /\ emailVerificationToken u' = None
            /\ emailVerificationExpires u' = None)
      /\ (forall t3, verifyEmail t3 (fst v) (en_randomHex bob_entropy) = (fst v, refused))).
Proof.
  apply (registration_token_verifies_once default_config 0 3600000 bob_entropy fresh_world
           bob_registered bob_registration
           (match snd (register default_config 0 bob_entropy fresh_world bob_registration) with
            | Respond r => r
            | _ => res_auth_service_error
            end)).
  - reflexivity.
  - intros x [<- | []]. discriminate.
Defined.

(** ** Changing a password *)

(** X13. [changePassword] asks for the current password again: when
    it does not match, the answer is the error 400
    INVALID_CURRENT_PASSWORD and nothing changes.  When it matches and
    the new password has fewer than six characters, [save()] throws a
    ValidationError and nothing changes.  When it matches and the new
    password has six characters or more, the stored hash is replaced,
    so that [login] accepts the new password - and every password from
    which bcrypt reads the same 72 bytes - and no other, and in Redis
    only the user's cache entry is removed: no token is revoked by the
    change. *)
Theorem changePassword_needs_current_password
    (cfg : config) (now : Z) (en : entropy) (w : world) (req : request)
    (me u : user) (current newPassword : string) :
  req_user req = Identity me ->
  User.raw_findById (u_id me) (db w) = Some u ->
  User.raw_findByEmail (email u) (db w) = Some u ->
  let r := changePassword now en w req current newPassword in
  (comparePassword u current = false ->
   r = (w, throw_AppError "Mevcut şifre hatalı" 400 "INVALID_CURRENT_PASSWORD"))
  /\ (comparePassword u current = true -> js_length newPassword < 6 ->
      r = (w, Throw (Runtime "ValidationError")))
  /\ (comparePassword u current = true -> 6 <= js_length newPassword ->
      snd r = Respond (success_message "Şifre başarıyla güncellendi")
      /\ (forall t' req' p, bcrypt_key p <> bcrypt_key newPassword ->
            login cfg t' (fst r) req' (email u) p
            = (fst r, throw_AppError "Geçersiz e-posta veya şifre" 401 "INVALID_CREDENTIALS"))
      /\ (status u = "active" ->
          forall t' req' p, bcrypt_key p = bcrypt_key newPassword ->
            exists w3 pu env,
              login cfg t' (fst r) req' (email u) p
              = (w3, Respond (ok 200 "Authentication successful" (UserAndTokens pu env))))
      /\ (forall k, k <> redis.diaspora (u_id u) ->
            redis.keys (cache (fst r)) k = redis.keys (cache w) k)).
Proof.
  intros Hme Hid Hem r.
  destruct (raw_findById_id _ _ _ Hid) as [Huid _].
  split; [| split].
  - intros Hc. unfold r, changePassword. rewrite Hme, Hid, Hc. reflexivity.
  - intros Hc Hshort. unfold r, changePassword. rewrite Hme, Hid, Hc.
    unfold password_is_valid. apply Z.leb_gt in Hshort. rewrite Hshort. reflexivity.
  - intros Hc Hlong.
    set (hash := {| bh_salt := en_salt en; bh_plain := newPassword |}).
    assert (Hr : r = ({| db := User.update (u_id u) (set_password (Some hash)) (db w);
                         cache := fst (redisUtils.del (cache w) (redis.diaspora (u_id u))) |},
                      Respond (success_message "Şifre başarıyla güncellendi"))).
    { unfold r, changePassword. rewrite Hme, Hid, Hc. unfold password_is_valid.
      apply Z.leb_le in Hlong. rewrite Hlong. reflexivity. }
    rewrite Hr. cbn [fst snd db cache].
    assert (Hf : User.raw_findByEmail (email u)
                   (User.update (u_id u) (set_password (Some hash)) (db w))
                 = Some (set_password (Some hash) u)).
    { rewrite findByEmail_update by reflexivity. rewrite Hem. cbn.
      rewrite bool_decide_eq_true_2 by reflexivity. reflexivity. }
    split; [reflexivity |]. split; [| split].
    + intros t' req' p Hp. unfold login. cbn [db]. rewrite Hf.
      unfold comparePassword, bcrypt_compare. cbn [password set_password bh_plain hash].
      rewrite (bool_decide_eq_false_2 _ Hp). reflexivity.
    + intros Hs t' req' p Hk. unfold login. cbn [db]. rewrite Hf.
      unfold comparePassword, bcrypt_compare. cbn [password set_password bh_plain hash].
      rewrite (bool_decide_eq_true_2 _ Hk).
      change (status (set_password (Some hash) u)) with (status u).
      destruct (decide (status u = "active")); [| contradiction].
      unfold createSendTokens. eexists. eexists. eexists. reflexivity.
    + intros k Hk. now apply del_other.
Qed.

Lemma changePassword_needs_current_password_witness :
  let req := set_req_user (Identity alice) alice_request in
  let r := changePassword 0 bob_entropy fresh_world req "Password123" "NewPass1" in
  (comparePassword alice "Password123" = false ->
   r = (fresh_world, throw_AppError "Mevcut şifre hatalı" 400 "INVALID_CURRENT_PASSWORD"))
  /\ (comparePassword alice "Password123" = true -> js_length "NewPass1" < 6 ->
      r = (fresh_world, Throw (Runtime "ValidationError")))
  /\ (comparePassword alice "Password123" = true -> 6 <= js_length "NewPass1" ->
      snd r = Respond (success_message "Şifre başarıyla güncellendi")
      /\ (forall t' req' p, bcrypt_key p <> bcrypt_key "NewPass1" ->
            login default_config t' (fst r) req' (email alice) p
            = (fst r, throw_AppError "Geçersiz e-posta veya şifre" 401 "INVALID_CREDENTIALS"))
      /\ (status alice = "active" ->
          forall t' req' p, bcrypt_key p = bcrypt_key "NewPass1" ->
            exists w3 pu env,
              login default_config t' (fst r) req' (email alice) p
              = (w3, Respond (ok 200 "Authentication successful" (UserAndTokens pu env))))
      /\ (forall k, k <> redis.diaspora (u_id alice) ->
            redis.keys (cache (fst r)) k = redis.keys (cache fresh_world) k)).
Proof.
  apply (changePassword_needs_current_password default_config 0 bob_entropy fresh_world
           (set_req_user (Identity alice) alice_request) alice alice
           "Password123" "NewPass1"); reflexivity.
Defined.

(** A new password of three characters is not saved, by either route;
    the length is counted in characters, not in bytes. *)
Example short_password_is_not_saved :
  let w1 := fst (forgotPassword 0 bob_entropy fresh_world "a@x.com") in
  resetPassword default_config 60000 bob_entropy w1 (en_randomHex bob_entropy) "abc"
    = (w1, Throw (Runtime "ValidationError"))
  /\ changePassword 0 bob_entropy fresh_world (set_req_user (Identity alice) alice_request)
       "Password123" "abc"
     = (fresh_world, Throw (Runtime "ValidationError"))
  /\ js_length "şifre" = 5
  /\ password_is_valid "şifre" = false.
Proof. repeat split. Qed.

(** ** Deactivating an account *)

Lemma getDiasporaData_after_del now c id k2 :
  redisUtils.getDiasporaData now
    (fst (redisUtils.del (fst (redisUtils.del c (redis.diaspora id))) k2)) id = None.
Proof.
  unfold redisUtils.getDiasporaData, redisUtils.get.
  rewrite !del_ready. destruct (redis.isReady c) eqn:Hr; [| reflexivity].
  unfold redis.GET, redis.live.
  destruct (decide (redis.diaspora id = k2)) as [<- | Hne].
  - rewrite del_entry; [reflexivity |]. rewrite del_ready. exact Hr.
  - rewrite del_other by exact Hne. rewrite del_entry by exact Hr. reflexivity.
Qed.

(** X14. Once [deactivateAccount] has answered, the account is shut
    out of everything that could reopen it: in the world it leaves,
    with or without Redis, [authenticate] answers 403 ACCOUNT_SUSPENDED
    to every token of the user that verifies and is not revoked, so the
    request never reaches [reactivateAccount], which is mounted behind
    it; and [login] with the right password is refused with 403 as
    well, although the answer of [deactivateAccount] says to log in
    to reactivate. *)
Theorem deactivated_account_is_locked_out
    (cfg : config) (now' : Z) (w : world) (req req2 : request) (me u0 : user)
    (t : token) (c : jwt.claims) (p : string) :
  req_user req = Identity me ->
  User.raw_findById (u_id me) (db w) = Some u0 ->
  User.raw_findByEmail (email u0) (db w) = Some u0 ->
  comparePassword u0 p = true ->
  authorization req2 = Some (Bearer t) ->
  jwt.verify t (jwt_secret cfg) now' = jwt.Decoded c ->
  jwt.p_userId (jwt.c_payload c) = u_id me ->
  redisUtils.exists_ now' (cache (fst (deactivateAccount w req))) (redis.blacklist t) = false ->
  let w' := fst (deactivateAccount w req) in
  snd (deactivateAccount w req)
    = Respond (success_message
                 "Hesabınız deaktive edildi. Tekrar aktif hale getirmek için giriş yapabilirsiniz.")
  /\ (exists w'', authenticate cfg now' w' req2
                  = (w'', Respond (res_account_suspended "deactivated")))
  /\ route_reactivate_account cfg now' w' req2 = authenticate cfg now' w' req2
  /\ login cfg now' w' req2 (email u0) p
     = (w', throw_AppError "Hesabınız deactivated durumunda" 403 "ACCOUNT_SUSPENDED").
Proof.
  intros Hme Hid Hem Hp Hh Hv Hc Hb w'. fold w' in Hb.
  destruct (raw_findById_id _ _ _ Hid) as [Huid _].
  assert (Hw : deactivateAccount w req
               = ({| db := User.update (u_id u0) (set_status "deactivated") (db w);
                     cache := fst (redisUtils.del
                                     (fst (redisUtils.del (cache w) (redis.diaspora (u_id u0))))
                                     (redis.refresh_token (u_id u0))) |},
                  Respond (success_message
                     "Hesabınız deaktive edildi. Tekrar aktif hale getirmek için giriş yapabilirsiniz."))).
  { unfold deactivateAccount, User.findById. rewrite Hme, Hid. reflexivity. }
  assert (Hauth : exists w'', authenticate cfg now' w' req2
                              = (w'', Respond (res_account_suspended "deactivated"))).
  { rewrite (authenticate_verified _ _ _ _ _ _ Hh Hv), Hb. cbv zeta.
    unfold w'. rewrite Hw. cbn [fst db cache]. rewrite Hc, <- Huid.
    rewrite getDiasporaData_after_del. cbn [from_option].
    rewrite find_update_same by reflexivity. rewrite Huid, Hid.
    cbn [fmap option_fmap option_map]. unfold attach_if_active.
    destruct (decide _) as [E | _]; [discriminate E |]. eexists. reflexivity. }
  split; [rewrite Hw; reflexivity |]. split; [exact Hauth |]. split.
  - destruct Hauth as (w'' & Ha). unfold route_reactivate_account, behind_authenticate.
    rewrite Ha. reflexivity.
  - unfold login, w'. rewrite Hw. cbn [fst db].
    rewrite findByEmail_update by reflexivity. rewrite Hem. cbn [fmap option_fmap option_map].
    rewrite bool_decide_eq_true_2 by reflexivity.
    change (comparePassword (set_status "deactivated" u0) p) with (comparePassword u0 p).
    rewrite Hp. destruct (decide _) as [E | _]; [discriminate E |]. reflexivity.
Qed.

Lemma deactivated_account_is_locked_out_witness :
  let req := set_req_user (Identity alice) alice_request in
  let w' := fst (deactivateAccount fresh_world req) in
  snd (deactivateAccount fresh_world req)
    = Respond (success_message
                 "Hesabınız deaktive edildi. Tekrar aktif hale getirmek için giriş yapabilirsiniz.")
  /\ (exists w'', authenticate default_config 1000 w' alice_request
                  = (w'', Respond (res_account_suspended "deactivated")))
  /\ route_reactivate_account default_config 1000 w' alice_request
     = authenticate default_config 1000 w' alice_request
  /\ login default_config 1000 w' alice_request (email alice) "Password123"
     = (w', throw_AppError "Hesabınız deactivated durumunda" 403 "ACCOUNT_SUSPENDED").
Proof.
  apply (deactivated_account_is_locked_out default_config 1000 fresh_world
           (set_req_user (Identity alice) alice_request) alice_request alice alice
           alice_token
           {| jwt.c_payload := {| jwt.p_userId := u_id alice;
                                  jwt.p_email := Some (email alice);
                                  jwt.p_username := Some (username alice);
                                  jwt.p_role := Some (role alice);
                                  jwt.p_type := None |};
              jwt.c_iat := 0; jwt.c_exp := 7 * 24 * 60 * 60 |}
           "Password123"); reflexivity.
Defined.

(** ** Logging out *)

Lemma blacklistToken_other now c t type k :
  k <> redis.blacklist t -> k <> redis.blacklist_refresh t ->
  redis.keys (fst (blacklistToken now c t type)) k = redis.keys c k.
Proof.
  intros H1 H2. unfold blacklistToken. cbn [fst].
  destruct (decide (type = "refresh")); now apply set_other.
Qed.

Lemma blacklistToken_ready now c t type :
  redis.isReady (fst (blacklistToken now c t type)) = redis.isReady c.
Proof. unfold blacklistToken. cbn [fst]. apply set_ready. Qed.

Lemma logoutAll_world now w req : fst (logoutAll now w req) = fst (logout now w req).
Proof.
  unfold logoutAll, logout. destruct (authorization req); [| reflexivity].
  destruct (req_user req); reflexivity.
Qed.

Lemma logout_touches now w req :
  db (fst (logout now w req)) = db w
  /\ redis.isReady (cache (fst (logout now w req))) = redis.isReady (cache w)
  /\ (forall k,
        (forall t, k <> redis.blacklist t) ->
        (forall id, k <> redis.refresh_token id) ->
        (forall id, k <> redis.diaspora id) ->
        redis.keys (cache (fst (logout now w req))) k = redis.keys (cache w) k).
Proof.
  unfold logout. destruct (authorization req) as [h |]; [| repeat split].
  destruct (req_user req) as [| | u]; cbn [fst db cache with_cache].
  1,2: split; [reflexivity |]; split; [apply blacklistToken_ready |];
       intros k H1 _ _; unfold blacklistToken; cbn [fst];
       destruct (decide ("access" = "refresh")) as [E | _]; [discriminate E |];
       apply set_other, H1.
  split; [reflexivity |]. split.
  - rewrite !del_ready. apply blacklistToken_ready.
  - intros k H1 H2 H3. rewrite !del_other by (apply H3 || apply H2).
    unfold blacklistToken. cbn [fst].
    destruct (decide ("access" = "refresh")) as [E | _]; [discriminate E |].
    apply set_other, H1.
Qed.

Lemma exists_same now c c' k :
  redis.isReady c' = redis.isReady c ->
  redis.keys c' k = redis.keys c k ->
  redisUtils.exists_ now c' k = redisUtils.exists_ now c k.
Proof.
  intros Hr Hk. unfold redisUtils.exists_, redis.EXISTS, redis.live. now rewrite Hr, Hk.
Qed.

Lemma validateRefreshToken_same cfg now w w' req :
  db w' = db w ->
  redis.isReady (cache w') = redis.isReady (cache w) ->
  (forall t, redis.keys (cache w') (redis.blacklist_refresh t)
             = redis.keys (cache w) (redis.blacklist_refresh t)) ->
  snd (validateRefreshToken cfg now w' req) = snd (validateRefreshToken cfg now w req).
Proof.
  intros Hd Hr Hk. unfold validateRefreshToken.
  destruct (body_refreshToken req) as [rt |]; [| reflexivity].
  destruct (token_truthy rt); [| reflexivity].
  destruct (jwt.verify rt (jwt_refreshSecret cfg) now); [| reflexivity].
  rewrite (exists_same now (cache w) (cache w') _ Hr (Hk rt)), Hd.
  destruct (redisUtils.exists_ _ _ _); [reflexivity |].
  destruct (User.findById _ _); [| reflexivity].
  destruct (decide _); reflexivity.
Qed.

Lemma validateRefreshToken_world cfg now w req :
  fst (validateRefreshToken cfg now w req) = w.
Proof.
  unfold validateRefreshToken.
  destruct (body_refreshToken req) as [rt |]; [| reflexivity].
  destruct (token_truthy rt); [| reflexivity].
  destruct (jwt.verify rt (jwt_refreshSecret cfg) now); [| reflexivity].
  destruct (redisUtils.exists_ _ _ _); [reflexivity |].
  destruct (User.findById _ _); [| reflexivity].
  destruct (decide _); reflexivity.
Qed.

Lemma refreshToken_response cfg now w w' req :
  snd (refreshToken cfg now w' req) = snd (refreshToken cfg now w req).
Proof.
  unfold refreshToken. destruct (req_user req); try reflexivity.
  destruct (req_refreshToken req); reflexivity.
Qed.

(** X15. [logout] does not touch what the refresh route reads: after
    a logout, whatever the request that logged out, the refresh route
    answers a request exactly as it would have before - a refresh token
    of the user who logged out still buys a new token pair. *)
Theorem logout_leaves_refresh_tokens_valid
    (cfg : config) (now now' : Z) (w : world) (req : request)
    (h : option auth_header) (rt : option token) :
  snd (refresh_route cfg now' (fst (logout now w req)) (incoming h rt))
  = snd (refresh_route cfg now' w (incoming h rt)).
Proof.
  destruct (logout_touches now w req) as (Hd & Hr & Hk).
  rewrite !refresh_route_incoming.
  pose proof (validateRefreshToken_same cfg now' w (fst (logout now w req)) (incoming h rt)
                Hd Hr) as Hsame.
  pose proof (validateRefreshToken_world cfg now' w (incoming h rt)) as Hw1.
  pose proof (validateRefreshToken_world cfg now' (fst (logout now w req)) (incoming h rt))
    as Hw2.
  destruct (validateRefreshToken cfg now' w (incoming h rt)) as [w1 o1].
  destruct (validateRefreshToken cfg now' (fst (logout now w req)) (incoming h rt))
    as [w2 o2].
  cbn [fst snd] in *. rewrite Hsame by (intros t; apply Hk; discriminate).
  destruct o1 as [[e |] r hs | res | e]; try reflexivity.
  apply refreshToken_response.
Qed.

(** A refresh token of Alice's, used after she has logged out. *)
Example refresh_after_logout :
  let w' := fst (logout 2000 fresh_world (set_req_user (Identity alice) alice_request)) in
  response_status (snd (refresh_route default_config 3000 w'
                          (incoming None (Some alice_refresh_token)))) = Some 200.
Proof. reflexivity. Qed.

(** X16. [logoutAll] leaves the world exactly as [logout] does: it
    revokes the one access token of the request.  Any other access
    token of the same user that verifies, and was not revoked before,
    is still accepted afterwards. *)
Theorem logoutAll_ends_one_session
    (cfg : config) (now now' : Z) (w : world) (req req2 : request)
    (t t2 : token) (u u0 : user) (c2 : jwt.claims) :
  authorization req = Some (Bearer t) ->
  req_user req = Identity u ->
  t2 <> t ->
  authorization req2 = Some (Bearer t2) ->
  jwt.verify t2 (jwt_secret cfg) now' = jwt.Decoded c2 ->
  jwt.p_userId (jwt.c_payload c2) = u_id u ->
  redisUtils.exists_ now' (cache w) (redis.blacklist t2) = false ->
  User.raw_findById (u_id u) (db w) = Some u0 ->
  status u0 = "active" ->
  fst (logoutAll now w req) = fst (logout now w req)
  /\ attached (snd (authenticate cfg now' (fst (logoutAll now w req)) req2))
     = Some (User.project_identity u0).
Proof.
  intros Hh Hu Hne Hh2 Hv2 Hc2 Hb Hf Hs.
  split; [apply logoutAll_world |]. rewrite logoutAll_world.
  assert (Hw : fst (logout now w req)
               = with_cache
                   (fst (redisUtils.del
                           (fst (redisUtils.del
                                   (fst (blacklistToken now (cache w) t "access"))
                                   (redis.refresh_token (u_id u))))
                           (redis.diaspora (u_id u)))) w).
  { unfold logout. rewrite Hh, Hu. reflexivity. }
  apply authenticate_cache_miss with (c := c2) (t := t2); try assumption.
  - rewrite <- Hb. apply exists_same.
    + rewrite Hw. cbn [cache with_cache]. rewrite !del_ready. apply blacklistToken_ready.
    + rewrite Hw. cbn [cache with_cache]. rewrite !del_other by discriminate.
      apply blacklistToken_other; congruence.
  - rewrite Hc2, Hw. cbn [cache with_cache].
    unfold redisUtils.getDiasporaData, redisUtils.get. rewrite !del_ready.
    destruct (redis.isReady _) eqn:Hr; [| reflexivity].
    unfold redis.GET, redis.live. rewrite del_entry; [reflexivity |].
    rewrite del_ready. exact Hr.
  - rewrite Hc2. destruct (logout_touches now w req) as (Hd & _). rewrite Hd. exact Hf.
Qed.

Lemma logoutAll_ends_one_session_witness :
  let req := set_req_user (Identity alice) alice_request in
  let other := generateAuthToken default_config 1000 alice in
  fst (logoutAll 2000 fresh_world req) = fst (logout 2000 fresh_world req)
  /\ attached (snd (authenticate default_config 3000 (fst (logoutAll 2000 fresh_world req))
                      (incoming (Some (Bearer other)) None)))
     = Some (User.project_identity alice).
Proof.
  apply (logoutAll_ends_one_session default_config 2000 3000 fresh_world
           (set_req_user (Identity alice) alice_request)
           (incoming (Some (Bearer (generateAuthToken default_config 1000 alice))) None)
           alice_token (generateAuthToken default_config 1000 alice) alice alice
           {| jwt.c_payload := {| jwt.p_userId := u_id alice;
                                  jwt.p_email := Some (email alice);
                                  jwt.p_username := Some (username alice);
                                  jwt.p_role := Some (role alice);
                                  jwt.p_type := None |};
              jwt.c_iat := 1; jwt.c_exp := 1 + 7 * 24 * 60 * 60 |});
    try reflexivity.
  discriminate.
Defined.

(** ** Using a refresh token again *)

Lemma refresh_route_success cfg now w w' h old res :
  refresh_route cfg now w (incoming h (Some old)) = (w', Respond res) ->
  r_success res = true ->
  exists d u,
    jwt.verify old (jwt_refreshSecret cfg) now = jwt.Decoded d
    /\ User.findById (jwt.p_userId (jwt.c_payload d)) (db w) = Some u
    /\ u_id u = jwt.p_userId (jwt.c_payload d)
    /\ res = ok 200 "Tokens refreshed successfully"
               (Tokens {| accessToken := generateAuthToken cfg now u;
                          refreshToken_ := generateRefreshToken cfg now u;
                          expiresIn := jwt_expiresIn cfg |})
    /\ db w' = db w
    /\ redis.isReady (cache w') = redis.isReady (cache w)
    /\ (redis.isReady (cache w) = true ->
        redis.keys (cache w') (redis.blacklist_refresh old)
        = Some {| redis.e_value := redis.VString "blacklisted";
                  redis.e_expireAt := Some (now + thirty_days * 1000) |}).
Proof.
  intros Hrun Hok. rewrite refresh_route_incoming in Hrun.
  destruct (validateRefreshToken cfg now w (incoming h (Some old))) as [w2 o] eqn:Hval.
  destruct o as [err req2 hs | res2 | e].
  - destruct (validateRefreshToken_next _ _ _ _ _ _ _ _ Hval)
      as (old' & d & u & Hb & Hv & Hu & Hs & -> & -> & -> & ->).
    cbn in Hb. injection Hb as <-.
    exists d, u. split; [exact Hv |]. split; [exact Hu |].
    split.
    { unfold User.findById in Hu.
      destruct (User.raw_findById _ (db w)) as [x |] eqn:Hx; [| discriminate].
      cbn in Hu. injection Hu as <-.
      apply (raw_findById_id _ _ _ Hx). }
    pose proof (refreshToken_entry cfg now w
                  (set_req_refreshToken (Some old)
                     (set_req_user (Identity u) (incoming h (Some old))))
                  u old eq_refl eq_refl) as He.
    unfold refreshToken in Hrun, He. cbn in Hrun, He.
    injection Hrun as <- <-.
    split; [reflexivity |]. split; [reflexivity |]. split.
    + cbn. rewrite !set_ready. reflexivity.
    + exact He.
  - injection Hrun as <- <-. exfalso. revert Hval Hok. unfold validateRefreshToken. cbn.
    destruct (token_truthy old); [| intros [= <- <-]; discriminate].
    destruct (jwt.verify _ _ _); [| intros [= <- <-]; discriminate].
    destruct (redisUtils.exists_ _ _ _); [intros [= <- <-]; discriminate |].
    destruct (User.findById _ _); [| intros [= <- <-]; discriminate].
    destruct (decide _); intros [= <- <-]; discriminate.
  - discriminate.
Qed.

Lemma refresh_route_revoked cfg now now' w h old :
  redis.isReady (cache w) = true ->
  redis.keys (cache w) (redis.blacklist_refresh old)
    = Some {| redis.e_value := redis.VString "blacklisted";
              redis.e_expireAt := Some (now + thirty_days * 1000) |} ->
  now' < now + 30 * 24 * 60 * 60 * 1000 ->
  token_truthy old = true ->
  exists res,
    refresh_route cfg now' w (incoming h (Some old)) = (w, Respond res)
    /\ r_success res = false
    /\ r_status res = 401
    /\ (forall d, jwt.verify old (jwt_refreshSecret cfg) now' = jwt.Decoded d ->
          res = fail 401 "Refresh token revoked" None "REFRESH_TOKEN_REVOKED").
Proof.
  intros Hr Hk Ht Etr. rewrite refresh_route_incoming. unfold validateRefreshToken.
  cbn [body_refreshToken incoming]. rewrite Etr.
  destruct (jwt.verify old (jwt_refreshSecret cfg) now') as [d | name].
  - rewrite (exists_live_entry now' (cache w) _ _ Hr Hk).
    + eexists. repeat split.
    + unfold redis.expired. cbn. apply Z.leb_gt. unfold thirty_days. lia.
  - eexists. split; [reflexivity |]. split; [reflexivity |]. split; [reflexivity |].
    discriminate.
Qed.

(** X17. With Redis available, a refresh token that has bought a new
    pair does not buy a second one: during the thirty days that follow,
    the refresh route refuses it without changing anything, with 401
    REFRESH_TOKEN_REVOKED as long as the token still verifies. *)
Theorem refresh_token_works_once
    (cfg : config) (now now' : Z) (w w' : world) (h h' : option auth_header)
    (old : token) (res : response) :
  refresh_route cfg now w (incoming h (Some old)) = (w', Respond res) ->
  r_success res = true ->
  redis.isReady (cache w) = true ->
  now' < now + 30 * 24 * 60 * 60 * 1000 ->
  exists res',
    refresh_route cfg now' w' (incoming h' (Some old)) = (w', Respond res')
    /\ r_success res' = false
    /\ r_status res' = 401
    /\ (forall d, jwt.verify old (jwt_refreshSecret cfg) now' = jwt.Decoded d ->
          res' = fail 401 "Refresh token revoked" None "REFRESH_TOKEN_REVOKED").
Proof.
  intros Hrun Hok Hr Ht.
  destruct (refresh_route_success _ _ _ _ _ _ _ Hrun Hok)
    as (d & u & Hv & _ & _ & _ & _ & Hr' & He).
  rewrite Hr in Hr'.
  destruct (verify_decoded _ _ _ _ Hv) as [Hold _].
  assert (Etr : token_truthy old = true) by (rewrite Hold; reflexivity).
  exact (refresh_route_revoked cfg now now' w' h' old Hr' (He Hr) Ht Etr).
Qed.

Lemma refresh_token_works_once_witness :
  let w' := fst (refresh_route default_config 1000 fresh_world
                   (incoming None (Some alice_refresh_token))) in
  exists res',
    refresh_route default_config 5000 w' (incoming None (Some alice_refresh_token))
      = (w', Respond res')
    /\ r_success res' = false
    /\ r_status res' = 401
    /\ (forall d, jwt.verify alice_refresh_token (jwt_refreshSecret default_config) 5000
                  = jwt.Decoded d ->
          res' = fail 401 "Refresh token revoked" None "REFRESH_TOKEN_REVOKED").
Proof.
  apply (refresh_token_works_once default_config 1000 5000 fresh_world
           (fst (refresh_route default_config 1000 fresh_world
                   (incoming None (Some alice_refresh_token))))
           None None alice_refresh_token
           (ok 200 "Tokens refreshed successfully"
              (Tokens {| accessToken := generateAuthToken default_config 1000 alice;
                         refreshToken_ := generateRefreshToken default_config 1000 alice;
                         expiresIn := jwt_expiresIn default_config |}))).
  - reflexivity.
  - reflexivity.
  - reflexivity.
  - lia.
Defined.

Lemma refresh_token_replay_is_refused cfg now now' w h old :
  redis.isReady (cache w) = true ->
  redis.keys (cache w) (redis.blacklist_refresh old)
    = Some {| redis.e_value := redis.VString "blacklisted";
              redis.e_expireAt := Some (now + thirty_days * 1000) |} ->
  now' < now + 30 * 24 * 60 * 60 * 1000 ->
  forall d, jwt.verify old (jwt_refreshSecret cfg) now' = jwt.Decoded d ->
  exists res,
    refresh_route cfg now' w (incoming h (Some old)) = (w, Respond res)
    /\ r_status res = 401.
Proof.
  intros Hr Hk Ht d Hd.
  destruct (verify_decoded _ _ _ _ Hd) as [Hold _].
  assert (Etr : token_truthy old = true) by (rewrite Hold; reflexivity).
  destruct (refresh_route_revoked cfg now now' w h old Hr Hk Ht Etr)
    as (res & Hrun & _ & Hst & _).
  exists res. split; assumption.
Qed.

(** X18. Tokens are a function of the user and of the second in which
    they are signed.  So when a refresh token is used within the second
    in which it was issued, with Redis available, the refresh token
    that the route returns is the one that was presented, which the
    route has just put in the registry: the pair it hands out contains
    a refresh token that is already revoked. *)
Theorem refresh_in_the_same_second_returns_a_revoked_token
    (cfg : config) (t0 now : Z) (w w' : world) (h : option auth_header)
    (u0 : user) (res : response) :
  refresh_route cfg now w (incoming h (Some (generateRefreshToken cfg t0 u0)))
    = (w', Respond res) ->
  r_success res = true ->
  now / 1000 = t0 / 1000 ->
  redis.isReady (cache w) = true ->
  exists a,
    r_data res = Tokens {| accessToken := a;
                           refreshToken_ := generateRefreshToken cfg t0 u0;
                           expiresIn := jwt_expiresIn cfg |}
    /\ redisUtils.exists_ now (cache w')
         (redis.blacklist_refresh (generateRefreshToken cfg t0 u0)) = true
    /\ forall h', exists res',
         refresh_route cfg now w' (incoming h' (Some (generateRefreshToken cfg t0 u0)))
           = (w', Respond res')
         /\ r_status res' = 401.
Proof.
  intros Hrun Hok Hsec Hr.
  destruct (refresh_route_success _ _ _ _ _ _ _ Hrun Hok)
    as (d & u & Hv & _ & Hid & -> & _ & Hr' & He).
  rewrite Hr in Hr'. specialize (He Hr).
  assert (Hsame : generateRefreshToken cfg now u = generateRefreshToken cfg t0 u0).
  { destruct (verify_decoded _ _ _ _ Hv) as [Hd _].
    unfold generateRefreshToken, jwt.sign in Hd |- *. injection Hd as <-.
    cbn in Hid. rewrite Hid, Hsec. reflexivity. }
  eexists. split; [cbn [r_data ok]; rewrite Hsame; reflexivity |]. split.
  - apply (exists_live_entry now (cache w') _ _ Hr' He).
    unfold redis.expired. cbn. apply Z.leb_gt. unfold thirty_days. lia.
  - intros h'.
    destruct (refresh_token_replay_is_refused cfg now now w' h' _ Hr' He ltac:(lia) d Hv)
      as (res' & Hrun' & Hst).
    exists res'. split; assumption.
Qed.

Lemma refresh_in_the_same_second_returns_a_revoked_token_witness :
  let cfg := default_config in
  let presented := generateRefreshToken cfg 5000 alice in
  let w' := fst (refresh_route cfg 5400 fresh_world (incoming None (Some presented))) in
  exists a,
    r_data (ok 200 "Tokens refreshed successfully"
              (Tokens {| accessToken := generateAuthToken cfg 5400 alice;
                         refreshToken_ := generateRefreshToken cfg 5400 alice;
                         expiresIn := jwt_expiresIn cfg |}))
    = Tokens {| accessToken := a; refreshToken_ := presented;
                expiresIn := jwt_expiresIn cfg |}
    /\ redisUtils.exists_ 5400 (cache w') (redis.blacklist_refresh presented) = true
    /\ forall h', exists res',
         refresh_route cfg 5400 w' (incoming h' (Some presented)) = (w', Respond res')
         /\ r_status res' = 401.
Proof.
  apply (refresh_in_the_same_second_returns_a_revoked_token default_config 5000 5400
           fresh_world
           (fst (refresh_route default_config 5400 fresh_world
                   (incoming None (Some (generateRefreshToken default_config 5000 alice)))))
           None alice
           (ok 200 "Tokens refreshed successfully"
              (Tokens {| accessToken := generateAuthToken default_config 5400 alice;
                         refreshToken_ := generateRefreshToken default_config 5400 alice;
                         expiresIn := jwt_expiresIn default_config |}))); reflexivity.
Defined.

(** ** The admin routes *)

Lemma ids_of_untimed (d1 d2 : User.collection) :
  map (set_lastActive 0) d1 = map (set_lastActive 0) d2 -> map u_id d1 = map u_id d2.
Proof.
  intros H. apply (f_equal (map u_id)) in H. rewrite !map_map in H. exact H.
Qed.

Lemma raw_findById_ids id (d : User.collection) :
  User.raw_findById id d <> None <-> In id (map u_id d).
Proof.
  unfold User.raw_findById. induction d as [| u d IH]; cbn.
  - split; [congruence | intros []].
  - destruct (bool_decide (u_id u = id)) eqn:E.
    + apply bool_decide_eq_true in E. split; [now left | discriminate].
    + apply bool_decide_eq_false in E. rewrite IH. split; [now right |].
      intros [H | H]; [contradiction | exact H].
Qed.

Lemma deleted_is_gone id (d : User.collection) :
  User.raw_findById id (List.filter (fun x => negb (bool_decide (u_id x = id))) d) = None.
Proof.
  unfold User.raw_findById. apply find_all_false. intros x Hx.
  apply filter_In in Hx as [_ Hx]. apply negb_true_iff in Hx. exact Hx.
Qed.

Lemma find_filter_other id id' (d : User.collection) :
  id' <> id ->
  User.raw_findById id' (List.filter (fun y => negb (bool_decide (u_id y = id))) d)
  = User.raw_findById id' d.
Proof.
  intros Hne. unfold User.raw_findById. induction d as [| u d IH]; [reflexivity |]. cbn.
  destruct (bool_decide (u_id u = id)) eqn:E; cbn.
  - apply bool_decide_eq_true in E.
    rewrite bool_decide_eq_false_2 by congruence. exact IH.
  - destruct (bool_decide (u_id u = id')); [reflexivity | exact IH].
Qed.

Lemma find_untimed id : forall (d1 d2 : User.collection),
  map (set_lastActive 0) d1 = map (set_lastActive 0) d2 ->
  set_lastActive 0 <$> User.raw_findById id d1 = set_lastActive 0 <$> User.raw_findById id d2.
Proof.
  unfold User.raw_findById.
  induction d1 as [| x d1 IH]; intros [| y d2] H; try discriminate; [reflexivity |].
  cbn [map] in H.
  assert (Hxy : set_lastActive 0 x = set_lastActive 0 y) by congruence.
  assert (Hrest : map (set_lastActive 0) d1 = map (set_lastActive 0) d2) by congruence.
  clear H. cbn [find].
  assert (Hid : u_id x = u_id y) by exact (f_equal u_id Hxy).
  rewrite Hid. destruct (bool_decide (u_id y = id)).
  - cbn. now rewrite Hxy.
  - now apply IH.
Qed.

(** X19. DELETE /admin/users/:id runs behind [authenticate] and
    nothing else that looks at the caller: whenever [authenticate]
    lets a request through, whatever the role of its user, the route
    deletes the user whose id is given, if there is one, and answers
    200.  Afterwards the collection is the one that [authenticate]
    left, without the documents of that id: no document has the id,
    and every other document is as [authenticate] left it, which is as
    it was before the request, [lastActive] apart. *)
Theorem admin_delete_asks_for_no_role
    (cfg : config) (now : Z) (w w1 : world) (req req1 : request)
    (hs : list (string * Z)) (id : string) (target : user) :
  authenticate cfg now w req = (w1, Next None req1 hs) ->
  User.raw_findById id (db w) = Some target ->
  snd (route_admin_delete_user cfg now w req id)
    = Respond (success_message "Kullanıcı başarıyla silindi")
  /\ db (fst (route_admin_delete_user cfg now w req id))
     = List.filter (fun y => negb (bool_decide (u_id y = id))) (db w1)
  /\ User.raw_findById id (db (fst (route_admin_delete_user cfg now w req id))) = None
  /\ (forall id', id' <> id ->
        User.raw_findById id' (db (fst (route_admin_delete_user cfg now w req id)))
        = User.raw_findById id' (db w1))
  /\ (forall id', id' <> id ->
        set_lastActive 0 <$>
          User.raw_findById id' (db (fst (route_admin_delete_user cfg now w req id)))
        = set_lastActive 0 <$> User.raw_findById id' (db w)).
Proof.
  intros Ha Hf.
  destruct (authenticate_touches cfg now w req) as (_ & _ & Hd & _).
  rewrite Ha in Hd. cbn [fst] in Hd. pose proof (ids_of_untimed _ _ Hd) as Hids.
  assert (Hsome : User.raw_findById id (db w1) <> None).
  { apply raw_findById_ids. rewrite Hids. apply raw_findById_ids. congruence. }
  destruct (User.raw_findById id (db w1)) as [x |] eqn:Hx; [| contradiction].
  destruct (raw_findById_id _ _ _ Hx) as [Hxid _].
  assert (Hr : route_admin_delete_user cfg now w req id
               = ({| db := List.filter (fun y => negb (bool_decide (u_id y = id))) (db w1);
                     cache := fst (redisUtils.del
                                     (fst (redisUtils.del (cache w1) (redis.diaspora id)))
                                     (redis.refresh_token id)) |},
                  Respond (success_message "Kullanıcı başarıyla silindi"))).
  { unfold route_admin_delete_user, behind_authenticate. rewrite Ha.
    unfold adminDeleteUser, User.findById. rewrite Hx. cbn [fmap option_fmap option_map].
    change (u_id (User.project_default x)) with (u_id x). rewrite Hxid. reflexivity. }
  rewrite Hr. cbn [fst snd db]. split; [reflexivity |]. split; [reflexivity |].
  split; [apply deleted_is_gone |]. split.
  - intros id' Hne. now apply find_filter_other.
  - intros id' Hne. rewrite find_filter_other by exact Hne. now apply find_untimed.
Qed.

Lemma admin_delete_asks_for_no_role_witness :
  let id := en_objectId bob_entropy in
  let w1 := fst (authenticate default_config 1000 bob_registered alice_request) in
  let after := fst (route_admin_delete_user default_config 1000 bob_registered
                      alice_request id) in
  role alice = "user"
  /\ snd (route_admin_delete_user default_config 1000 bob_registered alice_request id)
     = Respond (success_message "Kullanıcı başarıyla silindi")
  /\ db after = List.filter (fun y => negb (bool_decide (u_id y = id))) (db w1)
  /\ User.raw_findById id (db after) = None
  /\ (forall id', id' <> id ->
        User.raw_findById id' (db after) = User.raw_findById id' (db w1))
  /\ (forall id', id' <> id ->
        set_lastActive 0 <$> User.raw_findById id' (db after)
        = set_lastActive 0 <$> User.raw_findById id' (db bob_registered)).
Proof.
  split; [reflexivity |].
  apply (admin_delete_asks_for_no_role default_config 1000 bob_registered
           (fst (authenticate default_config 1000 bob_registered alice_request))
           alice_request
           (set_req_user (Identity (User.project_identity alice)) alice_request)
           [] (en_objectId bob_entropy)
           (match User.raw_findById (en_objectId bob_entropy) (db bob_registered) with
            | Some x => x
            | None => alice
            end)); reflexivity.
Defined.

(** ** What the token contributes *)


Lemma attach_if_active_request now w req1 req2 u :
  fst (attach_if_active now w req1 u) = fst (attach_if_active now w req2 u)
  /\ attached (snd (attach_if_active now w req1 u))
     = attached (snd (attach_if_active now w req2 u))
  /\ sent (snd (attach_if_active now w req1 u)) = sent (snd (attach_if_active now w req2 u)).
Proof.
  unfold attach_if_active. destruct (decide (status u = "active")); repeat split.
Qed.

(** X20. Of a token that verifies, [authenticate] uses the user id and
    nothing else: two requests whose tokens verify, are not revoked and
    name the same user are treated alike - same world afterwards, same
    identity attached, same response - whatever e-mail address,
    username and role the tokens carry. *)
Theorem authenticate_reads_only_the_user_id
    (cfg : config) (now : Z) (w : world) (req1 req2 : request)
    (t1 t2 : token) (c1 c2 : jwt.claims) :
  authorization req1 = Some (Bearer t1) ->
  authorization req2 = Some (Bearer t2) ->
  jwt.verify t1 (jwt_secret cfg) now = jwt.Decoded c1 ->
  jwt.verify t2 (jwt_secret cfg) now = jwt.Decoded c2 ->
  jwt.p_userId (jwt.c_payload c1) = jwt.p_userId (jwt.c_payload c2) ->
  redisUtils.exists_ now (cache w) (redis.blacklist t1) = false ->
  redisUtils.exists_ now (cache w) (redis.blacklist t2) = false ->
  fst (authenticate cfg now w req1) = fst (authenticate cfg now w req2)
  /\ attached (snd (authenticate cfg now w req1)) = attached (snd (authenticate cfg now w req2))
  /\ sent (snd (authenticate cfg now w req1)) = sent (snd (authenticate cfg now w req2)).
Proof.
  intros Hh1 Hh2 Hv1 Hv2 Hid Hb1 Hb2.
  rewrite (authenticate_verified _ _ _ _ _ _ Hh1 Hv1), (authenticate_verified _ _ _ _ _ _ Hh2 Hv2).
  cbv zeta. rewrite Hb1, Hb2, Hid.
  assert (Hmain :
    forall (P : world * outcome -> world * outcome -> Prop),
      (forall u w0, P (attach_if_active now w0 req1 u) (attach_if_active now w0 req2 u)) ->
      (forall r, P (w, Respond r) (w, Respond r)) ->
      P (if from_option truthy false
              (redisUtils.getDiasporaData now (cache w) (jwt.p_userId (jwt.c_payload c2)))
         then match redisUtils.getDiasporaData now (cache w)
                      (jwt.p_userId (jwt.c_payload c2)) with
              | Some (redis.VUser u) => attach_if_active now w req1 u
              | _ => (w, Respond (res_account_suspended "undefined"))
              end
         else match User.project_identity <$>
                    User.raw_findById (jwt.p_userId (jwt.c_payload c2)) (db w) with
              | Some u =>
                  attach_if_active now
                    (with_cache (fst (redisUtils.cacheDiasporaData now (cache w) (u_id u) u)) w)
                    req1 u
              | None => (w, Respond res_user_not_found)
              end)
        (if from_option truthy false
              (redisUtils.getDiasporaData now (cache w) (jwt.p_userId (jwt.c_payload c2)))
         then match redisUtils.getDiasporaData now (cache w)
                      (jwt.p_userId (jwt.c_payload c2)) with
              | Some (redis.VUser u) => attach_if_active now w req2 u
              | _ => (w, Respond (res_account_suspended "undefined"))
              end
         else match User.project_identity <$>
                    User.raw_findById (jwt.p_userId (jwt.c_payload c2)) (db w) with
              | Some u =>
                  attach_if_active now
                    (with_cache (fst (redisUtils.cacheDiasporaData now (cache w) (u_id u) u)) w)
                    req2 u
              | None => (w, Respond res_user_not_found)
              end)).
  { intros P Ha Hr. destruct (from_option truthy false _).
    - destruct (redisUtils.getDiasporaData _ _ _) as [[| | u |] |]; auto.
    - destruct (User.project_identity <$> _); auto. }
  split; [| split].
  - apply (Hmain (fun a b => fst a = fst b)); [| reflexivity].
    intros u w0. apply attach_if_active_request.
  - apply (Hmain (fun a b => attached (snd a) = attached (snd b))); [| reflexivity].
    intros u w0. apply attach_if_active_request.
  - apply (Hmain (fun a b => sent (snd a) = sent (snd b))); [| reflexivity].
    intros u w0. apply attach_if_active_request.
Qed.

Lemma authenticate_reads_only_the_user_id_witness :
  let forged := jwt.sign {| jwt.p_userId := u_id alice;
                            jwt.p_email := Some "root@x.com";
                            jwt.p_username := Some "root";
                            jwt.p_role := Some "admin";
                            jwt.p_type := None |}
                  (jwt_secret default_config) (jwt_expiresIn default_config) 500 in
  let req2 := incoming (Some (Bearer forged)) None in
  fst (authenticate default_config 1000 fresh_world alice_request)
    = fst (authenticate default_config 1000 fresh_world req2)
  /\ attached (snd (authenticate default_config 1000 fresh_world alice_request))
     = attached (snd (authenticate default_config 1000 fresh_world req2))
  /\ sent (snd (authenticate default_config 1000 fresh_world alice_request))
     = sent (snd (authenticate default_config 1000 fresh_world req2)).
Proof.
  eapply (authenticate_reads_only_the_user_id default_config 1000 fresh_world alice_request
            _ alice_token); reflexivity.
Defined.

(** ** Verification and the check behind it *)

Lemma getDiasporaData_after_one_del now c id :
  redisUtils.getDiasporaData now (fst (redisUtils.del c (redis.diaspora id))) id = None.
Proof.
  unfold redisUtils.getDiasporaData, redisUtils.get.
  rewrite del_ready. destruct (redis.isReady c) eqn:Hr; [| reflexivity].
  unfold redis.GET, redis.live. rewrite del_entry by exact Hr. reflexivity.
Qed.

Lemma findOne_verificationToken_id now h d u :
  findOne_verificationToken now h d = Some u ->
  exists x, User.raw_findById (u_id u) d = Some x.
Proof.
  unfold findOne_verificationToken. intros H.
  destruct (find _ d) as [y |] eqn:Hf; [| discriminate]. injection H as <-.
  apply find_some in Hf. destruct Hf as [Hin _].
  destruct (find_is_some (fun v => bool_decide (u_id v = u_id (User.project_default y))) d y Hin)
    as (x & Hx & _).
  - apply bool_decide_eq_true_2. reflexivity.
  - exists x. exact Hx.
Qed.

(** X21. [verifyEmail] takes effect for the very next request: it drops
    the cached document of the user it verified, so [authenticate]
    reads the stored one, and [requireEmailVerification] lets the
    request through - with or without Redis, and whatever the cache
    held before.  The user is the one the verification token belongs
    to, with an active account; the request carries an access token of
    theirs that verifies and is not revoked. *)
Theorem verified_email_opens_guarded_routes
    (cfg : config) (t t2 : Z) (w : world) (rawToken : string) (u x : user)
    (req : request) (tok : token) (c : jwt.claims) :
  findOne_verificationToken t (Sha256 rawToken) (db w) = Some u ->
  User.raw_findById (u_id u) (db w) = Some x ->
  status x = "active" ->
  authorization req = Some (Bearer tok) ->
  jwt.verify tok (jwt_secret cfg) t2 = jwt.Decoded c ->
  jwt.p_userId (jwt.c_payload c) = u_id u ->
  let w' := fst (verifyEmail t w rawToken) in
  redisUtils.exists_ t2 (cache w') (redis.blacklist tok) = false ->
  exists v w'',
    authenticate cfg t2 w' req = (w'', Next None (set_req_user (Identity v) req) [])
    /\ isEmailVerified v = true
    /\ requireEmailVerification w'' (set_req_user (Identity v) req)
       = (w'', Next None (set_req_user (Identity v) req) []).
Proof.
  intros Hfind Hx Hact Hh Hv Hid w' Hb.
  assert (Hw' : w' = {| db := User.update (u_id u)
                                (fun y => set_diasporaScore (stats_diasporaScore y + 50)
                                            (set_emailVerification None None
                                               (set_isEmailVerified true y))) (db w);
                        cache := fst (redisUtils.del (cache w) (redis.diaspora (u_id u))) |}).
  { unfold w', verifyEmail. rewrite Hfind. reflexivity. }
  clearbody w'. subst w'.
  rewrite (authenticate_verified _ _ _ _ _ _ Hh Hv). cbv zeta. rewrite Hb, Hid.
  cbn [cache db].
  rewrite getDiasporaData_after_one_del. cbn [from_option].
  rewrite find_update_same by reflexivity. rewrite Hx. cbn [fmap option_fmap option_map].
  set (v := User.project_identity _).
  unfold attach_if_active.
  assert (Hs : status v = "active") by exact Hact.
  destruct (decide (status v = "active")) as [_ | Hn]; [| contradiction].
  eexists v, _. split; [reflexivity |]. split; [reflexivity |].
  unfold requireEmailVerification. cbn [req_user set_req_user]. reflexivity.
Qed.

Lemma verified_email_opens_guarded_routes_witness :
  isEmailVerified bob = false
  /\ redisUtils.getDiasporaData 2000 (cache bob_registered) (u_id bob) = Some (redis.VUser bob)
  /\ exists v w'',
       authenticate default_config 2000
         (fst (verifyEmail 1000 bob_registered (en_randomHex bob_entropy)))
         (incoming (Some (Bearer bob_token)) None)
       = (w'', Next None (set_req_user (Identity v) (incoming (Some (Bearer bob_token)) None)) [])
       /\ isEmailVerified v = true
       /\ requireEmailVerification w''
            (set_req_user (Identity v) (incoming (Some (Bearer bob_token)) None))
          = (w'', Next None
                    (set_req_user (Identity v) (incoming (Some (Bearer bob_token)) None)) []).
Proof.
  split; [reflexivity |]. split; [reflexivity |].
  eapply (verified_email_opens_guarded_routes default_config 1000 2000 bob_registered
            (en_randomHex bob_entropy) (User.project_default bob) bob
            (incoming (Some (Bearer bob_token)) None) bob_token); reflexivity.
Defined.

(** ** What gets past the guards *)

Lemma attach_if_active_next now w req u w' err req' hs :
  attach_if_active now w req u = (w', Next err req' hs) ->
  status u = "active" /\ err = None /\ hs = [] /\ req' = set_req_user (Identity u) req
  /\ w' = with_db (User.update (u_id u) (set_lastActive now) (db w)) w.
Proof.
  unfold attach_if_active. destruct (decide (status u = "active")) as [E | _]; [| discriminate].
  intros [= <- <- <- <-]. repeat split. exact E.
Qed.

Lemma authenticate_next cfg now w req w' err req' hs :
  authenticate cfg now w req = (w', Next err req' hs) ->
  err = None /\ hs = []
  /\ exists t c u,
       authorization req = Some (Bearer t)
       /\ jwt.verify t (jwt_secret cfg) now = jwt.Decoded c
       /\ redisUtils.exists_ now (cache w) (redis.blacklist t) = false
       /\ (redisUtils.getDiasporaData now (cache w) (jwt.p_userId (jwt.c_payload c))
             = Some (redis.VUser u)
           \/ User.project_identity <$>
                User.raw_findById (jwt.p_userId (jwt.c_payload c)) (db w) = Some u)
       /\ status u = "active"
       /\ req' = set_req_user (Identity u) req.
Proof.
  unfold authenticate.
  destruct (authorization req) as [[t | s] |]; try discriminate.
  destruct (jwt.verify t (jwt_secret cfg) now) as [c | name] eqn:Hv.
  2: { repeat destruct (decide _); discriminate. }
  cbv zeta.
  destruct (redisUtils.exists_ now (cache w) (redis.blacklist t)) eqn:Hb; [discriminate |].
  destruct (from_option truthy false _).
  - destruct (redisUtils.getDiasporaData _ _ _) as [[s | t' | u | n] |] eqn:Hg;
      try discriminate.
    intros H. apply attach_if_active_next in H as (Hs & -> & -> & -> & _).
    split; [reflexivity |]. split; [reflexivity |].
    exists t, c, u. repeat split; auto.
  - destruct (User.project_identity <$> _) as [u |] eqn:Hf; [| discriminate].
    intros H. apply attach_if_active_next in H as (Hs & -> & -> & -> & _).
    split; [reflexivity |]. split; [reflexivity |].
    exists t, c, u. repeat split; auto.
Qed.

(** X22. [authenticate] hands a request on only with everything in
    place: when it calls [next], it does so without an error, the
    request carried a bearer token that verifies against the access
    secret at that moment and is not in the Revocation Registry, the
    identity attached is the cached document of the token's user or,
    failing that, the stored one, and the status of that document is
    'active'.  In every other case it has answered itself. *)
Theorem authenticate_passes_only_verified_active
    (cfg : config) (now : Z) (w w' : world) (req req' : request)
    (err : option exn) (hs : list (string * Z)) :
  authenticate cfg now w req = (w', Next err req' hs) ->
  err = None /\ hs = []
  /\ exists t c u,
       authorization req = Some (Bearer t)
       /\ jwt.verify t (jwt_secret cfg) now = jwt.Decoded c
       /\ redisUtils.exists_ now (cache w) (redis.blacklist t) = false
       /\ (redisUtils.getDiasporaData now (cache w) (jwt.p_userId (jwt.c_payload c))
             = Some (redis.VUser u)
           \/ User.project_identity <$>
                User.raw_findById (jwt.p_userId (jwt.c_payload c)) (db w) = Some u)
       /\ status u = "active"
       /\ req' = set_req_user (Identity u) req.
Proof. apply authenticate_next. Qed.

Lemma authenticate_passes_only_verified_active_witness :
  None = @None exn /\ @nil (string * Z) = []
  /\ exists t c u,
       authorization alice_request = Some (Bearer t)
       /\ jwt.verify t (jwt_secret default_config) 1000 = jwt.Decoded c
       /\ redisUtils.exists_ 1000 (cache fresh_world) (redis.blacklist t) = false
       /\ (redisUtils.getDiasporaData 1000 (cache fresh_world) (jwt.p_userId (jwt.c_payload c))
             = Some (redis.VUser u)
           \/ User.project_identity <$>
                User.raw_findById (jwt.p_userId (jwt.c_payload c)) (db fresh_world) = Some u)
       /\ status u = "active"
       /\ set_req_user (Identity (User.project_identity alice)) alice_request
          = set_req_user (Identity u) alice_request.
Proof.
  apply (authenticate_passes_only_verified_active default_config 1000 fresh_world
           (fst (authenticate default_config 1000 fresh_world alice_request))
           alice_request
           (set_req_user (Identity (User.project_identity alice)) alice_request) None []).
  reflexivity.
Defined.

(** X23. A route guarded by [authorize(...roles)] behind
    [authenticate], as the administration routes of [routes/users.js]
    are (their [validateObjectId], which reads the path alone, has let
    the id through), lets a request through exactly when [authenticate] has
    attached an identity whose role - the role of the resolved
    document, not the one written in the token - is one of [roles].  A
    request that [authenticate] passed and [authorize] stopped is
    answered 403 INSUFFICIENT_PERMISSIONS. *)
Theorem authorize_goes_by_the_resolved_role
    (cfg : config) (now : Z) (w : world) (req : request) (roles : list string) :
  let guarded := behind_authenticate cfg now w req (authorize roles) in
  (is_next (snd guarded) = true
   <-> exists u, attached (snd (authenticate cfg now w req)) = Some u /\ role u ∈ roles)
  /\ (is_next (snd (authenticate cfg now w req)) = true ->
      is_next (snd guarded) = false ->
      response_status (snd guarded) = Some 403
      /\ response_code (snd guarded) = Some "INSUFFICIENT_PERMISSIONS").
Proof.
  cbv zeta. unfold behind_authenticate.
  destruct (authenticate cfg now w req) as [w1 o] eqn:Ha.
  destruct o as [err req1 hs | r | e].
  - destruct (authenticate_next _ _ _ _ _ _ _ _ Ha)
      as (-> & -> & t & c & u & _ & _ & _ & _ & _ & ->).
    unfold authorize. cbn [req_user set_req_user snd attached].
    destruct (bool_decide (role u ∈ roles)) eqn:E; cbn [snd is_next].
    + apply bool_decide_eq_true in E. split.
      * split; [intros _; exists u; split; [reflexivity | exact E] | reflexivity].
      * intros _ H. discriminate H.
    + apply bool_decide_eq_false in E. split.
      * split; [discriminate |]. intros (u' & [= <-] & Hin). contradiction.
      * intros _ _. split; reflexivity.
  - cbn. split; [| discriminate]. split; [discriminate |]. intros (u & H & _). discriminate H.
  - cbn. split; [| discriminate]. split; [discriminate |]. intros (u & H & _). discriminate H.
Qed.

Lemma authorize_goes_by_the_resolved_role_witness :
  let guarded := behind_authenticate default_config 1000 fresh_world alice_request
                   (authorize ["admin"; "moderator"]) in
  (is_next (snd guarded) = true
   <-> exists u, attached (snd (authenticate default_config 1000 fresh_world alice_request))
                 = Some u
                 /\ role u ∈ ["admin"; "moderator"])
  /\ (is_next (snd (authenticate default_config 1000 fresh_world alice_request)) = true ->
      is_next (snd guarded) = false ->
      response_status (snd guarded) = Some 403
      /\ response_code (snd guarded) = Some "INSUFFICIENT_PERMISSIONS").
Proof.
  apply (authorize_goes_by_the_resolved_role default_config 1000 fresh_world alice_request
           ["admin"; "moderator"]).
Defined.

(** ** A status set by an administrator *)

(** X24. A status that [adminUpdateUserStatus] has stored governs the
    user's next request, because the cached document goes with it: with
    an access token of the user that verifies and is not revoked,
    [authenticate] attaches the identity when the new status is
    'active' and answers 403 ACCOUNT_SUSPENDED, naming the new status,
    when it is 'suspended' or 'deactivated' - whatever the cache held
    before, with or without Redis.  A refresh token of a user so locked
    out is refused with 401.  A status outside the enum changes
    nothing. *)
Theorem admin_status_change_governs_next_request
    (cfg : config) (t : Z) (w : world) (id s : string) (x : user)
    (req : request) (tok : token) (c : jwt.claims) :
  User.raw_findById id (db w) = Some x ->
  authorization req = Some (Bearer tok) ->
  jwt.verify tok (jwt_secret cfg) t = jwt.Decoded c ->
  jwt.p_userId (jwt.c_payload c) = id ->
  let w' := fst (adminUpdateUserStatus w id s) in
  redisUtils.exists_ t (cache w') (redis.blacklist tok) = false ->
  (s = "active" ->
     attached (snd (authenticate cfg t w' req))
     = Some (User.project_identity (set_status "active" x)))
  /\ (s = "suspended" \/ s = "deactivated" ->
      snd (authenticate cfg t w' req) = Respond (res_account_suspended s)
      /\ forall req2 rt c2,
           body_refreshToken req2 = Some rt ->
           jwt.verify rt (jwt_refreshSecret cfg) t = jwt.Decoded c2 ->
           jwt.p_userId (jwt.c_payload c2) = id ->
           response_status (snd (validateRefreshToken cfg t w' req2)) = Some 401)
  /\ (s ∉ status_enum -> w' = w).
Proof.
  intros Hx Hh Hv Hid w' Hb.
  assert (Hidx : u_id x = id) by (apply raw_findById_id in Hx; tauto).
  assert (Hw' : s ∈ status_enum ->
                w' = {| db := User.update id (set_status s) (db w);
                        cache := fst (redisUtils.del (cache w) (redis.diaspora id)) |}).
  { intros Hs. unfold w', adminUpdateUserStatus.
    rewrite (bool_decide_eq_true_2 _ Hs). unfold User.findById. rewrite Hx.
    cbn [fmap option_fmap option_map fst]. cbn. rewrite Hidx. reflexivity. }
  assert (Hmiss : s ∈ status_enum ->
            redisUtils.getDiasporaData t (cache w') id = None
            /\ User.raw_findById id (db w') = Some (set_status s x)).
  { intros Hs. rewrite (Hw' Hs). cbn [cache db]. split.
    - apply getDiasporaData_after_one_del.
    - rewrite find_update_same by reflexivity. rewrite Hx. reflexivity. }
  split; [| split].
  - intros ->.
    destruct Hmiss as [Hg Hf]; [apply list_elem_of_In; simpl; tauto |].
    apply (authenticate_cache_miss cfg t w' req tok c _ Hh Hv Hb);
      [rewrite Hid; exact Hg | rewrite Hid; exact Hf | reflexivity].
  - intros Hs.
    assert (Hin : s ∈ status_enum) by (apply list_elem_of_In; destruct Hs as [-> | ->]; simpl; tauto).
    assert (Hna : s <> "active") by (destruct Hs as [-> | ->]; discriminate).
    destruct (Hmiss Hin) as [Hg Hf]. split.
    + rewrite (authenticate_verified _ _ _ _ _ _ Hh Hv). cbv zeta.
      rewrite Hb, Hid, Hg. cbn [from_option]. rewrite Hf.
      cbn [fmap option_fmap option_map]. unfold attach_if_active.
      destruct (decide (status (User.project_identity (set_status s x)) = "active"))
        as [E | _]; [exfalso; apply Hna; exact E | reflexivity].
    + intros req2 rt c2 Hrt Hv2 Hid2. unfold validateRefreshToken. rewrite Hrt.
      destruct (token_truthy rt) eqn:Etr.
      * rewrite Hv2.
        destruct (redisUtils.exists_ t (cache w') (redis.blacklist_refresh rt)); [reflexivity |].
        unfold User.findById. rewrite Hid2, Hf. cbn [fmap option_fmap option_map].
        destruct (decide (status (User.project_default (set_status s x)) = "active"))
          as [E | _]; [exfalso; apply Hna; exact E | reflexivity].
      * destruct rt as [sec cl | str]; [discriminate Etr |].
        unfold jwt.verify in Hv2. discriminate Hv2.
  - intros Hs. unfold w', adminUpdateUserStatus.
    rewrite (bool_decide_eq_false_2 _ Hs). reflexivity.
Qed.

Lemma admin_status_change_governs_next_request_witness :
  let id := en_objectId bob_entropy in
  let req := incoming (Some (Bearer bob_token)) None in
  let w' := fst (adminUpdateUserStatus bob_registered id "suspended") in
  ("suspended" = "active" ->
     attached (snd (authenticate default_config 2000 w' req))
     = Some (User.project_identity (set_status "active" bob)))
  /\ ("suspended" = "suspended" \/ "suspended" = "deactivated" ->
      snd (authenticate default_config 2000 w' req) = Respond (res_account_suspended "suspended")
      /\ forall req2 rt c2,
           body_refreshToken req2 = Some rt ->
           jwt.verify rt (jwt_refreshSecret default_config) 2000 = jwt.Decoded c2 ->
           jwt.p_userId (jwt.c_payload c2) = id ->
           response_status (snd (validateRefreshToken default_config 2000 w' req2)) = Some 401)
  /\ ("suspended" ∉ status_enum -> w' = bob_registered).
Proof.
  eapply (admin_status_change_governs_next_request default_config 2000 bob_registered
            (en_objectId bob_entropy) "suspended" bob
            (incoming (Some (Bearer bob_token)) None) bob_token); reflexivity.
Defined.

(** ** Asking for the verification mail again *)

Lemma resendVerification_world now en w e x :
  User.raw_findByEmail e (db w) = Some x ->
  isEmailVerified x = false ->
  fst (resendVerification now en w e)
  = with_db (User.update (u_id x)
               (set_emailVerification (Some (Sha256 (en_randomHex en)))
                  (Some (now + 24 * 60 * 60 * 1000))) (db w)) w.
Proof.
  intros Hx Hnv. unfold resendVerification, User.findOne_email. rewrite Hx.
  cbn [fmap option_fmap option_map].
  change (isEmailVerified (User.project_default x)) with (isEmailVerified x).
  rewrite Hnv. reflexivity.
Qed.

(** X25. [resendVerification] replaces the token: for a registered
    address that is not verified yet, the token mailed before is
    refused from then on, and the new one verifies the address during
    the next 24 hours.  The old token is one that no other user holds,
    the new one a token that nobody held. *)
Theorem resend_supersedes_the_old_token
    (now t' : Z) (en : entropy) (w : world) (e old : string) (x : user) :
  User.raw_findByEmail e (db w) = Some x ->
  isEmailVerified x = false ->
  old <> en_randomHex en ->
  (forall y, In y (db w) -> emailVerificationToken y = Some (Sha256 old) -> u_id y = u_id x) ->
  (forall y, In y (db w) -> emailVerificationToken y <> Some (Sha256 (en_randomHex en))) ->
  t' < now + 24 * 60 * 60 * 1000 ->
  let refused := throw_AppError "Geçersiz veya süresi dolmuş doğrulama token'ı" 400
                   "INVALID_VERIFICATION_TOKEN" in
  let w1 := fst (resendVerification now en w e) in
  let v := verifyEmail t' w1 (en_randomHex en) in
  (forall t3, verifyEmail t3 w1 old = (w1, refused))
  /\ snd v = Respond (success_message
                        "E-posta adresi başarıyla doğrulandı! +50 diaspora puanı kazandınız 🎉")
  /\ exists u', User.raw_findById (u_id x) (db (fst v)) = Some u'
                /\ isEmailVerified u' = true
                /\ emailVerificationToken u' = None.
Proof.
  intros Hx Hnv Hne Hmine Hfresh Ht refused w1 v.
  set (f := set_emailVerification (Some (Sha256 (en_randomHex en)))
              (Some (now + 24 * 60 * 60 * 1000))).
  assert (Hw1 : w1 = with_db (User.update (u_id x) f (db w)) w)
    by (apply resendVerification_world; assumption).
  clearbody w1. subst w1.
  destruct (raw_findByEmail_email _ _ _ Hx) as [_ Hin].
  destruct (find_is_some (fun y => bool_decide (u_id y = u_id x)) (db w) x Hin
              (bool_decide_eq_true_2 _ eq_refl)) as (x' & Hx' & _).
  fold (User.raw_findById (u_id x) (db w)) in Hx'.
  assert (Hidx : u_id x' = u_id x) by (apply raw_findById_id in Hx'; tauto).
  split; [| split].
  - intros t3. unfold verifyEmail, findOne_verificationToken. cbn [db with_db].
    rewrite find_all_false; [reflexivity |].
    intros y' Hy'. apply In_update in Hy' as (y & Hy & ->).
    apply andb_false_iff. left. apply bool_decide_eq_false_2.
    destruct (bool_decide (u_id y = u_id x)) eqn:E.
    + cbn. intros [= H]. apply Hne. symmetry. exact H.
    + intros H. apply bool_decide_eq_false in E. apply E. now apply Hmine.
  - unfold v, verifyEmail, findOne_verificationToken. cbn [db with_db].
    rewrite find_update_marks; [rewrite Hx'; reflexivity | | | reflexivity].
    + intros y Hy. apply andb_false_iff. left. apply bool_decide_eq_false_2.
      now apply Hfresh.
    + intros y. cbn. rewrite bool_decide_eq_true_2 by reflexivity.
      apply Z.ltb_lt in Ht. rewrite Ht. reflexivity.
  - unfold v, verifyEmail, findOne_verificationToken. cbn [db with_db].
    rewrite find_update_marks; [rewrite Hx' | | | reflexivity].
    + cbn [fmap option_fmap option_map fst db].
      change (u_id (User.project_default (f x'))) with (u_id x'). rewrite Hidx.
      rewrite !find_update_same by reflexivity. rewrite Hx'.
      cbn [fmap option_fmap option_map]. eexists. split; [reflexivity |]. split; reflexivity.
    + intros y Hy. apply andb_false_iff. left. apply bool_decide_eq_false_2.
      now apply Hfresh.
    + intros y. cbn. rewrite bool_decide_eq_true_2 by reflexivity.
      apply Z.ltb_lt in Ht. rewrite Ht. reflexivity.
Qed.

Lemma resend_supersedes_the_old_token_witness :
  let en := {| en_objectId := ""; en_salt := ""; en_randomHex := "c0ffee" |} in
  let refused := throw_AppError "Geçersiz veya süresi dolmuş doğrulama token'ı" 400
                   "INVALID_VERIFICATION_TOKEN" in
  let w1 := fst (resendVerification 1000 en bob_registered "b@x.com") in
  let v := verifyEmail 2000 w1 "c0ffee" in
  (forall t3, verifyEmail t3 w1 (en_randomHex bob_entropy) = (w1, refused))
  /\ snd v = Respond (success_message
                        "E-posta adresi başarıyla doğrulandı! +50 diaspora puanı kazandınız 🎉")
  /\ exists u', User.raw_findById (u_id bob) (db (fst v)) = Some u'
                /\ isEmailVerified u' = true
                /\ emailVerificationToken u' = None.
Proof.
  apply (resend_supersedes_the_old_token 1000 2000
           {| en_objectId := ""; en_salt := ""; en_randomHex := "c0ffee" |}
           bob_registered "b@x.com" (en_randomHex bob_entropy) bob).
  - reflexivity.
  - reflexivity.
  - discriminate.
  - intros y [<- | [<- | []]]; [discriminate | reflexivity].
  - intros y [<- | [<- | []]]; discriminate.
  - lia.
Defined.

(** ** One counter for all the limiters *)

(** X26. The limiter counts under `rate_limit:user:<id>`, whatever the
    route: the requests a user has sent through one limiter are charged
    to every other.  After a run of requests through a limiter of
    window [windowA], begun at [t0] with no counter alive, a request of
    the same user through a limiter of window [windowB] and limit [KB],
    arriving before [t0] + [windowA] has passed, is judged on the total
    count: it is refused with 429 as soon as the earlier requests have
    used up [KB], although none of them went through this limiter, and
    the counter keeps the expiry that the first limiter gave it. *)
Theorem limiters_draw_on_one_budget
    (windowA KA windowB KB : Z) (w : world) (req req' : request) (u u' : user)
    (t0 : Z) (ts : list Z) (t : Z) :
  req_user req = Identity u ->
  req_user req' = Identity u' ->
  u_id u' = u_id u ->
  redis.isReady (cache w) = true ->
  1000 <= windowA ->
  redis.live t0 (cache w) (redis.rate_limit_user (u_id u)) = None ->
  Forall (fun x => t0 <= x < t0 + windowA / 1000 * 1000) ts ->
  t < t0 + windowA / 1000 * 1000 ->
  let w1 := fst (rate_limited_run windowA KA w req (t0 :: ts)) in
  snd (userRateLimit windowB KB t w1 req')
    = rate_limit_verdict windowB KB req' (2 + Z.of_nat (length ts)) t
  /\ is_rate_limited (snd (userRateLimit windowB KB t w1 req'))
     = (KB <? 2 + Z.of_nat (length ts))
  /\ redis.keys (cache (fst (userRateLimit windowB KB t w1 req')))
                (redis.rate_limit_user (u_id u))
     = Some {| redis.e_value := redis.VInt (2 + Z.of_nat (length ts));
               redis.e_expireAt := Some (t0 + windowA / 1000 * 1000) |}.
Proof.
  intros Hu Hu' Hid Hr Hw Hl Hts Ht w1.
  destruct (run_of_new_window windowA KA req u Hu w t0 ts Hr Hw Hl Hts) as (_ & Hr1 & Hk1).
  fold w1 in Hr1, Hk1.
  destruct (incr_live_counter t (cache w1) (redis.rate_limit_user (u_id u)) (windowB / 1000)
              (1 + Z.of_nat (length ts)) _ Hr1 Hk1 Ht ltac:(lia)) as (c' & Hi & _ & Hk').
  replace (1 + Z.of_nat (length ts) + 1) with (2 + Z.of_nat (length ts)) in Hi, Hk' by lia.
  rewrite <- Hid in Hi.
  rewrite (userRateLimit_counts windowB KB req' u' Hu' t w1 c' _ Hi).
  cbn [fst snd cache with_cache]. split; [reflexivity |]. split; [| exact Hk'].
  unfold rate_limit_verdict. destruct (KB <? 2 + Z.of_nat (length ts)); reflexivity.
Qed.

Lemma limiters_draw_on_one_budget_witness :
  let req := set_req_user (Identity alice) alice_request in
  let w1 := fst (rate_limited_run (60 * 60 * 1000) 5 fresh_world req (0 :: [])) in
  snd (userRateLimit (24 * 60 * 60 * 1000) 1 1000 w1 req)
    = rate_limit_verdict (24 * 60 * 60 * 1000) 1 req (2 + Z.of_nat (length (@nil Z))) 1000
  /\ is_rate_limited (snd (userRateLimit (24 * 60 * 60 * 1000) 1 1000 w1 req))
     = (1 <? 2 + Z.of_nat (length (@nil Z)))
  /\ redis.keys (cache (fst (userRateLimit (24 * 60 * 60 * 1000) 1 1000 w1 req)))
                (redis.rate_limit_user (u_id alice))
     = Some {| redis.e_value := redis.VInt (2 + Z.of_nat (length (@nil Z)));
               redis.e_expireAt := Some (0 + 60 * 60 * 1000 / 1000 * 1000) |}.
Proof.
  apply (limiters_draw_on_one_budget (60 * 60 * 1000) 5 (24 * 60 * 60 * 1000) 1 fresh_world
           (set_req_user (Identity alice) alice_request)
           (set_req_user (Identity alice) alice_request) alice alice 0 [] 1000).
  - reflexivity.
  - reflexivity.
  - reflexivity.
  - reflexivity.
  - lia.
  - reflexivity.
  - constructor.
  - vm_compute. reflexivity.
Defined.

(** ** Joining and leaving a community *)

Lemma find_none_forall {A} (f : A -> bool) l :
  (forall x, In x l -> f x = false) <-> find f l = None.
Proof.
  split; [apply find_all_false |].
  intros H x Hx. destruct (f x) eqn:E; [| reflexivity].
  destruct (find_is_some f l x Hx E) as (y & Hy & _). congruence.
Qed.

Lemma filter_all_kept {A} (f : A -> bool) l :
  (forall x, In x l -> f x = true) -> List.filter f l = l.
Proof.
  induction l as [| a l IH]; intros H; [reflexivity |]. cbn.
  rewrite (H a (or_introl eq_refl)). f_equal. apply IH. intros x Hx. apply H. now right.
Qed.

Lemma addMember_new now userId role_ c :
  role_ ∈ Community.role_enum ->
  (forall m, In m (Community.members c) -> Community.m_user m <> userId) ->
  Community.addMember now userId role_ c
  = inr (Community.with_members now
           (Community.members c ++ [{| Community.m_user := userId;
                                       Community.m_joinedAt := now;
                                       Community.m_role := role_;
                                       Community.m_status := "active" |}])%list
           (Some now) c).
Proof.
  intros Hr Hnew. unfold Community.addMember.
  rewrite find_all_false.
  - rewrite (bool_decide_eq_true_2 _ Hr). reflexivity.
  - intros m Hm. apply bool_decide_eq_false_2. now apply Hnew.
Qed.

Lemma isMember_joined now userId role_ ms j c v :
  Community.isMember v
    (Community.with_members now
       (ms ++ [{| Community.m_user := userId; Community.m_joinedAt := j;
                  Community.m_role := role_; Community.m_status := "active" |}])%list
       (Some now) c)
  = existsb (fun m => bool_decide (Community.m_user m = v)
                      && bool_decide (Community.m_status m = "active")) ms
    || bool_decide (userId = v).
Proof.
  unfold Community.isMember. cbn [Community.members Community.with_members].
  rewrite existsb_app. cbn [existsb Community.m_user Community.m_status].
  rewrite (bool_decide_eq_true_2 ("active" = "active") eq_refl).
  now rewrite andb_true_r, orb_false_r.
Qed.

(** X27. Joining and leaving undo each other.  For a user without an
    entry in the member list and a role of the schema, [addMember]
    succeeds; afterwards [isMember] holds for the user and is unchanged
    for everybody else, the stored member count is the length of the
    list, one more than before, and a second [addMember] throws 'User
    is already a member'.  [removeMember] then gives back the member
    list there was, and [isMember] no longer holds. *)
Theorem join_then_leave_restores_the_members
    (now t2 : Z) (userId role_ : string) (c : Community.document) :
  role_ ∈ Community.role_enum ->
  (forall m, In m (Community.members c) -> Community.m_user m <> userId) ->
  exists c',
    Community.addMember now userId role_ c = inr c'
    /\ Community.isMember userId c' = true
    /\ (forall v, v <> userId -> Community.isMember v c' = Community.isMember v c)
    /\ Community.stats_memberCount c' = Z.of_nat (length (Community.members c')) 
    /\ Community.stats_memberCount c' = Z.of_nat (length (Community.members c)) + 1
    /\ (forall t r, Community.addMember t userId r c' = inl Community.AlreadyMember)
    /\ Community.members (Community.removeMember t2 userId c') = Community.members c
    /\ Community.stats_memberCount (Community.removeMember t2 userId c')
       = Z.of_nat (length (Community.members c))
    /\ Community.isMember userId (Community.removeMember t2 userId c') = false.
Proof.
  intros Hr Hnew. eexists. split; [apply addMember_new; assumption |].
  assert (Hfilter :
    List.filter (fun m => negb (bool_decide (Community.m_user m = userId)))
      (Community.members c ++ [{| Community.m_user := userId; Community.m_joinedAt := now;
                                  Community.m_role := role_;
                                  Community.m_status := "active" |}])%list
    = Community.members c).
  { rewrite List.filter_app. cbn [List.filter Community.m_user].
    rewrite (bool_decide_eq_true_2 (userId = userId) eq_refl). cbn [negb].
    rewrite app_nil_r. apply filter_all_kept.
    intros m Hm. apply negb_true_iff, bool_decide_eq_false_2. now apply Hnew. }
  split; [| split; [| split; [| split; [| split; [| split; [| split]]]]]].
  - rewrite isMember_joined. rewrite (bool_decide_eq_true_2 (userId = userId) eq_refl).
    apply orb_true_r.
  - intros v Hv. rewrite isMember_joined.
    rewrite bool_decide_eq_false_2 by (intros E; apply Hv; now symmetry).
    apply orb_false_r.
  - reflexivity.
  - cbn [Community.stats_memberCount Community.with_members].
    rewrite length_app. cbn [length]. lia.
  - intros t r. unfold Community.addMember.
    cbn [Community.members Community.with_members].
    rewrite find_app_none
      by (intros m Hm; apply bool_decide_eq_false_2; now apply Hnew).
    cbn [find Community.m_user].
    rewrite (bool_decide_eq_true_2 (userId = userId) eq_refl). reflexivity.
  - unfold Community.removeMember. cbn [Community.members Community.with_members].
    exact Hfilter.
  - unfold Community.removeMember.
    cbn [Community.members Community.with_members Community.stats_memberCount].
    rewrite Hfilter. reflexivity.
  - unfold Community.removeMember, Community.isMember.
    cbn [Community.members Community.with_members]. rewrite Hfilter.
    apply not_true_is_false. intros H. apply existsb_exists in H as (m & Hm & Hp).
    apply andb_true_iff in Hp as [Hp _]. apply bool_decide_eq_true in Hp.
    exact (Hnew m Hm Hp).
Qed.

Lemma join_then_leave_restores_the_members_witness :
  exists c',
    Community.addMember 1000 (u_id alice) "member" lyon = inr c'
    /\ Community.isMember (u_id alice) c' = true
    /\ (forall v, v <> u_id alice -> Community.isMember v c' = Community.isMember v lyon)
    /\ Community.stats_memberCount c' = Z.of_nat (length (Community.members c'))
    /\ Community.stats_memberCount c' = Z.of_nat (length (Community.members lyon)) + 1
    /\ (forall t r, Community.addMember t (u_id alice) r c' = inl Community.AlreadyMember)
    /\ Community.members (Community.removeMember 2000 (u_id alice) c') = Community.members lyon
    /\ Community.stats_memberCount (Community.removeMember 2000 (u_id alice) c')
       = Z.of_nat (length (Community.members lyon))
    /\ Community.isMember (u_id alice) (Community.removeMember 2000 (u_id alice) c') = false.
Proof.
  apply (join_then_leave_restores_the_members 1000 2000 (u_id alice) "member" lyon).
  - apply list_elem_of_In. simpl. tauto.
  - intros m [<- | []]. discriminate.
Defined.

(** X28. A ban lives in the member entry and nowhere else.  A user
    whose entries in the member list are all muted or banned is no
    member for [isMember], and [addMember] refuses them as 'already a
    member'; once [removeMember] has run for them, [addMember] takes
    them back, with status 'active'. *)
Theorem leaving_wipes_a_ban
    (now t2 : Z) (userId role_ : string) (c : Community.document) (m : Community.member) :
  In m (Community.members c) ->
  Community.m_user m = userId ->
  (forall m', In m' (Community.members c) -> Community.m_user m' = userId ->
              Community.m_status m' <> "active") ->
  role_ ∈ Community.role_enum ->
  Community.isMember userId c = false
  /\ Community.addMember now userId role_ c = inl Community.AlreadyMember
  /\ exists c',
       Community.addMember t2 userId role_ (Community.removeMember now userId c) = inr c'
       /\ Community.isMember userId c' = true.
Proof.
  intros Hin Hm Hban Hr. split; [| split].
  - unfold Community.isMember. apply not_true_is_false. intros H.
    apply existsb_exists in H as (m' & Hm' & Hp). apply andb_true_iff in Hp as [Hu Hs].
    apply bool_decide_eq_true in Hu, Hs. exact (Hban m' Hm' Hu Hs).
  - unfold Community.addMember.
    destruct (find_is_some (fun x => bool_decide (Community.m_user x = userId))
                (Community.members c) m Hin (bool_decide_eq_true_2 _ Hm)) as (y & -> & _).
    reflexivity.
  - eexists. split.
    + apply addMember_new; [exact Hr |].
      unfold Community.removeMember. cbn [Community.members Community.with_members].
      intros x Hx. apply filter_In in Hx as [_ Hx].
      apply negb_true_iff, bool_decide_eq_false in Hx. exact Hx.
    + rewrite isMember_joined. rewrite (bool_decide_eq_true_2 (userId = userId) eq_refl).
      apply orb_true_r.
Qed.

Lemma leaving_wipes_a_ban_witness :
  Community.isMember "64b7f0a1c2d3e4f5a6b7c8dc" lyon = false
  /\ Community.addMember 1000 "64b7f0a1c2d3e4f5a6b7c8dc" "member" lyon = inl Community.AlreadyMember
  /\ exists c',
       Community.addMember 2000 "64b7f0a1c2d3e4f5a6b7c8dc" "member" (Community.removeMember 1000 "64b7f0a1c2d3e4f5a6b7c8dc" lyon)
       = inr c'
       /\ Community.isMember "64b7f0a1c2d3e4f5a6b7c8dc" c' = true.
Proof.
  apply (leaving_wipes_a_ban 1000 2000 "64b7f0a1c2d3e4f5a6b7c8dc" "member" lyon
           {| Community.m_user := "64b7f0a1c2d3e4f5a6b7c8dc"; Community.m_joinedAt := 0;
              Community.m_role := "member"; Community.m_status := "banned" |}).
  - left. reflexivity.
  - reflexivity.
  - intros m' [<- | []] _. discriminate.
  - apply list_elem_of_In. simpl. tauto.
Defined.

(** ** The membership check *)

Lemma findById_save cid c c' cs :
  Community.findById cid cs = Some c ->
  Community.c_id c' = Community.c_id c ->
  Community.findById cid (Community.save c' cs) = Some c'.
Proof.
  unfold Community.findById, Community.save. intros Hf Hid.
  induction cs as [| x cs IH]; [discriminate |]. cbn [map find] in *.
  destruct (bool_decide (Community.c_id x = cid)) eqn:E.
  - injection Hf as ->. rewrite Hid, (bool_decide_eq_true_2 _ eq_refl).
    rewrite Hid, E. reflexivity.
  - destruct (bool_decide (Community.c_id x = Community.c_id c')) eqn:E'.
    + apply bool_decide_eq_true in E'. apply bool_decide_eq_false in E.
      apply find_some in Hf as [_ Hc]. apply bool_decide_eq_true in Hc.
      exfalso. apply E. congruence.
    + rewrite E. apply IH, Hf.
Qed.

(** X29. [verifyCommunityMembership] follows the member list of the
    stored community.  For an authenticated user without an entry in
    the list - the creator of the community included - it answers 403
    NOT_COMMUNITY_MEMBER; once [addMember] has been saved for them it
    calls [next], with the community on the request and
    [req.isCommunityModerator] as [isModerator] has it; once
    [removeMember] has been saved it answers 403 again. *)
Theorem membership_check_follows_the_member_list
    (isObjectId : string -> bool) (cs : Community.collection) (cid role_ : string)
    (c : Community.document) (req : community_request) (u : user) (now t2 : Z) :
  req_user (cr_request req) = Identity u ->
  params_communityId req = Some cid ->
  cid <> "" ->
  isObjectId cid = true ->
  Community.findById cid cs = Some c ->
  (forall m, In m (Community.members c) -> Community.m_user m <> u_id u) ->
  role_ ∈ Community.role_enum ->
  let refused := CommunityRespond
                   (fail 403 "Community membership required"
                      (Some "You must be a member of this community to perform this action")
                      "NOT_COMMUNITY_MEMBER") in
  verifyCommunityMembership isObjectId cs req = refused
  /\ exists c',
       Community.addMember now (u_id u) role_ c = inr c'
       /\ verifyCommunityMembership isObjectId (Community.save c' cs) req
          = CommunityNext {| cr_request := cr_request req;
                             params_communityId := params_communityId req;
                             body_community := body_community req;
                             req_community := Some c';
                             req_isCommunityModerator :=
                               Some (Community.isModerator (u_id u) c) |}
       /\ verifyCommunityMembership isObjectId
            (Community.save (Community.removeMember t2 (u_id u) c') (Community.save c' cs)) req
          = refused.
Proof.
  intros Hu Hp Hne Hoid Hf Hnew Hr refused.
  assert (Hcheck : forall cs' c0,
            Community.findById cid cs' = Some c0 ->
            verifyCommunityMembership isObjectId cs' req
            = if Community.isMember (u_id u) c0
              then CommunityNext {| cr_request := cr_request req;
                                    params_communityId := params_communityId req;
                                    body_community := body_community req;
                                    req_community := Some c0;
                                    req_isCommunityModerator :=
                                      Some (Community.isModerator (u_id u) c0) |}
              else refused).
  { intros cs' c0 H0. unfold verifyCommunityMembership, requested_community.
    rewrite Hu, Hp, (bool_decide_eq_false_2 _ Hne), (bool_decide_eq_false_2 _ Hne), Hoid, H0.
    reflexivity. }
  assert (Hnot : forall ms, (forall m, In m ms -> Community.m_user m <> u_id u) ->
            existsb (fun m => bool_decide (Community.m_user m = u_id u)
                              && bool_decide (Community.m_status m = "active")) ms = false).
  { intros ms H. apply not_true_is_false. intros E.
    apply existsb_exists in E as (m & Hm & Hp'). apply andb_true_iff in Hp' as [Hp' _].
    apply bool_decide_eq_true in Hp'. exact (H m Hm Hp'). }
  split.
  - rewrite (Hcheck cs c Hf). unfold Community.isMember. rewrite (Hnot _ Hnew). reflexivity.
  - set (c' := Community.with_members now
                  (Community.members c ++ [{| Community.m_user := u_id u;
                                              Community.m_joinedAt := now;
                                              Community.m_role := role_;
                                              Community.m_status := "active" |}])%list
                  (Some now) c).
    assert (Hf' : Community.findById cid (Community.save c' cs) = Some c')
      by (apply (findById_save cid c c' cs Hf); reflexivity).
    exists c'. split; [apply addMember_new; assumption |]. split.
    + rewrite (Hcheck _ _ Hf'). unfold c'.
      rewrite isMember_joined, (bool_decide_eq_true_2 (u_id u = u_id u) eq_refl), orb_true_r.
      reflexivity.
    + rewrite (Hcheck _ (Community.removeMember t2 (u_id u) c')
                 (findById_save cid c' (Community.removeMember t2 (u_id u) c')
                    (Community.save c' cs) Hf' eq_refl)).
      unfold Community.isMember, Community.removeMember.
      cbn [Community.members Community.with_members].
      rewrite Hnot; [reflexivity |].
      intros m Hm. apply filter_In in Hm as [_ Hm].
      apply negb_true_iff, bool_decide_eq_false in Hm. exact Hm.
Qed.

Lemma membership_check_follows_the_member_list_witness :
  let req := {| cr_request := set_req_user (Identity bob) (incoming (Some (Bearer bob_token)) None);
                params_communityId := Some (Community.c_id lyon);
                body_community := None;
                req_community := None;
                req_isCommunityModerator := None |} in
  let refused := CommunityRespond
                   (fail 403 "Community membership required"
                      (Some "You must be a member of this community to perform this action")
                      "NOT_COMMUNITY_MEMBER") in
  Community.isModerator (u_id bob) lyon = true
  /\ verifyCommunityMembership (fun _ => true) [lyon] req = refused
  /\ exists c',
       Community.addMember 1000 (u_id bob) "leader" lyon = inr c'
       /\ verifyCommunityMembership (fun _ => true) (Community.save c' [lyon]) req
          = CommunityNext {| cr_request := cr_request req;
                             params_communityId := params_communityId req;
                             body_community := body_community req;
                             req_community := Some c';
                             req_isCommunityModerator :=
                               Some (Community.isModerator (u_id bob) lyon) |}
       /\ verifyCommunityMembership (fun _ => true)
            (Community.save (Community.removeMember 2000 (u_id bob) c')
               (Community.save c' [lyon])) req
          = refused.
Proof.
  split; [reflexivity |].
  apply (membership_check_follows_the_member_list (fun _ => true) [lyon]
           (Community.c_id lyon) "leader" lyon
           {| cr_request := set_req_user (Identity bob)
                              (incoming (Some (Bearer bob_token)) None);
              params_communityId := Some (Community.c_id lyon);
              body_community := None;
              req_community := None;
              req_isCommunityModerator := None |} bob 1000 2000).
  - reflexivity.
  - reflexivity.
  - discriminate.
  - reflexivity.
  - reflexivity.
  - intros m [<- | []]. discriminate.
  - apply list_elem_of_In. simpl. tauto.
Defined.
